(** * Import Pixel Art: a shallow embedding of [io_import_pixelart.py]

    The add-on reads an image through the host application and creates one
    unit cube per visible pixel, one material per colour and one empty
    parent object.  This development embeds [read_pixel_art],
    [ImportPixelArt.execute], [register] and [unregister] as functions over
    an explicit model of the host's data blocks and registries and proves
    properties of them.

    Layout:
    - the part of the Python language the script relies on (exceptions,
      [int()], ["%02X"], [str.format]);
    - the host data blocks ([bpy.data.images], [materials], [meshes],
      [objects], the active collection) as a store of lists whose indices
      are the handles the script passes around;
    - the script itself;
    - the properties. *)

From Stdlib Require Import ZArith QArith Qround List String Ascii Bool Lia Arith.
From Stdlib Require Import DecimalString.
Import ListNotations.

Close Scope Q_scope.
Open Scope string_scope.

(** ** Python values and exceptions *)

(** The exception classes the script raises or catches by name, each
    carrying what [str] of the exception shows: the message, or for a
    [KeyError] the key.  Every other class is [OtherError] with its class
    name. *)
Inductive exn : Type :=
| IOError (msg : string)
| ValueError (msg : string)
| KeyError (key : string)
| IndexError (msg : string)
| RuntimeError (msg : string)
| OtherError (cls msg : string).

Inductive result (A : Type) : Type :=
| Return (a : A)
| Raise (e : exn).
Arguments Return {A} a.
Arguments Raise {A} e.

(** The two kinds of values the script passes to [str.format]. *)
Inductive pyval : Type :=
| PStr (s : string)
| PInt (z : Z).

(** A sample of [image.pixels].  The host stores single-precision samples
    and hands them to Python widened to double precision.  A finite
    single-precision value has a 24-bit significand, so its product with
    255 has at most 32 significant bits and is computed without rounding;
    comparison with 0 and 1 is exact as well.  Samples are therefore
    modelled by exact rationals; [==] on floats is [Qeq_bool] (which, like
    Python, does not distinguish the two zeros).  Non-finite samples are
    outside the model. *)
Definition sample : Type := Q.
Bind Scope Q_scope with sample.

(** [v < w] on floats. *)
Definition Qlt_bool (v w : sample) : bool := negb (Qle_bool w v).

(** [int(v)] on a float: truncation toward zero. *)
Definition int_of_float (v : sample) : Z := Z.quot (Qnum v) (Zpos (Qden v)).

(** [str(n)] for an [int]. *)
Definition str_of_int (n : Z) : string := NilZero.string_of_int (Z.to_int n).

Definition snoc (s : string) (c : ascii) : string := s ++ String c EmptyString.

(** *** [repr(s)] and [ascii(s)] for a [str]

    A character stands for the code point of its number, so the strings of
    the model are the texts over the code points below 256.  [repr] puts the
    text between single quotes, or between double quotes when it holds a
    single quote and no double quote; it escapes the quote in use and the
    backslash, writes tab, line feed and carriage return as [\t], [\n] and
    [\r], and every other character that is not printable as [\xhh] in
    lower-case digits.  Below 256 the printable code points are 32 to 126
    and 161 to 255 without 173.  [ascii] also escapes what is not ASCII. *)

Definition backslash : ascii := "092"%char.
Definition single_quote : ascii := "039"%char.
Definition double_quote : ascii := "034"%char.

Definition lower_hex_digit (d : Z) : ascii :=
  nth (Z.to_nat d)
      ["0"; "1"; "2"; "3"; "4"; "5"; "6"; "7";
       "8"; "9"; "a"; "b"; "c"; "d"; "e"; "f"]%char "0"%char.

(** ["%x" % n] for [0 <= n < 256]. *)
Definition lower_hex (n : Z) : string :=
  if (n <? 16)%Z then String (lower_hex_digit n) ""
  else String (lower_hex_digit (n / 16)) (String (lower_hex_digit (n mod 16)) "").

(** [c.isprintable()] *)
Definition printable (c : ascii) : bool :=
  let n := nat_of_ascii c in
  ((32 <=? n) && (n <=? 126) || (161 <=? n) && negb (n =? 173))%nat.

Definition printable_ascii (c : ascii) : bool :=
  let n := nat_of_ascii c in ((32 <=? n) && (n <=? 126))%nat.

Fixpoint contains (c : ascii) (s : string) : bool :=
  match s with
  | EmptyString => false
  | String c' r => (c' =? c)%char || contains c r
  end.

Definition quote_of (s : string) : ascii :=
  if contains single_quote s && negb (contains double_quote s)
  then double_quote else single_quote.

(** How one character is written between the quotes; [keep] tells the
    characters that are copied as they are. *)
Definition escape (keep : ascii -> bool) (quote c : ascii) : string :=
  if ((c =? quote) || (c =? backslash))%char then String backslash (String c "")
  else if (c =? "009")%char then String backslash "t"
  else if (c =? "010")%char then String backslash "n"
  else if (c =? "013")%char then String backslash "r"
  else if keep c then String c ""
  else
    let n := Z.of_nat (nat_of_ascii c) in
    String backslash
      (String "x"%char
         (String (lower_hex_digit (n / 16))
            (String (lower_hex_digit (n mod 16)) ""))).

Fixpoint escaped (keep : ascii -> bool) (quote : ascii) (s : string) : string :=
  match s with
  | EmptyString => ""
  | String c r => escape keep quote c ++ escaped keep quote r
  end.

Definition quoted (keep : ascii -> bool) (s : string) : string :=
  let quote := quote_of s in
  String quote (escaped keep quote s ++ String quote "").

Definition repr_str (s : string) : string := quoted printable s.

Definition ascii_str (s : string) : string := quoted printable_ascii s.

(** *** ["%02X" % n] *)

Definition hex_digit (d : Z) : ascii :=
  nth (Z.to_nat d)
      ["0"; "1"; "2"; "3"; "4"; "5"; "6"; "7";
       "8"; "9"; "A"; "B"; "C"; "D"; "E"; "F"]%char "0"%char.

(** Upper-case hexadecimal digits of [n >= 0], most significant first.  The
    number of digits of [n] is at most [Z.log2 n + 1], which is the bound
    [to_hex] supplies. *)
Fixpoint hex_digits (bound : nat) (n : Z) (acc : string) : string :=
  match bound with
  | O => acc
  | S b =>
      let acc' := String (hex_digit (n mod 16)) acc in
      if (n / 16 =? 0)%Z then acc' else hex_digits b (n / 16) acc'
  end.

Definition to_hex (n : Z) : string :=
  hex_digits (S (Z.to_nat (Z.log2 n))) n "".

Fixpoint zeros (k : nat) : string :=
  match k with
  | O => ""
  | S k' => String "0"%char (zeros k')
  end.

(** Left padding with ['0'] up to [width] characters. *)
Definition zfill (width : nat) (s : string) : string :=
  zeros (width - String.length s) ++ s.

(** The conversion ["%02X"]: the sign, if any, counts for the width and the
    zeros go between the sign and the digits. *)
Definition percent_02X (n : Z) : string :=
  if (n <? 0)%Z then "-" ++ zfill 1 (to_hex (Z.abs n))
  else zfill 2 (to_hex n).

(** *** [os.path.split(p)[1]] (POSIX flavour): the text after the last
    slash. *)
Fixpoint split_tail (p : string) (tail : string) : string :=
  match p with
  | EmptyString => tail
  | String c r =>
      if (c =? "/")%char then split_tail r "" else split_tail r (snoc tail c)
  end.

Definition path_tail (p : string) : string := split_tail p "".

(** ** [str.format] with keyword arguments

    The model follows CPython's [Objects/stringlib/unicode_format.h] as of
    version 3.8 and later (before 3.8 the [IndexError] of a numbered field
    has the text of the tuple's own error; the class is the same):
    [MarkupIterator_next] and [parse_field] split the template into literal
    text and replacement fields, [get_field_object] resolves a field name,
    [do_conversion] applies [!r], [!s] or [!a], a format specification that
    contains braces is expanded by a nested [build_string], and
    [render_field] calls [format(obj, spec)].

    What lies behind attribute access, subscription, conversion and
    [__format__] is the interpreter's object model; it is a parameter
    ([ObjectProtocol]) constrained only by how [str] and [int] render under
    the empty specification. *)

Inductive subscript : Type :=
| SubInt (i : Z)
| SubStr (k : string).

Inductive conv : Type := ConvRepr | ConvStr | ConvAscii.

Class ObjectProtocol : Type := {
  obj : Type;
  of_val : pyval -> obj;
  py_getattr : obj -> string -> result obj;
  py_getitem : obj -> subscript -> result obj;
  py_convert : conv -> obj -> result obj;
  py_format : obj -> string -> result string;
  py_format_str : forall s, py_format (of_val (PStr s)) "" = Return s;
  py_format_int : forall z, py_format (of_val (PInt z)) "" = Return (str_of_int z)
}.

(** How a call of [format] can fail, by origin. *)
Inductive format_error : Type :=
| Syntax (msg : string)        (* ValueError raised by the format machinery *)
| MissingKey (key : string)    (* KeyError: the named field is not a keyword argument *)
| NoPositional (index : Z)     (* IndexError: numbered field, but there are no positional arguments *)
| FromObject (e : exn).        (* whatever the object protocol raised *)

Definition exn_of_format_error (e : format_error) : exn :=
  match e with
  | Syntax msg => ValueError msg
  | MissingKey key => KeyError key
  | NoPositional index =>
      IndexError ("Replacement index " ++ str_of_int index ++
                  " out of range for positional args tuple")
  | FromObject e' => e'
  end.

Inductive fresult (A : Type) : Type :=
| Done (a : A)
| Failed (e : format_error).
Arguments Done {A} a.
Arguments Failed {A} e.

(** *** Splitting the template *)

Inductive item : Type :=
| Literal (text : string)
| Field (field_name : string) (conversion : option ascii)
        (format_spec : string) (needs_expanding : bool)
| Malformed (msg : string).

(** Where the scanner is.  [Text], [Open] and [Close] belong to
    [MarkupIterator_next]; the others to [parse_field]. *)
Inductive mode : Type :=
| Text
| Open
| Close
| Name (name : string)
| Bracket (name : string)
| Conv (name : string)
| ConvDone (name : string) (c : ascii)
| Spec (name : string) (conversion : option ascii) (spec : string)
       (count : nat) (expand : bool).

(** One pass over the template.  [lit] is the literal text read since the
    last replacement field.  An ill-formed template yields the items before
    the defect followed by [Malformed]: CPython parses lazily, so the fields
    before a defect are rendered (and may raise) first. *)
Fixpoint scan (m : mode) (lit : string) (s : string) : list item :=
  match s with
  | EmptyString =>
      match m with
      | Text => [Literal lit]
      | Open => [Malformed "Single '{' encountered in format string"]
      | Close => [Malformed "Single '}' encountered in format string"]
      | Name _ | Bracket _ => [Malformed "expected '}' before end of string"]
      | Conv _ =>
          [Malformed "end of string while looking for conversion specifier"]
      | ConvDone _ _ | Spec _ _ _ _ _ =>
          [Malformed "unmatched '{' in format spec"]
      end
  | String c r =>
      let in_name (name : string) : list item :=
        if (c =? "{")%char then [Malformed "unexpected '{' in field name"]
        else if (c =? "[")%char then scan (Bracket (snoc name c)) "" r
        else if (c =? "}")%char then Field name None "" false :: scan Text "" r
        else if (c =? ":")%char then scan (Spec name None "" 1 false) "" r
        else if (c =? "!")%char then scan (Conv name) "" r
        else scan (Name (snoc name c)) "" r in
      match m with
      | Text =>
          if (c =? "{")%char then scan Open lit r
          else if (c =? "}")%char then scan Close lit r
          else scan Text (snoc lit c) r
      | Open =>
          if (c =? "{")%char then scan Text (snoc lit c) r
          else Literal lit :: in_name ""
      | Close =>
          if (c =? "}")%char then scan Text (snoc lit c) r
          else [Malformed "Single '}' encountered in format string"]
      | Name name => in_name name
      | Bracket name =>
          if (c =? "]")%char then scan (Name (snoc name c)) "" r
          else scan (Bracket (snoc name c)) "" r
      | Conv name => scan (ConvDone name c) "" r
      | ConvDone name cv =>
          if (c =? "}")%char then Field name (Some cv) "" false :: scan Text "" r
          else if (c =? ":")%char then scan (Spec name (Some cv) "" 1 false) "" r
          else [Malformed "expected ':' after conversion specifier"]
      | Spec name cv spec count expand =>
          if (c =? "{")%char then scan (Spec name cv (snoc spec c) (S count) true) "" r
          else if (c =? "}")%char then
            match count with
            | 1 => Field name cv spec expand :: scan Text "" r
            | _ => scan (Spec name cv (snoc spec c) (pred count) expand) "" r
            end
          else scan (Spec name cv (snoc spec c) count expand) "" r
      end
  end.

Definition markup (template : string) : list item := scan Text "" template.

(** *** Field names *)

(** [field_name_split]: the part before the first ['.'] or ['['], and the
    rest. *)
Fixpoint split_first (s : string) : string * string :=
  match s with
  | EmptyString => ("", "")
  | String c r =>
      if ((c =? ".") || (c =? "["))%char then ("", s)
      else let (first, rest) := split_first r in (String c first, rest)
  end.

(** The value of a decimal digit.  Templates are read as ASCII text. *)
Definition digit_value (c : ascii) : option Z :=
  let n := nat_of_ascii c in
  if ((48 <=? n) && (n <=? 57))%nat then Some (Z.of_nat (n - 48)) else None.

(** On a 64-bit platform. *)
Definition PY_SSIZE_T_MAX : Z := 2 ^ 63 - 1.

(** [get_integer]: the number a string of digits denotes. *)

Inductive integer_result : Type :=
| NotInteger
| Integer (n : Z)
| TooManyDigits.

Fixpoint get_integer_from (accumulator : Z) (s : string) : integer_result :=
  match s with
  | EmptyString => Integer accumulator
  | String c r =>
      match digit_value c with
      | None => NotInteger
      | Some digitval =>
          if (accumulator >? (PY_SSIZE_T_MAX - digitval) / 10)%Z
          then TooManyDigits
          else get_integer_from (accumulator * 10 + digitval) r
      end
  end.

Definition get_integer (s : string) : integer_result :=
  match s with
  | EmptyString => NotInteger
  | _ => get_integer_from 0 s
  end.

Inductive accessor : Type :=
| Attr (name : string)
| Item (key : subscript)
| BadAccessor (msg : string).

Inductive amode : Type :=
| AStart
| AAttr (name : string)
| AItem (name : string).

Definition attr_accessor (name : string) : accessor :=
  match name with
  | EmptyString => BadAccessor "Empty attribute in format string"
  | _ => Attr name
  end.

Definition item_accessor (name : string) : accessor :=
  match get_integer name with
  | TooManyDigits => BadAccessor "Too many decimal digits in format string"
  | Integer i => Item (SubInt i)
  | NotInteger =>
      match name with
      | EmptyString => BadAccessor "Empty attribute in format string"
      | _ => Item (SubStr name)
      end
  end.

(** [FieldNameIterator_next], run to the end of the field name. *)
Fixpoint accessors (m : amode) (s : string) : list accessor :=
  match s with
  | EmptyString =>
      match m with
      | AStart => []
      | AAttr name => [attr_accessor name]
      | AItem _ => [BadAccessor "Missing ']' in format string"]
      end
  | String c r =>
      let start : list accessor :=
        if (c =? ".")%char then accessors (AAttr "") r
        else if (c =? "[")%char then accessors (AItem "") r
        else [BadAccessor
                "Only '.' or '[' may follow ']' in format field specifier"] in
      match m with
      | AStart => start
      | AAttr name =>
          if ((c =? ".") || (c =? "["))%char then attr_accessor name :: start
          else accessors (AAttr (snoc name c)) r
      | AItem name =>
          if (c =? "]")%char
          then match item_accessor name with
               | BadAccessor msg => [BadAccessor msg]
               | a => a :: accessors AStart r
               end
          else accessors (AItem (snoc name c)) r
      end
  end.

Definition kwargs : Type := list (string * pyval).

Fixpoint lookup (key : string) (kw : kwargs) : option pyval :=
  match kw with
  | [] => None
  | (k, v) :: kw' => if String.eqb key k then Some v else lookup key kw'
  end.

Definition keys (kw : kwargs) : list string := map fst kw.

Section Formatting.
Context {P : ObjectProtocol}.

Definition lift {A : Type} (r : result A) : fresult A :=
  match r with
  | Return a => Done a
  | Raise e => Failed (FromObject e)
  end.

Fixpoint resolve (o : obj) (path : list accessor) : fresult obj :=
  match path with
  | [] => Done o
  | Attr name :: path' =>
      match lift (py_getattr o name) with
      | Done o' => resolve o' path'
      | Failed e => Failed e
      end
  | Item key :: path' =>
      match lift (py_getitem o key) with
      | Done o' => resolve o' path'
      | Failed e => Failed e
      end
  | BadAccessor msg :: _ => Failed (Syntax msg)
  end.

(** [get_field_object].  With no positional arguments every numbered
    field, explicit or automatic, fails at its first use; the check that
    automatic and explicit numbering are not mixed can therefore never be
    the first thing to fail and is left out. *)
Definition get_field_object (kw : kwargs) (field_name : string) : fresult obj :=
  let (first, rest) := split_first field_name in
  match get_integer first with
  | TooManyDigits => Failed (Syntax "Too many decimal digits in format string")
  | Integer i => Failed (NoPositional i)
  | NotInteger =>
      match first with
      | EmptyString => Failed (NoPositional 0)
      | _ =>
          match lookup first kw with
          | None => Failed (MissingKey first)
          | Some v => resolve (of_val v) (accessors AStart rest)
          end
      end
  end.

(** The text of the [ValueError] for a conversion other than [r], [s] and
    [a]: the character itself when it is a visible ASCII character, its code
    as [\x] and lower-case hexadecimal digits otherwise. *)
Definition unknown_conversion (c : ascii) : string :=
  let n := nat_of_ascii c in
  if ((32 <? n) && (n <? 127))%nat
  then "Unknown conversion specifier " ++ String c ""
  else "Unknown conversion specifier " ++
       String backslash (String "x"%char (lower_hex (Z.of_nat n))).

(** [do_conversion], with the test of [output_markup] before it: the
    character of code 0 is how the parser says that there is no
    conversion, so [!] followed by it converts nothing. *)
Definition do_conversion (o : obj) (conversion : option ascii) : fresult obj :=
  match conversion with
  | None => Done o
  | Some c =>
      if (c =? "000")%char then Done o
      else if (c =? "r")%char then lift (py_convert ConvRepr o)
      else if (c =? "s")%char then lift (py_convert ConvStr o)
      else if (c =? "a")%char then lift (py_convert ConvAscii o)
      else Failed (Syntax (unknown_conversion c))
  end.

(** [output_markup] for one field; [expand] is the nested [build_string]. *)
Definition output_markup (expand : string -> fresult string) (kw : kwargs)
           (field_name : string) (conversion : option ascii)
           (format_spec : string) (needs_expanding : bool) : fresult string :=
  match get_field_object kw field_name with
  | Failed e => Failed e
  | Done fieldobj =>
      match do_conversion fieldobj conversion with
      | Failed e => Failed e
      | Done o =>
          match (if needs_expanding then expand format_spec
                 else Done format_spec) with
          | Failed e => Failed e
          | Done actual_format_spec => lift (py_format o actual_format_spec)
          end
      end
  end.

Fixpoint render (expand : string -> fresult string) (kw : kwargs)
         (items : list item) : fresult string :=
  match items with
  | [] => Done ""
  | Literal text :: items' =>
      match render expand kw items' with
      | Done s => Done (text ++ s)
      | Failed e => Failed e
      end
  | Field name cv spec ne :: items' =>
      match output_markup expand kw name cv spec ne with
      | Failed e => Failed e
      | Done s1 =>
          match render expand kw items' with
          | Done s2 => Done (s1 ++ s2)
          | Failed e => Failed e
          end
      end
  | Malformed msg :: _ => Failed (Syntax msg)
  end.

Fixpoint build_string (recursion_depth : nat) (kw : kwargs) (input : string)
  : fresult string :=
  match recursion_depth with
  | O => Failed (Syntax "Max string recursion exceeded")
  | S depth => render (build_string depth kw) kw (markup input)
  end.

(** [template.format] applied to the keyword arguments [kw]. *)
Definition format (template : string) (kw : kwargs) : fresult string :=
  build_string 2 kw template.

End Formatting.

(** An object protocol for running examples: the objects are the strings
    and integers themselves.  It answers exactly what [str] and [int] answer
    for subscription, for the three conversions and for the empty format
    specification; it knows no attribute and accepts no other format
    specification.  The examples below stay inside the first part; the
    general statements hold for every protocol. *)
Definition plain_getitem (o : pyval) (key : subscript) : result pyval :=
  match o, key with
  | PStr s, SubInt i =>
      match String.get (Z.to_nat i) s with
      | Some c => Return (PStr (String c ""))
      | None => Raise (IndexError "string index out of range")
      end
  | PStr _, SubStr _ =>
      Raise (OtherError "TypeError" "string indices must be integers")
  | PInt _, _ =>
      Raise (OtherError "TypeError" "'int' object is not subscriptable")
  end.

Definition plain_str (o : pyval) : string :=
  match o with
  | PStr s => s
  | PInt z => str_of_int z
  end.

Definition plain_convert (c : conv) (o : pyval) : result pyval :=
  match c, o with
  | ConvStr, _ => Return (PStr (plain_str o))
  | _, PInt z => Return (PStr (str_of_int z))
  | ConvRepr, PStr s => Return (PStr (repr_str s))
  | ConvAscii, PStr s => Return (PStr (ascii_str s))
  end.

Definition plain_format (o : pyval) (spec : string) : result string :=
  match spec with
  | EmptyString => Return (plain_str o)
  | _ => Raise (ValueError "Invalid format specifier")
  end.

#[export] Instance plain_objects : ObjectProtocol := {|
  obj := pyval;
  of_val := fun v => v;
  py_getattr := fun _ name => Raise (OtherError "AttributeError" name);
  py_getitem := plain_getitem;
  py_convert := plain_convert;
  py_format := plain_format;
  py_format_str := fun _ => eq_refl;
  py_format_int := fun _ => eq_refl
|}.

(** ** The host's data blocks *)

(** A colour as the script builds it: [(r, g, b, a)]. *)
Definition color : Type := (sample * sample * sample * sample)%type.

(** Equality of dictionary keys: tuples of floats compared with [==]. *)
Definition color_eqb (c1 c2 : color) : bool :=
  let '(r1, g1, b1, a1) := c1 in
  let '(r2, g2, b2, a2) := c2 in
  Qeq_bool r1 r2 && Qeq_bool g1 g2 && Qeq_bool b1 b2 && Qeq_bool a1 a2.

(** A decoded image: [image.channels], [image.size], [image.pixels]. *)
Record image : Type := {
  im_channels : nat;
  im_size : nat * nat;
  im_pixels : list sample
}.

Inductive socket_value : Type :=
| ColorValue (c : color)
| FloatValue (v : sample).

(** A shader node: its type and the input defaults that were assigned, by
    input index. *)
Record node : Type := {
  bl_idname : string;
  inputs : list (nat * socket_value)
}.

(** A link from output [from_socket] of node [from_node] to input
    [to_socket] of node [to_node]; nodes are numbered by their position in
    [tree.nodes]. *)
Record node_link : Type := {
  from_node : nat;
  from_socket : nat;
  to_node : nat;
  to_socket : nat
}.

Record node_tree : Type := {
  nodes : list node;
  links : list node_link
}.

Record material : Type := {
  ma_name : string;
  ma_diffuse_color : color;
  ma_use_nodes : bool;
  ma_node_tree : option node_tree
}.

Record mesh : Type := {
  me_name : string;
  me_vertices : list (Z * Z * Z);
  me_edges : list (nat * nat);
  me_faces : list (list nat);
  me_materials : list nat;
  me_updated : bool
}.

Record object : Type := {
  ob_name : string;
  ob_data : option nat;
  ob_location : Z * Z * Z;
  ob_parent : option nat
}.

(** What the script asks of the host, in order.  [CacheLookup] is not a
    host call: it records the lookup in the script's own dictionary
    [materials], so that statements can speak about it. *)
Inductive event : Type :=
| ImagesLoad (filepath : string)
| UserClear (img : nat)
| ImagesRemove (img : nat)
| ObjectsNew (name : string)
| CollectionLink (ob : nat)
| MaterialsGet (name : string)
| MaterialsNew (name : string)
| MeshesNew (name : string)
| CacheLookup (c : color)
| Report (message : string).

(** The store.  A handle is the position of a data block in its list;
    [images.remove] leaves [None] behind so that positions stay put.
    [files] is what [images.load] is able to decode. *)
Record host : Type := {
  files : list (string * image);
  bpy_data_images : list (option image);
  bpy_data_materials : list material;
  bpy_data_meshes : list mesh;
  bpy_data_objects : list object;
  bpy_context_collection_objects : list nat;
  trace : list event
}.

(** Names of data blocks are unique per kind; how the host alters a
    requested name that is taken (or that it does not accept as it is) is
    its own business. *)
Class Naming : Type := {
  unique_name : list string -> string -> string
}.

(** A naming for the examples: the first of [name], [name.001],
    [name.002], ... that is free. *)
Definition suffixed (name : string) (k : nat) : string :=
  match k with
  | O => name
  | _ => name ++ "." ++ zfill 3 (str_of_int (Z.of_nat k))
  end.

Fixpoint first_free (taken : list string) (name : string) (k tries : nat) : string :=
  match tries with
  | O => suffixed name k
  | S t =>
      if existsb (String.eqb (suffixed name k)) taken
      then first_free taken name (S k) t
      else suffixed name k
  end.

#[export] Instance numbered_names : Naming := {|
  unique_name := fun taken name => first_free taken name 0 (List.length taken)
|}.

(** *** Statements of the script as state transformers *)

Definition M (A : Type) : Type := host -> result A * host.

Definition ret {A : Type} (a : A) : M A := fun h => (Return a, h).

Definition raise {A : Type} (e : exn) : M A := fun h => (Raise e, h).

Definition bind {A B : Type} (m : M A) (k : A -> M B) : M B :=
  fun h =>
    match m h with
    | (Return a, h') => k a h'
    | (Raise e, h') => (Raise e, h')
    end.

(** [try: body finally: final]. *)
Definition try_finally {A : Type} (body : M A) (final : M unit) : M A :=
  fun h =>
    let (r, h1) := body h in
    match final h1 with
    | (Return _, h2) => (r, h2)
    | (Raise e, h2) => (Raise e, h2)
    end.

Declare Scope py_scope.
Delimit Scope py_scope with py.
Notation "x <- m ;; k" := (bind m (fun x => k))
  (at level 100, m at next level, right associativity) : py_scope.
Notation "m ;;; k" := (bind m (fun _ => k))
  (at level 100, right associativity) : py_scope.
Open Scope py_scope.

(** [for i in xs: s = body(i, s)], leaving at the first exception. *)
Fixpoint for_each {I S : Type} (xs : list I) (body : I -> S -> M S) (s : S) : M S :=
  match xs with
  | [] => ret s
  | i :: xs' => s' <- body i s ;; for_each xs' body s'
  end.

(** [for i in range(n)] *)
Definition for_range {S : Type} (n : nat) (body : nat -> S -> M S) (s : S) : M S :=
  for_each (seq 0 n) body s.

Definition log (e : event) : M unit :=
  fun h =>
    (Return tt,
     {| files := files h;
        bpy_data_images := bpy_data_images h;
        bpy_data_materials := bpy_data_materials h;
        bpy_data_meshes := bpy_data_meshes h;
        bpy_data_objects := bpy_data_objects h;
        bpy_context_collection_objects := bpy_context_collection_objects h;
        trace := trace h ++ [e] |}).

(** [l[i] = f(l[i])] for a handle [i]; handles come from [new] and are
    always in range. *)
Fixpoint update_at {A : Type} (i : nat) (f : A -> A) (l : list A) : list A :=
  match l, i with
  | [], _ => []
  | x :: l', O => f x :: l'
  | x :: l', S i' => x :: update_at i' f l'
  end.

Definition set_images (v : list (option image)) (h : host) : host :=
  {| files := files h;
     bpy_data_images := v;
     bpy_data_materials := bpy_data_materials h;
     bpy_data_meshes := bpy_data_meshes h;
     bpy_data_objects := bpy_data_objects h;
     bpy_context_collection_objects := bpy_context_collection_objects h;
     trace := trace h |}.

Definition set_materials (v : list material) (h : host) : host :=
  {| files := files h;
     bpy_data_images := bpy_data_images h;
     bpy_data_materials := v;
     bpy_data_meshes := bpy_data_meshes h;
     bpy_data_objects := bpy_data_objects h;
     bpy_context_collection_objects := bpy_context_collection_objects h;
     trace := trace h |}.

Definition set_meshes (v : list mesh) (h : host) : host :=
  {| files := files h;
     bpy_data_images := bpy_data_images h;
     bpy_data_materials := bpy_data_materials h;
     bpy_data_meshes := v;
     bpy_data_objects := bpy_data_objects h;
     bpy_context_collection_objects := bpy_context_collection_objects h;
     trace := trace h |}.

Definition set_objects (v : list object) (h : host) : host :=
  {| files := files h;
     bpy_data_images := bpy_data_images h;
     bpy_data_materials := bpy_data_materials h;
     bpy_data_meshes := bpy_data_meshes h;
     bpy_data_objects := v;
     bpy_context_collection_objects := bpy_context_collection_objects h;
     trace := trace h |}.

Definition set_collection (v : list nat) (h : host) : host :=
  {| files := files h;
     bpy_data_images := bpy_data_images h;
     bpy_data_materials := bpy_data_materials h;
     bpy_data_meshes := bpy_data_meshes h;
     bpy_data_objects := bpy_data_objects h;
     bpy_context_collection_objects := v;
     trace := trace h |}.

Definition modify (f : host -> host) : M unit := fun h => (Return tt, f h).

Fixpoint find_file (filepath : string) (fs : list (string * image)) : option image :=
  match fs with
  | [] => None
  | (p, img) :: fs' => if String.eqb filepath p then Some img else find_file filepath fs'
  end.

(** [bpy.data.images.load(filepath)] *)
Definition images_load (filepath : string) : M nat :=
  fun h =>
    match find_file filepath (files h) with
    | None => raise (RuntimeError "Error: Cannot read the image file") h
    | Some img =>
        (log (ImagesLoad filepath) ;;;
         modify (fun h' => set_images (bpy_data_images h' ++ [Some img]) h') ;;;
         ret (List.length (bpy_data_images h))) h
    end.

(** Reading [image.channels], [image.size], [image.pixels]. *)
Definition image_data (img : nat) : M image :=
  fun h =>
    match nth_error (bpy_data_images h) img with
    | Some (Some d) => (Return d, h)
    | _ => raise (OtherError "ReferenceError" "image has been removed") h
    end.

(** [image.user_clear()] *)
Definition user_clear (img : nat) : M unit := log (UserClear img).

(** [bpy.data.images.remove(image)] *)
Definition images_remove (img : nat) : M unit :=
  log (ImagesRemove img) ;;;
  modify (fun h => set_images (update_at img (fun _ => None) (bpy_data_images h)) h).

Definition get_host : M host := fun h => (Return h, h).

(** The default node tree the host builds when [use_nodes] is switched on
    for a material that has none: a Principled BSDF wired to a Material
    Output. *)
Definition default_node_tree : node_tree :=
  {| nodes := [ {| bl_idname := "ShaderNodeBsdfPrincipled"; inputs := [] |};
                {| bl_idname := "ShaderNodeOutputMaterial"; inputs := [] |} ];
     links := [ {| from_node := 0; from_socket := 0; to_node := 1; to_socket := 0 |} ] |}.

(** The base colour of a fresh material. *)
Definition default_diffuse_color : color := (4 # 5, 4 # 5, 4 # 5, 1)%Q.

Definition modify_material (m : nat) (f : material -> material) : M unit :=
  modify (fun h => set_materials (update_at m f (bpy_data_materials h)) h).

Definition modify_mesh (m : nat) (f : mesh -> mesh) : M unit :=
  modify (fun h => set_meshes (update_at m f (bpy_data_meshes h)) h).

Definition modify_object (o : nat) (f : object -> object) : M unit :=
  modify (fun h => set_objects (update_at o f (bpy_data_objects h)) h).

Fixpoint index_of {A : Type} (p : A -> bool) (l : list A) (i : nat) : option nat :=
  match l with
  | [] => None
  | x :: l' => if p x then Some i else index_of p l' (S i)
  end.

(** [bpy.data.materials.get(name)] *)
Definition materials_get (name : string) : M (option nat) :=
  log (MaterialsGet name) ;;;
  h <- get_host ;;
  ret (index_of (fun m => String.eqb (ma_name m) name) (bpy_data_materials h) 0).

(** [material.diffuse_color = c] *)
Definition set_diffuse_color (m : nat) (c : color) : M unit :=
  modify_material m (fun d =>
    {| ma_name := ma_name d; ma_diffuse_color := c;
       ma_use_nodes := ma_use_nodes d; ma_node_tree := ma_node_tree d |}).

(** [material.use_nodes = b] *)
Definition set_use_nodes (m : nat) (b : bool) : M unit :=
  modify_material m (fun d =>
    {| ma_name := ma_name d; ma_diffuse_color := ma_diffuse_color d;
       ma_use_nodes := b;
       ma_node_tree :=
         match ma_node_tree d with
         | None => if b then Some default_node_tree else None
         | t => t
         end |}).

(** A statement on [material.node_tree]; on a material without a tree the
    attribute is [None] and using it raises. *)
Definition on_tree {A : Type} (m : nat) (f : node_tree -> A * node_tree) : M A :=
  h <- get_host ;;
  match nth_error (bpy_data_materials h) m with
  | Some d =>
      match ma_node_tree d with
      | Some t =>
          let (a, t') := f t in
          modify_material m (fun d' =>
            {| ma_name := ma_name d'; ma_diffuse_color := ma_diffuse_color d';
               ma_use_nodes := ma_use_nodes d'; ma_node_tree := Some t' |}) ;;;
          ret a
      | None => raise (OtherError "AttributeError" "'NoneType' object has no attribute 'nodes'")
      end
  | None => raise (OtherError "ReferenceError" "material has been removed")
  end.

(** [tree.nodes.clear()]: the links go with the nodes. *)
Definition nodes_clear (m : nat) : M unit :=
  on_tree m (fun _ => (tt, {| nodes := []; links := [] |})).

(** [tree.nodes.new(type)] *)
Definition nodes_new (m : nat) (type : string) : M nat :=
  on_tree m (fun t =>
    (List.length (nodes t),
     {| nodes := nodes t ++ [ {| bl_idname := type; inputs := [] |} ];
        links := links t |})).

Fixpoint assign {V : Type} (k : nat) (v : V) (d : list (nat * V)) : list (nat * V) :=
  match d with
  | [] => [(k, v)]
  | (k', v') :: d' => if Nat.eqb k' k then (k', v) :: d' else (k', v') :: assign k v d'
  end.

(** [node.inputs[i].default_value = v] *)
Definition set_default_value (m n i : nat) (v : socket_value) : M unit :=
  on_tree m (fun t =>
    (tt,
     {| nodes := update_at n (fun d =>
                   {| bl_idname := bl_idname d; inputs := assign i v (inputs d) |})
                   (nodes t);
        links := links t |})).

(** [tree.links.new(a.outputs[i], b.inputs[j])] *)
Definition links_new (m : nat) (a i b j : nat) : M unit :=
  on_tree m (fun t =>
    (tt,
     {| nodes := nodes t;
        links := links t ++ [ {| from_node := a; from_socket := i;
                                 to_node := b; to_socket := j |} ] |})).

(** [mesh.from_pydata(verts, edges, faces)] *)
Definition from_pydata (m : nat) (verts : list (Z * Z * Z))
           (edges : list (nat * nat)) (faces : list (list nat)) : M unit :=
  modify_mesh m (fun d =>
    {| me_name := me_name d; me_vertices := verts; me_edges := edges;
       me_faces := faces; me_materials := me_materials d;
       me_updated := me_updated d |}).

(** [mesh.materials.append(material)] *)
Definition mesh_materials_append (m : nat) (ma : nat) : M unit :=
  modify_mesh m (fun d =>
    {| me_name := me_name d; me_vertices := me_vertices d;
       me_edges := me_edges d; me_faces := me_faces d;
       me_materials := me_materials d ++ [ma];
       me_updated := me_updated d |}).

(** [mesh.update()] *)
Definition mesh_update (m : nat) : M unit :=
  modify_mesh m (fun d =>
    {| me_name := me_name d; me_vertices := me_vertices d;
       me_edges := me_edges d; me_faces := me_faces d;
       me_materials := me_materials d; me_updated := true |}).

(** [bpy.context.collection.objects.link(ob)] *)
Definition collection_link (ob : nat) : M unit :=
  log (CollectionLink ob) ;;;
  modify (fun h =>
    set_collection (bpy_context_collection_objects h ++ [ob]) h).

(** [ob.location = loc] *)
Definition set_location (ob : nat) (loc : Z * Z * Z) : M unit :=
  modify_object ob (fun d =>
    {| ob_name := ob_name d; ob_data := ob_data d;
       ob_location := loc; ob_parent := ob_parent d |}).

(** [ob.parent = p] *)
Definition set_parent (ob : nat) (p : nat) : M unit :=
  modify_object ob (fun d =>
    {| ob_name := ob_name d; ob_data := ob_data d;
       ob_location := ob_location d; ob_parent := Some p |}).

Section Host.
Context {N : Naming}.

(** [bpy.data.objects.new(name=name, object_data=data)] *)
Definition objects_new (name : string) (data : option nat) : M nat :=
  log (ObjectsNew name) ;;;
  h <- get_host ;;
  modify (set_objects
    (bpy_data_objects h ++
     [ {| ob_name := unique_name (map ob_name (bpy_data_objects h)) name;
          ob_data := data; ob_location := (0, 0, 0)%Z; ob_parent := None |} ])) ;;;
  ret (List.length (bpy_data_objects h)).

(** [bpy.data.materials.new(name=name)] *)
Definition materials_new (name : string) : M nat :=
  log (MaterialsNew name) ;;;
  h <- get_host ;;
  modify (set_materials
    (bpy_data_materials h ++
     [ {| ma_name := unique_name (map ma_name (bpy_data_materials h)) name;
          ma_diffuse_color := default_diffuse_color;
          ma_use_nodes := false; ma_node_tree := None |} ])) ;;;
  ret (List.length (bpy_data_materials h)).

(** [bpy.data.meshes.new(name)] *)
Definition meshes_new (name : string) : M nat :=
  log (MeshesNew name) ;;;
  h <- get_host ;;
  modify (set_meshes
    (bpy_data_meshes h ++
     [ {| me_name := unique_name (map me_name (bpy_data_meshes h)) name;
          me_vertices := []; me_edges := []; me_faces := [];
          me_materials := []; me_updated := false |} ])) ;;;
  ret (List.length (bpy_data_meshes h)).

End Host.

(** ** The script *)

Definition PARENT_NAME : string := "{filename}".
Definition MATERIAL_NAME : string := "pixel_art_{color}".
Definition CUBE_NAME : string := "{filename}_{x}_{y}".
Definition MESH_NAME : string := "{filename}_{x}_{y}_mesh".

Definition cube_verts : list (Z * Z * Z) :=
  [ (0, 0, 0); (1, 0, 0); (1, 1, 0); (0, 1, 0);
    (0, 0, 1); (1, 0, 1); (1, 1, 1); (0, 1, 1) ]%Z.

Definition cube_edges : list (nat * nat) := [].

Definition cube_faces : list (list nat) :=
  [ [0; 1; 2; 3]; [0; 1; 5; 4]; [1; 2; 6; 5];
    [4; 5; 6; 7]; [2; 3; 7; 6]; [0; 3; 7; 4] ].

(** The dictionary [materials] of the script, in insertion order. *)
Definition cache : Type := list (color * nat).

Fixpoint cache_get (c : color) (d : cache) : option nat :=
  match d with
  | [] => None
  | (k, v) :: d' => if color_eqb k c then Some v else cache_get c d'
  end.

Fixpoint cache_set (c : color) (v : nat) (d : cache) : cache :=
  match d with
  | [] => [(c, v)]
  | (k, v') :: d' =>
      if color_eqb k c then (k, v) :: d' else (k, v') :: cache_set c v d'
  end.

(** The variables of [read_pixel_art] that live across iterations of the
    pixel loop: [a] and the dictionary [materials]. *)
Record locals : Type := {
  a : sample;
  materials : cache
}.

(** [pixels[i]] *)
Definition getitem (pixels : list sample) (i : nat) : M sample :=
  match nth_error pixels i with
  | Some v => ret v
  | None => raise (IndexError "array index out of range")
  end.

(** ['%02X%02X%02X%02X' % (int(r * 255), int(g * 255), int(b * 255), int(a * 255))] *)
Definition strcolor_of (c : color) : string :=
  let '(r, g, b, a) := c in
  percent_02X (int_of_float (r * 255)%Q) ++
  percent_02X (int_of_float (g * 255)%Q) ++
  percent_02X (int_of_float (b * 255)%Q) ++
  percent_02X (int_of_float (a * 255)%Q).

(** [dict(filename=filename, use_nodes=struse_nodes)] *)
Definition group_params (filename struse_nodes : string) : kwargs :=
  [ ("filename", PStr filename); ("use_nodes", PStr struse_nodes) ].

(** [dict(filename=filename, color=strcolor, x=x, y=y, use_nodes=struse_nodes)] *)
Definition pixel_params (filename strcolor : string) (x y : nat)
           (struse_nodes : string) : kwargs :=
  [ ("filename", PStr filename); ("color", PStr strcolor);
    ("x", PInt (Z.of_nat x)); ("y", PInt (Z.of_nat y));
    ("use_nodes", PStr struse_nodes) ].

Inductive status : Type := FINISHED | CANCELLED.

Section Script.
Context {P : ObjectProtocol} {N : Naming}.

(** [template.format] applied to [params], inside the script. *)
Definition format_m (template : string) (params : kwargs) : M string :=
  match format template params with
  | Done s => ret s
  | Failed e => raise (exn_of_format_error e)
  end.

Section ReadPixelArt.
Variables (use_nodes reuse_materials : bool).
Variables (material_name cube_name mesh_name parent_name : string).
Variables (filename struse_nodes : string).

(** Lines 122-143: the node graph of a new material [material] for the
    colour [color] with alpha [a]. *)
Definition build_nodes (material : nat) (color : color) (a : sample) : M unit :=
  nodes_clear material ;;;
  diffuse_node <- nodes_new material "ShaderNodeBsdfDiffuse" ;;
  set_default_value material diffuse_node 0 (ColorValue color) ;;;
  output_node <- nodes_new material "ShaderNodeOutputMaterial" ;;
  if Qlt_bool a 1%Q then
    mix_node <- nodes_new material "ShaderNodeMixShader" ;;
    set_default_value material mix_node 0 (FloatValue a) ;;;
    transparent_node <- nodes_new material "ShaderNodeBsdfTransparent" ;;
    set_default_value material transparent_node 0 (ColorValue color) ;;;
    links_new material diffuse_node 0 mix_node 1 ;;;
    links_new material transparent_node 0 mix_node 2 ;;;
    links_new material mix_node 0 output_node 0
  else
    links_new material diffuse_node 0 output_node 0.

(** Lines 118-143 without the assignment to [materials[color]]: a new
    material for [color]. *)
Definition create_material (name : string) (color : color) (a : sample) : M nat :=
  material <- materials_new name ;;
  set_diffuse_color material color ;;;
  set_use_nodes material use_nodes ;;;
  (if use_nodes then build_nodes material color a else ret tt) ;;;
  ret material.

(** Lines 104-155: the body of the pixel loop from [color = (r, g, b, a)]
    on, for the pixel in column [x] of row [y]. *)
Definition place (parent : nat) (y x : nat) (r g b a : sample)
           (materials : cache) : M locals :=
  let color := (r, g, b, a) in
  let strcolor := strcolor_of color in
  let params := pixel_params filename strcolor x y struse_nodes in
  name <- format_m material_name params ;;
  log (CacheLookup color) ;;;
  resolved <-
    match cache_get color materials with
    | Some material => ret (material, materials)
    | None =>
        found <- (if reuse_materials then materials_get name else ret None) ;;
        match found with
        | Some material => ret (material, cache_set color material materials)
        | None =>
            material <- create_material name color a ;;
            ret (material, cache_set color material materials)
        end
    end ;;
  let '(material, materials') := resolved in
  cube_mesh_name <- format_m mesh_name params ;;
  mesh <- meshes_new cube_mesh_name ;;
  from_pydata mesh cube_verts cube_edges cube_faces ;;;
  mesh_materials_append mesh material ;;;
  mesh_update mesh ;;;
  cube_object_name <- format_m cube_name params ;;
  obj <- objects_new cube_object_name (Some mesh) ;;
  collection_link obj ;;;
  set_location obj (Z.of_nat x, Z.of_nat y, 0%Z) ;;;
  set_parent obj parent ;;;
  ret {| a := a; materials := materials' |}.

(** Lines 86-155: one iteration of the inner loop. *)
Definition pixel (parent : nat) (channels : nat) (pixels : list sample)
           (y offset x : nat) (st : locals) : M locals :=
  if Nat.eqb channels 1 then
    v <- getitem pixels (offset + x) ;;
    place parent y x v v v (a st) (materials st)
  else if Nat.eqb channels 3 then
    let index := offset + x * channels in
    r <- getitem pixels index ;;
    g <- getitem pixels (index + 1) ;;
    b <- getitem pixels (index + 2) ;;
    place parent y x r g b (a st) (materials st)
  else
    let index := offset + x * channels in
    r <- getitem pixels index ;;
    g <- getitem pixels (index + 1) ;;
    b <- getitem pixels (index + 2) ;;
    a <- getitem pixels (index + 3) ;;
    if Qeq_bool a 0 then ret {| a := a; materials := materials st |}
    else place parent y x r g b a (materials st).

(** Lines 66-155: the body of the [try] statement for the image
    [image]. *)
Definition convert (image : nat) : M unit :=
  img <- image_data image ;;
  let channels := im_channels img in
  if negb (existsb (Nat.eqb channels) [1; 3; 4]) then
    raise (IOError ("Cannot handle image with " ++
                    str_of_int (Z.of_nat channels) ++ " channels!"))
  else
    let params := group_params filename struse_nodes in
    name <- format_m parent_name params ;;
    parent <- objects_new name None ;;
    collection_link parent ;;;
    let '(width, height) := im_size img in
    let pixels := im_pixels img in
    for_range height (fun y st =>
      let offset := y * channels * width in
      for_range width (pixel parent channels pixels y offset) st)
      {| a := 1%Q; materials := [] |} ;;;
    ret tt.

End ReadPixelArt.

(** [read_pixel_art(context, filepath, ...)].  The timing of the run and
    the line it prints are left out. *)
Definition read_pixel_art (filepath : string)
           (use_nodes reuse_materials : bool)
           (material_name cube_name mesh_name parent_name : string) : M status :=
  let struse_nodes := if use_nodes then "nodes" else "" in
  let filename := path_tail filepath in
  image <- images_load filepath ;;
  try_finally
    (convert use_nodes reuse_materials material_name cube_name mesh_name
             parent_name filename struse_nodes image)
    (user_clear image ;;; images_remove image) ;;;
  ret FINISHED.

(** The operator's properties. *)
Record ImportPixelArt : Type := {
  filepath : string;
  use_nodes : bool;
  reuse_materials : bool;
  parent_name : string;
  cube_name : string;
  mesh_name : string;
  material_name : string
}.

(** [dict(filename='', color='AABBCCDD', x=0, y=0, use_nodes='')] *)
Definition pix_params : kwargs :=
  [ ("filename", PStr ""); ("color", PStr "AABBCCDD");
    ("x", PInt 0); ("y", PInt 0); ("use_nodes", PStr "") ].

(** [self.report({'ERROR'}, message)] *)
Definition report (message : string) : M unit := log (Report message).

(** The validation loop of [execute]: [Some CANCELLED] when a template was
    rejected, [None] when all passed. *)
Fixpoint validate (checks : list (string * string * kwargs)) : M (option status) :=
  match checks with
  | [] => ret None
  | (name, value, params) :: checks' =>
      match format value params with
      | Done _ => validate checks'
      | Failed e =>
          match exn_of_format_error e with
          | ValueError msg =>
              report ("Format error in " ++ name ++ ": " ++ msg) ;;;
              ret (Some CANCELLED)
          | KeyError key =>
              (* [str] of a [KeyError] is the [repr] of its key *)
              report ("Illegal key used in " ++ name ++ ": " ++ repr_str key) ;;;
              ret (Some CANCELLED)
          | e' => raise e'
          end
      end
  end.

(** [ImportPixelArt.execute(self, context)] *)
Definition execute (self : ImportPixelArt) : M status :=
  cancelled <-
    validate [ ("object name", parent_name self,
                [ ("filename", PStr ""); ("use_nodes", PStr "") ]);
               ("material names", material_name self, pix_params);
               ("mesh names", mesh_name self, pix_params);
               ("pixel names", cube_name self, pix_params) ] ;;
  match cancelled with
  | Some st => ret st
  | None =>
      read_pixel_art (filepath self) (use_nodes self) (reuse_materials self)
                     (material_name self) (cube_name self) (mesh_name self)
                     (parent_name self)
  end.

End Script.

(** ** Registration

    [register], [unregister] and the block that runs when the file is
    executed as a script act on two things of the host: the classes
    registered through [bpy.utils] and the draw functions of the menu
    File > Import ([bpy.types.TOPBAR_MT_file_import]).  Classes and
    functions are told apart by identity; one execution of the file creates
    one class, [cls], and one function [menu_func_import], [fn].  What the
    host does when another class of the same [bl_idname] is registered
    already is left out. *)

Record ui : Type := {
  classes : list nat;
  file_import : list nat
}.

(** [l.remove(x)] without the exception: the first [x] goes, if any. *)
Fixpoint remove_first (x : nat) (l : list nat) : list nat :=
  match l with
  | [] => []
  | y :: l' => if Nat.eqb x y then l' else y :: remove_first x l'
  end.

(** [bpy.utils.register_class(cls)] *)
Definition register_class (cls : nat) (r : ui) : result unit * ui :=
  if existsb (Nat.eqb cls) (classes r)
  then (Raise (ValueError "register_class(...): already registered"), r)
  else (Return tt,
        {| classes := (classes r ++ [cls])%list; file_import := file_import r |}).

(** [bpy.utils.unregister_class(cls)] *)
Definition unregister_class (cls : nat) (r : ui) : result unit * ui :=
  if existsb (Nat.eqb cls) (classes r)
  then (Return tt,
        {| classes := remove_first cls (classes r);
           file_import := file_import r |})
  else (Raise (RuntimeError "unregister_class(...): may not be registered"),
        r).

(** [bpy.types.TOPBAR_MT_file_import.append(fn)] *)
Definition menu_append (fn : nat) (r : ui) : result unit * ui :=
  (Return tt,
   {| classes := classes r; file_import := (file_import r ++ [fn])%list |}).

(** [bpy.types.TOPBAR_MT_file_import.remove(fn)]: a function that is not in
    the menu is passed over. *)
Definition menu_remove (fn : nat) (r : ui) : result unit * ui :=
  (Return tt,
   {| classes := classes r; file_import := remove_first fn (file_import r) |}).

(** One statement after another. *)
Definition and_then (m k : ui -> result unit * ui) : ui -> result unit * ui :=
  fun r =>
    match m r with
    | (Return _, r') => k r'
    | (Raise e, r') => (Raise e, r')
    end.

(** [register()] *)
Definition register (cls fn : nat) : ui -> result unit * ui :=
  and_then (register_class cls) (menu_append fn).

(** [unregister()] *)
Definition unregister (cls fn : nat) : ui -> result unit * ui :=
  and_then (unregister_class cls) (menu_remove fn).

(** The block under [if __name__ == "__main__"]: [unregister()] with every
    exception passed over, then [register()]. *)
Definition main (cls fn : nat) : ui -> result unit * ui :=
  fun r => let (_, r') := unregister cls fn r in register cls fn r'.

(** ** Vocabulary of the properties *)

(** The two hexadecimal digits of a number below 256. *)
Definition hex2 (n : Z) : string :=
  String (hex_digit (n / 16)) (String (hex_digit (n mod 16)) "").

Definition upper_hex (c : ascii) : bool :=
  existsb (Ascii.eqb c)
    ["0"; "1"; "2"; "3"; "4"; "5"; "6"; "7";
     "8"; "9"; "A"; "B"; "C"; "D"; "E"; "F"]%char.

Fixpoint all_chars (p : ascii -> bool) (s : string) : bool :=
  match s with
  | EmptyString => true
  | String c r => p c && all_chars p r
  end.

(** *** Node graphs *)

Definition node_is (t : node_tree) (n : nat) (type : string) : Prop :=
  exists d, nth_error (nodes t) n = Some d /\ bl_idname d = type.

Definition input_is (t : node_tree) (n i : nat) (v : socket_value) : Prop :=
  exists d, nth_error (nodes t) n = Some d /\ In (i, v) (inputs d).

Definition linked (t : node_tree) (n i n' j : nat) : Prop :=
  In {| from_node := n; from_socket := i; to_node := n'; to_socket := j |}
     (links t).

(** *** Images *)

Definition width (img : image) : nat := fst (im_size img).
Definition height (img : image) : nat := snd (im_size img).

(** The buffer holds [channels] samples for each pixel, and the channel
    count is one the script accepts. *)
Definition well_formed (img : image) : Prop :=
  In (im_channels img) [1; 3; 4] /\
  List.length (im_pixels img) = width img * height img * im_channels img.

Definition sample_at (img : image) (i : nat) : sample :=
  nth i (im_pixels img) 0%Q.

(** The tuple [(r, g, b, a)] the script forms for the pixel in column [x] of
    row [y]. *)
Definition color_at (img : image) (x y : nat) : color :=
  let c := im_channels img in
  let i := y * c * width img + x * c in
  if Nat.eqb c 1 then
    let v := sample_at img (y * c * width img + x) in (v, v, v, 1%Q)
  else if Nat.eqb c 3 then
    (sample_at img i, sample_at img (i + 1), sample_at img (i + 2), 1%Q)
  else
    (sample_at img i, sample_at img (i + 1), sample_at img (i + 2),
     sample_at img (i + 3)).

Definition alpha (c : color) : sample := let '(_, _, _, a) := c in a.

(** Pixels in the order of the two loops: rows outside, columns inside;
    a pixel is [(x, y)]. *)
Definition row (w y : nat) : list (nat * nat) :=
  map (fun x => (x, y)) (seq 0 w).

Definition coords (w h : nat) : list (nat * nat) :=
  flat_map (row w) (seq 0 h).

(** Skipped by [if a == 0: continue]. *)
Definition skipped (img : image) (p : nat * nat) : bool :=
  negb (Nat.eqb (im_channels img) 1) && negb (Nat.eqb (im_channels img) 3) &&
  Qeq_bool (alpha (color_at img (fst p) (snd p))) 0.

Definition visible (img : image) (ps : list (nat * nat)) : list (nat * nat) :=
  filter (fun p => negb (skipped img p)) ps.

Definition colors_of (img : image) (ps : list (nat * nat)) : list color :=
  map (fun p => color_at img (fst p) (snd p)) ps.

Definition fully_opaque (img : image) : Prop :=
  forall x y, x < width img -> y < height img ->
    Qeq (alpha (color_at img x y)) 1.

(** The distinct colours of a list, each at its first occurrence, after
    those already [seen]. *)
Fixpoint distinct_from (seen : list color) (cs : list color) : list color :=
  match cs with
  | [] => seen
  | c :: cs' =>
      if existsb (fun k => color_eqb k c) seen then distinct_from seen cs'
      else distinct_from (seen ++ [c]) cs'
  end.

Definition distinct (cs : list color) : list color := distinct_from [] cs.

(** No two entries of a list are equal keys. *)
Inductive apart : list color -> Prop :=
| apart_nil : apart []
| apart_snoc (l : list color) (c : color) :
    apart l -> existsb (fun k => color_eqb k c) l = false ->
    apart (l ++ [c])%list.

(** *** Reading the scene back *)

(** The material in the first slot of the mesh of an object. *)
Definition material_of_object (h : host) (ob : object) : option nat :=
  match ob_data ob with
  | Some me =>
      match nth_error (bpy_data_meshes h) me with
      | Some d => hd_error (me_materials d)
      | None => None
      end
  | None => None
  end.

Definition at_pixel (parent x y : nat) (ob : object) : bool :=
  match ob_parent ob with
  | Some p => Nat.eqb p parent
  | None => false
  end &&
  let '(lx, ly, lz) := ob_location ob in
  (lx =? Z.of_nat x)%Z && (ly =? Z.of_nat y)%Z && (lz =? 0)%Z.

(** The cube for pixel [(x, y)] among the objects created after [parent]. *)
Definition cube_at (h : host) (parent x y : nat) : option object :=
  find (at_pixel parent x y) (skipn (S parent) (bpy_data_objects h)).

Definition material_at (h : host) (parent x y : nat) : option nat :=
  match cube_at h parent x y with
  | Some ob => material_of_object h ob
  | None => None
  end.

(** *** Traces *)

Definition is_release (img : nat) (e : event) : bool :=
  match e with
  | UserClear i | ImagesRemove i => Nat.eqb i img
  | _ => false
  end.

Definition releases (img : nat) (evs : list event) : list event :=
  filter (is_release img) evs.

(** *** Templates *)

Section Rendering.
Context {P : ObjectProtocol}.

(** The template formats without raising for every pixel. *)
Definition renders (template filename struse_nodes : string) : Prop :=
  forall strcolor x y,
    exists s,
      format template (pixel_params filename strcolor x y struse_nodes) = Done s.

Definition renders_group (template filename struse_nodes : string) : Prop :=
  exists s, format template (group_params filename struse_nodes) = Done s.

End Rendering.

(** *** What a new material looks like *)

(** The node graph that lines 123-143 leave in a material for [color] with
    alpha [a]: nodes in order of creation. *)
Definition shader_graph (color : color) (a : sample) : node_tree :=
  let diffuse :=
    {| bl_idname := "ShaderNodeBsdfDiffuse"; inputs := [(0, ColorValue color)] |} in
  let output := {| bl_idname := "ShaderNodeOutputMaterial"; inputs := [] |} in
  if Qlt_bool a 1 then
    {| nodes :=
         [ diffuse; output;
           {| bl_idname := "ShaderNodeMixShader"; inputs := [(0, FloatValue a)] |};
           {| bl_idname := "ShaderNodeBsdfTransparent";
              inputs := [(0, ColorValue color)] |} ];
       links :=
         [ {| from_node := 0; from_socket := 0; to_node := 2; to_socket := 1 |};
           {| from_node := 3; from_socket := 0; to_node := 2; to_socket := 2 |};
           {| from_node := 2; from_socket := 0; to_node := 1; to_socket := 0 |} ] |}
  else
    {| nodes := [ diffuse; output ];
       links :=
         [ {| from_node := 0; from_socket := 0; to_node := 1; to_socket := 0 |} ] |}.

Definition fresh_material (name : string) (use_nodes : bool) (color : color)
           (a : sample) : material :=
  {| ma_name := name; ma_diffuse_color := color; ma_use_nodes := use_nodes;
     ma_node_tree := if use_nodes then Some (shader_graph color a) else None |}.

(** *** Worked examples *)

(** A host that holds nothing and can decode the given files. *)
Definition empty_host (fs : list (string * image)) : host :=
  {| files := fs; bpy_data_images := []; bpy_data_materials := [];
     bpy_data_meshes := []; bpy_data_objects := [];
     bpy_context_collection_objects := []; trace := [] |}.

(** Two by two, RGBA: half-transparent red, fully transparent green; then
    the same red and an opaque near-black. *)
Definition rgba_2x2 : image :=
  {| im_channels := 4; im_size := (2, 2);
     im_pixels := [ 1; 0; 0; 1 # 2;    0; 1; 0; 0;
                    1; 0; 0; 1 # 2;    1 # 1000; 0; 0; 1 ]%Q |}.

(** Two by one, RGB: red and green. *)
Definition rgb_2x1 : image :=
  {| im_channels := 3; im_size := (2, 1);
     im_pixels := [ 1; 0; 0;   0; 1; 0 ]%Q |}.

(** Two by one, RGBA, opaque: black and a near-black that rounds to the
    same eight digits. *)
Definition near_black_2x1 : image :=
  {| im_channels := 4; im_size := (2, 1);
     im_pixels := [ 0; 0; 0; 1;   1 # 1000; 0; 0; 1 ]%Q |}.

(** Two channels: not a count the script accepts. *)
Definition two_channels_1x1 : image :=
  {| im_channels := 2; im_size := (1, 1); im_pixels := [ 1; 1 ]%Q |}.

(** *** What one visible pixel adds *)

Definition cube_mesh (name : string) (material : nat) : mesh :=
  {| me_name := name; me_vertices := cube_verts; me_edges := cube_edges;
     me_faces := cube_faces; me_materials := [material]; me_updated := true |}.

Definition cube_object (name : string) (mesh parent x y : nat) : object :=
  {| ob_name := name; ob_data := Some mesh;
     ob_location := (Z.of_nat x, Z.of_nat y, 0%Z); ob_parent := Some parent |}.

Definition named (name : string) (m : material) : bool :=
  String.eqb (ma_name m) name.

(** How lines 109-143 settle the material of a colour: the material, the
    dictionary and the registry afterwards, and the calls made on the
    registry. *)
Definition settle {N : Naming} (use_nodes reuse_materials : bool)
           (name : string) (c : color) (materials : cache)
           (registry : list material)
  : nat * cache * list material * list event :=
  match cache_get c materials with
  | Some material => (material, materials, registry, [])
  | None =>
      match (if reuse_materials then index_of (named name) registry 0
             else None) with
      | Some material =>
          (material, cache_set c material materials, registry,
           [MaterialsGet name])
      | None =>
          (List.length registry,
           cache_set c (List.length registry) materials,
           (registry ++
            [fresh_material (unique_name (map ma_name registry) name)
                            use_nodes c (alpha c)])%list,
           ((if reuse_materials then [MaterialsGet name] else []) ++
            [MaterialsNew name])%list)
      end
  end.

(** *** The state of a run between two pixels *)

(** The cube [ob] stands for pixel [p]: it sits at the pixel's position
    under [parent], and the material of its mesh is the one the dictionary
    [d] holds for the pixel's colour. *)
Definition cube_ok (img : image) (parent : nat) (h : host) (d : cache)
           (p : nat * nat) (ob : object) : Prop :=
  ob_location ob = (Z.of_nat (fst p), Z.of_nat (snd p), 0%Z) /\
  ob_parent ob = Some parent /\
  exists m, material_of_object h ob = Some m /\
            cache_get (color_at img (fst p) (snd p)) d = Some m.

(** What holds after the pixels [done] of image [img] have been handled;
    [h0] is the host when the loops were entered. *)
Record run_inv (img : image) (reuse_materials : bool) (parent : nat)
       (h0 : host) (done : list (nat * nat)) (st : locals) (h : host) : Prop := {
  inv_cubes :
    exists cubes,
      bpy_data_objects h = (bpy_data_objects h0 ++ cubes)%list /\
      Forall2 (cube_ok img parent h (materials st)) (visible img done) cubes;
  inv_meshes :
    exists ms,
      bpy_data_meshes h = (bpy_data_meshes h0 ++ ms)%list /\
      List.length ms = List.length (visible img done);
  inv_materials :
    reuse_materials = false ->
    exists new,
      bpy_data_materials h = (bpy_data_materials h0 ++ new)%list /\
      map snd (materials st)
      = seq (List.length (bpy_data_materials h0)) (List.length new) /\
      map fst (materials st) = distinct (colors_of img (visible img done));
  inv_alpha : im_channels img <> 4 -> a st = 1%Q
}.

(** One by one, RGB: red. *)
Definition red_1x1 : image :=
  {| im_channels := 3; im_size := (1, 1); im_pixels := [ 1; 0; 0 ]%Q |}.

(** A host that already holds a material under the name the default
    template gives to opaque red. *)
Definition host_with_red : host :=
  {| files := [("red.png", red_1x1)]; bpy_data_images := [];
     bpy_data_materials :=
       [ {| ma_name := "pixel_art_FF0000FF";
            ma_diffuse_color := default_diffuse_color;
            ma_use_nodes := false; ma_node_tree := None |} ];
     bpy_data_meshes := []; bpy_data_objects := [];
     bpy_context_collection_objects := []; trace := [] |}.

(** *** Statements that leave the images alone *)

Definition not_release (e : event) : bool :=
  match e with
  | UserClear _ | ImagesRemove _ => false
  | _ => true
  end.

(** [m] neither touches [bpy.data.images] nor releases any image, whether
    it returns or raises. *)
Definition quiet {A : Type} (m : M A) : Prop :=
  forall h,
    bpy_data_images (snd (m h)) = bpy_data_images h /\
    exists evs,
      trace (snd (m h)) = (trace h ++ evs)%list /\
      forallb not_release evs = true.

(** *** Validation *)

(** The four checks of [execute], in its order. *)
Definition checks_of (self : ImportPixelArt) : list (string * string * kwargs) :=
  [ ("object name", parent_name self,
     [ ("filename", PStr ""); ("use_nodes", PStr "") ]);
    ("material names", material_name self, pix_params);
    ("mesh names", mesh_name self, pix_params);
    ("pixel names", cube_name self, pix_params) ]%string.

Definition passes {P : ObjectProtocol} (check : string * string * kwargs) : Prop :=
  let '(_, value, params) := check in exists s, format value params = Done s.

(** The data blocks of two hosts are the same. *)
Definition same_data (h h' : host) : Prop :=
  bpy_data_images h' = bpy_data_images h /\
  bpy_data_materials h' = bpy_data_materials h /\
  bpy_data_meshes h' = bpy_data_meshes h /\
  bpy_data_objects h' = bpy_data_objects h /\
  bpy_context_collection_objects h' = bpy_context_collection_objects h.

(** *** What a run leaves in the scene *)

(** The host once [images.load] has decoded [img] from [filepath]. *)
Definition loaded (filepath : string) (img : image) (h : host) : host :=
  {| files := files h;
     bpy_data_images := (bpy_data_images h ++ [Some img])%list;
     bpy_data_materials := bpy_data_materials h;
     bpy_data_meshes := bpy_data_meshes h;
     bpy_data_objects := bpy_data_objects h;
     bpy_context_collection_objects := bpy_context_collection_objects h;
     trace := (trace h ++ [ImagesLoad filepath])%list |}.

(** The parent as line 77 creates it when [name] is what was asked for. *)
Definition group_object {N : Naming} (name : string) (h : host) : object :=
  {| ob_name := unique_name (map ob_name (bpy_data_objects h)) name;
     ob_data := None; ob_location := (0, 0, 0)%Z; ob_parent := None |}.

(** The host once the parent has been created and linked. *)
Definition with_parent {N : Naming} (name : string) (h : host) : host :=
  {| files := files h;
     bpy_data_images := bpy_data_images h;
     bpy_data_materials := bpy_data_materials h;
     bpy_data_meshes := bpy_data_meshes h;
     bpy_data_objects := (bpy_data_objects h ++ [group_object name h])%list;
     bpy_context_collection_objects :=
       (bpy_context_collection_objects h ++
        [List.length (bpy_data_objects h)])%list;
     trace :=
       (trace h ++
        [ObjectsNew name;
         CollectionLink (List.length (bpy_data_objects h))])%list |}.

(** The host once the [finally] block has released [image]. *)
Definition released (image : nat) (h : host) : host :=
  {| files := files h;
     bpy_data_images := update_at image (fun _ => None) (bpy_data_images h);
     bpy_data_materials := bpy_data_materials h;
     bpy_data_meshes := bpy_data_meshes h;
     bpy_data_objects := bpy_data_objects h;
     bpy_context_collection_objects := bpy_context_collection_objects h;
     trace := (trace h ++ [UserClear image; ImagesRemove image])%list |}.

Section Scene.
Context {P : ObjectProtocol} {N : Naming}.
Variables (use_nodes reuse_materials : bool).
Variables (material_name cube_name mesh_name filename struse_nodes : string).
Variables (img : image) (parent : nat) (h0 : host).

(** The keyword arguments the templates are formatted with at pixel [p]. *)
Definition params_at (p : nat * nat) : kwargs :=
  pixel_params filename (strcolor_of (color_at img (fst p) (snd p)))
               (fst p) (snd p) struse_nodes.

(** The [k]-th pixel that is not skipped has the [k]-th object and the
    [k]-th mesh created in the loops: the object at the pixel's position
    under [parent] with that mesh as its data, the mesh a unit cube whose only
    material is the one the dictionary [d] holds for the pixel's colour.
    Each is named as the host names a data block for which the formatted
    template is asked, given the names of the blocks before it. *)
Definition cube_of (h : host) (d : cache) (k : nat) (p : nat * nat) : Prop :=
  let o := (List.length (bpy_data_objects h0) + k)%nat in
  let me := (List.length (bpy_data_meshes h0) + k)%nat in
  exists cname mname m,
    format cube_name (params_at p) = Done cname /\
    format mesh_name (params_at p) = Done mname /\
    cache_get (color_at img (fst p) (snd p)) d = Some m /\
    nth_error (bpy_data_objects h) o
    = Some (cube_object
              (unique_name (map ob_name (firstn o (bpy_data_objects h))) cname)
              me parent (fst p) (snd p)) /\
    nth_error (bpy_data_meshes h) me
    = Some (cube_mesh
              (unique_name (map me_name (firstn me (bpy_data_meshes h))) mname)
              m).

(** What holds of the scene after the pixels [done], besides [run_inv];
    [h0] is the host when the loops were entered. *)
Record scene_inv (done : list (nat * nat)) (st : locals) (h : host) : Prop := {
  scn_files : files h = files h0;
  scn_images : bpy_data_images h = bpy_data_images h0;
  scn_objects :
    List.length (bpy_data_objects h)
    = (List.length (bpy_data_objects h0) + List.length (visible img done))%nat;
  scn_meshes :
    List.length (bpy_data_meshes h)
    = (List.length (bpy_data_meshes h0) + List.length (visible img done))%nat;
  scn_collection :
    bpy_context_collection_objects h
    = (bpy_context_collection_objects h0 ++
       seq (List.length (bpy_data_objects h0)) (List.length (visible img done)))%list;
  scn_cubes :
    forall k p, nth_error (visible img done) k = Some p ->
                cube_of h (materials st) k p;
  scn_keys :
    map fst (materials st) = distinct (colors_of img (visible img done));
  scn_registry :
    exists new,
      bpy_data_materials h = (bpy_data_materials h0 ++ new)%list /\
      (List.length new <= List.length (materials st))%nat;
  scn_entries :
    forall c m, In (c, m) (materials st) ->
      exists d,
        nth_error (bpy_data_materials h) m = Some d /\
        (reuse_materials = false ->
         (List.length (bpy_data_materials h0) <= m)%nat /\
         exists name, d = fresh_material name use_nodes c (alpha c));
  scn_created :
    forall j d,
      let i := (List.length (bpy_data_materials h0) + j)%nat in
      nth_error (bpy_data_materials h) i = Some d ->
      exists x y name,
        In (x, y) (visible img done) /\
        format material_name (params_at (x, y)) = Done name /\
        d = fresh_material
              (unique_name
                 (map ma_name (firstn i (bpy_data_materials h))) name)
              use_nodes (color_at img x y) (alpha (color_at img x y)) /\
        (reuse_materials = true ->
         index_of (named name) (firstn i (bpy_data_materials h)) 0 = None)
}.

End Scene.

(** *** Statements that leave the existing data blocks alone *)

(** Everything [h] holds, [h'] holds at the same place: the materials,
    meshes, objects and collection entries of [h] are the first ones of
    [h'], unchanged, and the files are the same. *)
Definition extends (h h' : host) : Prop :=
  files h' = files h /\
  (exists l, bpy_data_materials h' = (bpy_data_materials h ++ l)%list) /\
  (exists l, bpy_data_meshes h' = (bpy_data_meshes h ++ l)%list) /\
  (exists l, bpy_data_objects h' = (bpy_data_objects h ++ l)%list) /\
  (exists l, bpy_context_collection_objects h'
             = (bpy_context_collection_objects h ++ l)%list).

(** [m] only adds, whether it returns or raises. *)
Definition steady {A : Type} (m : M A) : Prop :=
  forall h, extends h (snd (m h)).

(** *** Templates at a pixel, and what validation leaves to fail *)

(** The three templates of a cube format at pixel [(x, y)] of [img]. *)
Definition formats_at {P : ObjectProtocol}
           (material_name cube_name mesh_name filename struse_nodes : string)
           (img : image) (x y : nat) : Prop :=
  exists name mname cname,
    format material_name (params_at filename struse_nodes img (x, y))
    = Done name /\
    format mesh_name (params_at filename struse_nodes img (x, y))
    = Done mname /\
    format cube_name (params_at filename struse_nodes img (x, y))
    = Done cname.

(** The host once [self.report] has been called with [message]. *)
Definition reported (message : string) (h : host) : host :=
  {| files := files h;
     bpy_data_images := bpy_data_images h;
     bpy_data_materials := bpy_data_materials h;
     bpy_data_meshes := bpy_data_meshes h;
     bpy_data_objects := bpy_data_objects h;
     bpy_context_collection_objects := bpy_context_collection_objects h;
     trace := (trace h ++ [Report message])%list |}.

(** Not the separator of path components. *)
Definition no_slash (c : ascii) : bool := negb (c =? "/")%char.

(** The failure comes from a value: from its attributes, its items, its
    conversion or its [__format__], not from the formatting itself. *)
Definition raised_by_a_value (e : format_error) : Prop :=
  exists e', e = FromObject e'.

(** [r] is a result, or a failure that comes from a value. *)
Definition fails_only_in_values {A : Type} (r : fresult A) : Prop :=
  forall e, r = Failed e -> raised_by_a_value e.

(** *** The colour as its digits see it *)

(** The four channels as the colour digits see them: [int(v * 255)]. *)
Definition eight_bit (c : color) : Z * Z * Z * Z :=
  let '(r, g, b, a) := c in
  (int_of_float (r * 255)%Q, int_of_float (g * 255)%Q,
   int_of_float (b * 255)%Q, int_of_float (a * 255)%Q).

(** Every channel lies between 0 and 1. *)
Definition in_unit_range (c : color) : Prop :=
  let '(r, g, b, a) := c in
  (0 <= r <= 1)%Q /\ (0 <= g <= 1)%Q /\ (0 <= b <= 1)%Q /\ (0 <= a <= 1)%Q.

(** * Properties *)

(** ** The [{color}] field *)

Lemma int_of_float_floor (v : sample) :
  (0 <= v)%Q -> int_of_float v = Qfloor v.
Proof.
  destruct v as [n d]. unfold Qle, int_of_float, Qfloor. simpl. intros H.
  apply Z.quot_div_nonneg; lia.
Qed.

Lemma scaled_nonneg (v : sample) : (0 <= v)%Q -> (0 <= v * 255)%Q.
Proof.
  intros H. apply Qmult_le_0_compat; [exact H | discriminate].
Qed.

Lemma scaled_floor_bounds (v : sample) :
  (0 <= v)%Q -> (v <= 1)%Q -> (0 <= Qfloor (v * 255)%Q <= 255)%Z.
Proof.
  intros H0 H1. split.
  - change 0%Z with (Qfloor 0). apply Qfloor_resp_le, scaled_nonneg, H0.
  - change 255%Z with (Qfloor (1 * 255)). apply Qfloor_resp_le.
    apply Qmult_le_compat_r; [exact H1 | discriminate].
Qed.

Lemma below_256_listed (n : Z) :
  (0 <= n <= 255)%Z -> In (Z.to_nat n) (seq 0 256).
Proof. intros H. apply in_seq. lia. Qed.

Lemma percent_02X_hex2 (n : Z) :
  (0 <= n <= 255)%Z -> percent_02X n = hex2 n.
Proof.
  intros H.
  assert (E : forallb (fun k => String.eqb (percent_02X (Z.of_nat k))
                                           (hex2 (Z.of_nat k)))
                      (seq 0 256) = true) by (vm_compute; reflexivity).
  rewrite forallb_forall in E. specialize (E _ (below_256_listed n H)).
  rewrite Z2Nat.id in E by lia. now apply String.eqb_eq.
Qed.

Lemma hex2_upper (n : Z) :
  (0 <= n <= 255)%Z -> all_chars upper_hex (hex2 n) = true.
Proof.
  intros H.
  assert (E : forallb (fun k => all_chars upper_hex (hex2 (Z.of_nat k)))
                      (seq 0 256) = true) by (vm_compute; reflexivity).
  rewrite forallb_forall in E. specialize (E _ (below_256_listed n H)).
  now rewrite Z2Nat.id in E by lia.
Qed.

Lemma all_chars_app (p : ascii -> bool) (s t : string) :
  all_chars p (s ++ t) = all_chars p s && all_chars p t.
Proof.
  induction s as [|c s IH]; simpl; [reflexivity|].
  now rewrite IH, andb_assoc.
Qed.

Lemma channel_digits (v : sample) :
  (0 <= v)%Q -> (v <= 1)%Q ->
  percent_02X (int_of_float (v * 255)%Q) = hex2 (Qfloor (v * 255)%Q).
Proof.
  intros H0 H1. rewrite int_of_float_floor by now apply scaled_nonneg.
  apply percent_02X_hex2, scaled_floor_bounds; assumption.
Qed.

Lemma append_empty_r (s : string) : s ++ "" = s.
Proof. induction s as [|c s IH]; simpl; [reflexivity | now rewrite IH]. Qed.

Section ColorField.
Context {P : ObjectProtocol}.

(** A template that is one named field renders the string bound to the
    name. *)
Lemma format_color_field filename strcolor x y struse_nodes :
  format "{color}" (pixel_params filename strcolor x y struse_nodes)
  = Done strcolor.
Proof.
  transitivity (@Done string ("" ++ strcolor ++ "")).
  - unfold format. lazy -[py_format of_val].
    rewrite py_format_str. reflexivity.
  - simpl. now rewrite append_empty_r.
Qed.

End ColorField.

(** C8.  For a pixel colour [(r, g, b, a)] with every channel in [0, 1] the
    [{color}] field renders as eight upper-case hexadecimal digits, in the
    order RRGGBBAA, the two digits of a channel [v] being those of
    [floor (v * 255)]. *)
Theorem color_field_is_RRGGBBAA {P : ObjectProtocol}
        (r g b a : sample) (filename struse_nodes : string) (x y : nat) :
  (0 <= r <= 1)%Q -> (0 <= g <= 1)%Q -> (0 <= b <= 1)%Q -> (0 <= a <= 1)%Q ->
  let digits := hex2 (Qfloor (r * 255)%Q) ++ hex2 (Qfloor (g * 255)%Q) ++
                hex2 (Qfloor (b * 255)%Q) ++ hex2 (Qfloor (a * 255)%Q) in
  format "{color}"
         (pixel_params filename (strcolor_of (r, g, b, a)) x y struse_nodes)
  = Done digits /\
  String.length digits = 8 /\
  all_chars upper_hex digits = true.
Proof.
  intros [Hr0 Hr1] [Hg0 Hg1] [Hb0 Hb1] [Ha0 Ha1] digits.
  split; [|split].
  - rewrite format_color_field. unfold strcolor_of, digits.
    now rewrite !channel_digits.
  - reflexivity.
  - unfold digits. rewrite !all_chars_app.
    rewrite !hex2_upper by (apply scaled_floor_bounds; assumption).
    reflexivity.
Qed.


Lemma unit_interval_checked (p q r : sample) :
  Qle_bool p q = true -> Qle_bool q r = true -> (p <= q <= r)%Q.
Proof. intros H1 H2. split; now apply Qle_bool_iff. Qed.

Lemma color_field_is_RRGGBBAA_witness :
  ((0 <= 1 <= 1)%Q /\ (0 <= 0 <= 1)%Q /\ (0 <= 1 # 2 <= 1)%Q) /\
  format "{color}"
         (pixel_params "img.png" (strcolor_of (1, 0, 1 # 2, 1)%Q) 0 0 "nodes")
  = Done "FF007FFF".
Proof.
  pose (H1 := unit_interval_checked 0 1 1 eq_refl eq_refl).
  pose (H2 := unit_interval_checked 0 0 1 eq_refl eq_refl).
  pose (H3 := unit_interval_checked 0 (1 # 2) 1 eq_refl eq_refl).
  split; [exact (conj H1 (conj H2 H3))|].
  exact (proj1 (color_field_is_RRGGBBAA (P := plain_objects)
                  1%Q 0%Q (1 # 2)%Q 1%Q "img.png" "nodes" 0 0 H1 H2 H3 H1)).
Defined.

(** ** Running the statements *)

Lemma nth_error_app_last {A : Type} (l : list A) (x : A) :
  nth_error (l ++ [x]) (List.length l) = Some x.
Proof. induction l; simpl; auto. Qed.

Lemma update_at_app_last {A : Type} (f : A -> A) (l : list A) (x : A) :
  update_at (List.length l) f (l ++ [x]) = (l ++ [f x])%list.
Proof. induction l; simpl; auto. now rewrite IHl. Qed.

Lemma bind_return {A B : Type} (m : M A) (k : A -> M B) h a h1 :
  m h = (Return a, h1) -> bind m k h = k a h1.
Proof. unfold bind. now intros ->. Qed.

(** Symbolic execution of host calls on a store whose seven lists are
    variables. *)
Ltac data_fields :=
  cbn [ma_name ma_diffuse_color ma_use_nodes ma_node_tree
       me_name me_vertices me_edges me_faces me_materials me_updated
       ob_name ob_data ob_location ob_parent
       nodes links bl_idname inputs assign Nat.eqb List.length].

Ltac run_calls :=
  cbv beta iota zeta delta
    [materials_new meshes_new objects_new materials_get
     set_diffuse_color set_use_nodes nodes_clear nodes_new
     set_default_value links_new on_tree from_pydata
     mesh_materials_append mesh_update collection_link set_location
     set_parent modify_material modify_mesh modify_object modify log
     get_host bind ret raise set_materials set_meshes set_objects
     set_collection set_images images_load image_data user_clear
     images_remove try_finally
     files bpy_data_images bpy_data_materials bpy_data_meshes
     bpy_data_objects bpy_context_collection_objects trace];
  data_fields.

Ltac run_host :=
  run_calls;
  repeat (progress rewrite ?nth_error_app_last, ?update_at_app_last;
          run_calls).

Section NewMaterial.
Context {N : Naming}.

(** A new material, start to end. *)
Lemma create_material_runs use_nodes name r g b a h :
  create_material use_nodes name (r, g, b, a) a h =
  (Return (List.length (bpy_data_materials h)),
   {| files := files h;
      bpy_data_images := bpy_data_images h;
      bpy_data_materials :=
        bpy_data_materials h ++
        [fresh_material (unique_name (map ma_name (bpy_data_materials h)) name)
                        use_nodes (r, g, b, a) a];
      bpy_data_meshes := bpy_data_meshes h;
      bpy_data_objects := bpy_data_objects h;
      bpy_context_collection_objects := bpy_context_collection_objects h;
      trace := trace h ++ [MaterialsNew name] |}).
Proof.
  destruct h as [fs ims mats mes obs col tr].
  unfold create_material, build_nodes, fresh_material, shader_graph.
  destruct use_nodes; run_host; [|reflexivity].
  destruct (Qlt_bool a 1); run_host; reflexivity.
Qed.

End NewMaterial.

(** ** The node graph of a new material *)

Lemma Qlt_bool_iff (v w : sample) : Qlt_bool v w = true <-> (v < w)%Q.
Proof.
  unfold Qlt_bool. rewrite negb_true_iff. split.
  - intros H. apply Qnot_le_lt. intros L.
    apply Qle_bool_iff in L. congruence.
  - intros H. destruct (Qle_bool w v) eqn:E; [|reflexivity].
    apply Qle_bool_iff in E. exfalso. exact (Qlt_not_le _ _ H E).
Qed.

Ltac graph_fact :=
  first [ reflexivity
        | eexists; split; [reflexivity | simpl; auto]
        | simpl; auto 10 ].

(** C7.  A material newly created for the pixel colour [(r, g, b, a)] with
    the shader graph enabled gets a diffuse node whose input colour is the
    pixel colour and a material output node; when [a < 1] also a mix node
    with factor [a] and a transparent node with the same colour, the diffuse
    output going to slot 1 of the mix node, the transparent output to slot
    2, and the mix node to the material output; when [a = 1] the diffuse
    node goes to the material output directly. *)
Theorem new_material_node_graph {N : Naming}
        (name : string) (r g b a : sample) (h : host) :
  let color := (r, g, b, a) in
  exists h' m t diffuse output,
    create_material true name color a h
    = (Return (List.length (bpy_data_materials h)), h') /\
    nth_error (bpy_data_materials h') (List.length (bpy_data_materials h))
    = Some m /\
    ma_node_tree m = Some t /\
    node_is t diffuse "ShaderNodeBsdfDiffuse" /\
    input_is t diffuse 0 (ColorValue color) /\
    node_is t output "ShaderNodeOutputMaterial" /\
    ((a < 1)%Q ->
     exists mix transparent,
       List.length (nodes t) = 4 /\ List.length (links t) = 3 /\
       node_is t mix "ShaderNodeMixShader" /\
       input_is t mix 0 (FloatValue a) /\
       node_is t transparent "ShaderNodeBsdfTransparent" /\
       input_is t transparent 0 (ColorValue color) /\
       linked t diffuse 0 mix 1 /\
       linked t transparent 0 mix 2 /\
       linked t mix 0 output 0) /\
    ((a == 1)%Q ->
     List.length (nodes t) = 2 /\ List.length (links t) = 1 /\
     linked t diffuse 0 output 0).
Proof.
  intros color. subst color. rewrite create_material_runs.
  eexists. eexists. exists (shader_graph (r, g, b, a) a), 0, 1.
  split; [reflexivity|]. cbv beta iota delta [bpy_data_materials].
  rewrite nth_error_app_last.
  split; [reflexivity|]. split; [reflexivity|].
  unfold shader_graph, node_is, input_is, linked.
  destruct (Qlt_bool a 1) eqn:E; simpl;
    (split; [graph_fact|]); (split; [graph_fact|]); (split; [graph_fact|]);
    split.
  - intros _. exists 2, 3. repeat (split; [graph_fact|]). graph_fact.
  - intros Ha. exfalso. apply Qlt_bool_iff in E. rewrite Ha in E.
    exact (Qlt_irrefl _ E).
  - intros Ha. apply Qlt_bool_iff in Ha. congruence.
  - intros _. repeat (split; [graph_fact|]). graph_fact.
Qed.

(** ** Reading pixels *)

Lemma getitem_in_range (pixels : list sample) (i : nat) (h : host) :
  i < List.length pixels -> getitem pixels i h = (Return (nth i pixels 0%Q), h).
Proof.
  intros H. unfold getitem.
  rewrite (nth_error_nth' pixels 0%Q H). reflexivity.
Qed.

(** The four samples of a pixel of a well-formed image lie inside the
    buffer. *)
Lemma sample_index_in_range (w hgt c x y k : nat) :
  x < w -> y < hgt -> k < c -> y * c * w + x * c + k < w * hgt * c.
Proof.
  intros Hx Hy Hk.
  assert (H1 : S y * (c * w) <= hgt * (c * w)) by (apply Nat.mul_le_mono_r; lia).
  assert (H2 : S x * c <= w * c) by (apply Nat.mul_le_mono_r; lia).
  lia.
Qed.

Section Skipping.
Context {P : ObjectProtocol} {N : Naming}.
Variables (use_nodes reuse_materials : bool).
Variables (material_name cube_name mesh_name filename struse_nodes : string).

(** C4.  In a four-channel image a pixel whose alpha is exactly 0 is passed
    over: the iteration returns with the host as it was (no cube, no mesh,
    no material looked up or created, nothing added to the trace, not even
    the lookup in the script's own dictionary) and with the dictionary as it
    was. *)
Theorem transparent_pixel_is_skipped
        (img : image) (parent x y : nat) (st : locals) (h : host) :
  im_channels img = 4 ->
  well_formed img ->
  x < width img -> y < height img ->
  (alpha (color_at img x y) == 0)%Q ->
  pixel use_nodes reuse_materials material_name cube_name mesh_name filename
        struse_nodes parent (im_channels img) (im_pixels img)
        y (y * im_channels img * width img) x st h
  = (Return {| a := alpha (color_at img x y); materials := materials st |}, h).
Proof.
  intros Hc [_ Hlen] Hx Hy Ha.
  unfold pixel, color_at, sample_at in *. rewrite Hc in *.
  change (Nat.eqb 4 1) with false in *. change (Nat.eqb 4 3) with false in *.
  cbv iota in *.
  assert (R : forall k, k < 4 ->
            y * 4 * width img + x * 4 + k < List.length (im_pixels img))
    by (intros k Hk; rewrite Hlen; now apply sample_index_in_range).
  assert (R0 : y * 4 * width img + x * 4 < List.length (im_pixels img))
    by (specialize (R 0); lia).
  rewrite (bind_return _ _ h _ h (getitem_in_range _ _ h R0)).
  rewrite (bind_return _ _ h _ h (getitem_in_range _ _ h (R 1 ltac:(lia)))).
  rewrite (bind_return _ _ h _ h (getitem_in_range _ _ h (R 2 ltac:(lia)))).
  rewrite (bind_return _ _ h _ h (getitem_in_range _ _ h (R 3 ltac:(lia)))).
  simpl alpha in Ha. apply Qeq_bool_iff in Ha. rewrite Ha. reflexivity.
Qed.

End Skipping.

Lemma transparent_pixel_is_skipped_witness :
  (im_channels rgba_2x2 = 4 /\ well_formed rgba_2x2 /\
   1 < width rgba_2x2 /\ 0 < height rgba_2x2 /\
   (alpha (color_at rgba_2x2 1 0) == 0)%Q) /\
  pixel (P := plain_objects) (N := numbered_names)
        true false MATERIAL_NAME CUBE_NAME MESH_NAME "img.png" "nodes"
        0 4 (im_pixels rgba_2x2) 0 0 1
        {| a := 1; materials := [] |} (empty_host [])
  = (Return {| a := 0; materials := [] |}, empty_host []).
Proof.
  assert (Hw : well_formed rgba_2x2)
    by (split; [simpl; auto | reflexivity]).
  assert (Hx : 1 < width rgba_2x2) by (unfold width; simpl; lia).
  assert (Hy : 0 < height rgba_2x2) by (unfold height; simpl; lia).
  assert (Ha : (alpha (color_at rgba_2x2 1 0) == 0)%Q) by reflexivity.
  split; [repeat split; auto; apply Hw|].
  exact (transparent_pixel_is_skipped (P := plain_objects) (N := numbered_names)
           true false MATERIAL_NAME CUBE_NAME MESH_NAME "img.png" "nodes"
           rgba_2x2 0 1 0 {| a := 1; materials := [] |} (empty_host [])
           eq_refl Hw Hx Hy Ha).
Defined.

(** ** One visible pixel *)

Section Place.
Context {P : ObjectProtocol} {N : Naming}.
Variables (use_nodes reuse_materials : bool).
Variables (material_name cube_name mesh_name filename struse_nodes : string).

(** The whole of [place] when its three templates format. *)
Lemma place_runs parent y x r g b a materials h name mname cname :
  let c := (r, g, b, a) in
  let params := pixel_params filename (strcolor_of c) x y struse_nodes in
  format material_name params = Done name ->
  format mesh_name params = Done mname ->
  format cube_name params = Done cname ->
  let '(material, materials', registry', calls) :=
    settle use_nodes reuse_materials name c materials (bpy_data_materials h) in
  place use_nodes reuse_materials material_name cube_name mesh_name filename
        struse_nodes parent y x r g b a materials h
  = (Return {| a := a; materials := materials' |},
     {| files := files h;
        bpy_data_images := bpy_data_images h;
        bpy_data_materials := registry';
        bpy_data_meshes :=
          bpy_data_meshes h ++
          [cube_mesh (unique_name (map me_name (bpy_data_meshes h)) mname)
                     material];
        bpy_data_objects :=
          bpy_data_objects h ++
          [cube_object (unique_name (map ob_name (bpy_data_objects h)) cname)
                       (List.length (bpy_data_meshes h)) parent x y];
        bpy_context_collection_objects :=
          bpy_context_collection_objects h ++ [List.length (bpy_data_objects h)];
        trace :=
          trace h ++ [CacheLookup c] ++ calls ++
          [MeshesNew mname; ObjectsNew cname;
           CollectionLink (List.length (bpy_data_objects h))] |}).
Proof.
  intros c params Hn Hm Hc. subst c params.
  unfold place, format_m, settle. rewrite Hn, Hm, Hc. clear Hn Hm Hc.
  unfold cube_mesh, cube_object. destruct h as [fs ims mats mes obs col tr].
  cbn [bpy_data_materials].
  destruct (cache_get (r, g, b, a) materials) as [m|] eqn:G.
  - run_host. rewrite <- !app_assoc. reflexivity.
  - destruct reuse_materials.
    + unfold materials_get, named.
      destruct (index_of _ mats 0) as [m|] eqn:I.
      * run_host. rewrite I. run_host. rewrite <- !app_assoc. reflexivity.
      * run_host. rewrite I. run_host. rewrite create_material_runs.
        run_host. rewrite <- !app_assoc. reflexivity.
    + run_host. rewrite create_material_runs.
      run_host. rewrite <- !app_assoc. reflexivity.
Qed.

End Place.

(** ** Colour keys and the dictionary *)

Open Scope list_scope.

Lemma Qeq_bool_refl (v : sample) : Qeq_bool v v = true.
Proof. apply Qeq_bool_iff. reflexivity. Qed.

Lemma Qeq_bool_sym (v w : sample) : Qeq_bool v w = Qeq_bool w v.
Proof.
  destruct (Qeq_bool v w) eqn:E, (Qeq_bool w v) eqn:F; try reflexivity.
  - apply Qeq_bool_iff in E. symmetry in E. apply Qeq_bool_iff in E. congruence.
  - apply Qeq_bool_iff in F. symmetry in F. apply Qeq_bool_iff in F. congruence.
Qed.

Lemma Qeq_bool_trans (u v w : sample) :
  Qeq_bool u v = true -> Qeq_bool v w = true -> Qeq_bool u w = true.
Proof.
  rewrite !Qeq_bool_iff. intros H1 H2. now rewrite H1.
Qed.

Lemma color_eqb_true (c1 c2 : color) :
  color_eqb c1 c2 = true <->
  let '(r1, g1, b1, a1) := c1 in
  let '(r2, g2, b2, a2) := c2 in
  Qeq_bool r1 r2 = true /\ Qeq_bool g1 g2 = true /\
  Qeq_bool b1 b2 = true /\ Qeq_bool a1 a2 = true.
Proof.
  destruct c1 as [[[r1 g1] b1] a1], c2 as [[[r2 g2] b2] a2].
  unfold color_eqb. rewrite !andb_true_iff. tauto.
Qed.

Lemma color_eqb_refl (c : color) : color_eqb c c = true.
Proof.
  apply color_eqb_true. destruct c as [[[r g] b] al].
  repeat split; apply Qeq_bool_refl.
Qed.

Lemma color_eqb_sym (c1 c2 : color) : color_eqb c1 c2 = color_eqb c2 c1.
Proof.
  destruct c1 as [[[r1 g1] b1] a1], c2 as [[[r2 g2] b2] a2].
  unfold color_eqb.
  now rewrite (Qeq_bool_sym r1), (Qeq_bool_sym g1), (Qeq_bool_sym b1),
    (Qeq_bool_sym a1).
Qed.

Lemma color_eqb_trans (c1 c2 c3 : color) :
  color_eqb c1 c2 = true -> color_eqb c2 c3 = true -> color_eqb c1 c3 = true.
Proof.
  rewrite !color_eqb_true.
  destruct c1 as [[[r1 g1] b1] a1], c2 as [[[r2 g2] b2] a2],
    c3 as [[[r3 g3] b3] a3].
  intros (H1 & H2 & H3 & H4) (K1 & K2 & K3 & K4).
  repeat split; eapply Qeq_bool_trans; eassumption.
Qed.

(** Equal keys are interchangeable on the right of a comparison. *)
Lemma color_eqb_compat (k c1 c2 : color) :
  color_eqb c1 c2 = true -> color_eqb k c1 = color_eqb k c2.
Proof.
  intros H.
  destruct (color_eqb k c1) eqn:E1, (color_eqb k c2) eqn:E2; try reflexivity.
  - rewrite (color_eqb_trans _ _ _ E1 H) in E2. discriminate.
  - rewrite color_eqb_sym in H.
    rewrite (color_eqb_trans _ _ _ E2 H) in E1. discriminate.
Qed.

Lemma cache_get_compat (c1 c2 : color) (d : cache) :
  color_eqb c1 c2 = true -> cache_get c1 d = cache_get c2 d.
Proof.
  intros H. induction d as [|[k v] d IH]; simpl; [reflexivity|].
  now rewrite (color_eqb_compat k c1 c2 H), IH.
Qed.

Lemma cache_set_absent (c : color) (v : nat) (d : cache) :
  cache_get c d = None -> cache_set c v d = (d ++ [(c, v)])%list.
Proof.
  induction d as [|[k w] d IH]; simpl; [reflexivity|].
  destruct (color_eqb k c); [discriminate|]. intros H. now rewrite IH.
Qed.

Lemma cache_get_app (c : color) (d e : cache) (m : nat) :
  cache_get c d = Some m -> cache_get c (d ++ e) = Some m.
Proof.
  induction d as [|[k w] d IH]; simpl; [discriminate|].
  destruct (color_eqb k c); auto.
Qed.

Lemma cache_get_last (c : color) (d : cache) (m : nat) :
  cache_get c d = None -> cache_get c (d ++ [(c, m)]) = Some m.
Proof.
  induction d as [|[k w] d IH]; simpl.
  - now rewrite color_eqb_refl.
  - destruct (color_eqb k c); [discriminate|]. exact IH.
Qed.

Lemma cache_get_entry (c : color) (d : cache) (m : nat) :
  cache_get c d = Some m -> exists k, In (k, m) d /\ color_eqb k c = true.
Proof.
  induction d as [|[k w] d IH]; simpl; [discriminate|].
  destruct (color_eqb k c) eqn:E.
  - intros [= ->]. exists k. auto.
  - intros H. destruct (IH H) as (k' & Hin & Hk). exists k'. auto.
Qed.

Lemma cache_get_seen (c : color) (d : cache) :
  existsb (fun k => color_eqb k c) (map fst d) =
  match cache_get c d with Some _ => true | None => false end.
Proof.
  induction d as [|[k w] d IH]; simpl; [reflexivity|].
  destruct (color_eqb k c); simpl; auto.
Qed.

Lemma unique_value_unique_key (d : cache) (k1 k2 : color) (m : nat) :
  NoDup (map snd d) -> In (k1, m) d -> In (k2, m) d -> k1 = k2.
Proof.
  induction d as [|[k w] d IH]; simpl; [tauto|].
  intros Hnd [H1|H1] [H2|H2]; inversion Hnd as [|? ? Hnot Hnd']; subst.
  - congruence.
  - inversion H1; subst. exfalso. apply Hnot.
    change m with (snd (k2, m)). now apply in_map.
  - inversion H2; subst. exfalso. apply Hnot.
    change m with (snd (k1, m)). now apply in_map.
  - auto.
Qed.

Lemma distinct_from_app (seen cs cs' : list color) :
  distinct_from seen (cs ++ cs') = distinct_from (distinct_from seen cs) cs'.
Proof.
  revert seen. induction cs as [|c cs IH]; intros seen; simpl; [reflexivity|].
  destruct (existsb _ seen); apply IH.
Qed.

(** ** Loops *)

Lemma for_each_inv {I S : Type} (Inv : list I -> S -> host -> Prop)
      (body : I -> S -> M S) (xs : list I) :
  (forall done i s h,
      In i xs -> Inv done s h ->
      exists s' h', body i s h = (Return s', h') /\ Inv (done ++ [i]) s' h') ->
  forall done s h,
    Inv done s h ->
    exists s' h', for_each xs body s h = (Return s', h') /\ Inv (done ++ xs) s' h'.
Proof.
  induction xs as [|i xs IH]; intros Hbody done s h Hinv.
  - exists s, h. rewrite app_nil_r. split; [reflexivity | exact Hinv].
  - destruct (Hbody done i s h (or_introl eq_refl) Hinv) as (s1 & h1 & E1 & I1).
    destruct (IH (fun d j s0 h0 Hj => Hbody d j s0 h0 (or_intror Hj))
                 (done ++ [i]) s1 h1 I1) as (s2 & h2 & E2 & I2).
    exists s2, h2. split.
    + simpl. now rewrite (bind_return _ _ _ _ _ E1).
    + now rewrite <- app_assoc in I2.
Qed.

(** The two nested loops, for an invariant over the pixels handled. *)
Lemma pixel_loops_inv {S : Type} (Inv : list (nat * nat) -> S -> host -> Prop)
      (body : nat -> nat -> S -> M S) (w hgt : nat) :
  (forall done x y s h,
      x < w -> y < hgt -> Inv done s h ->
      exists s' h', body y x s h = (Return s', h') /\ Inv (done ++ [(x, y)]) s' h') ->
  forall s h,
    Inv [] s h ->
    exists s' h',
      for_range hgt (fun y st => for_range w (body y) st) s h = (Return s', h') /\
      Inv (coords w hgt) s' h'.
Proof.
  intros Hbody s h Hinv. unfold for_range, coords.
  destruct (for_each_inv (fun rows => Inv (flat_map (row w) rows))
              (fun y st => for_each (seq 0 w) (body y) st) (seq 0 hgt))
    with (done := @nil nat) (s := s) (h := h) as (s' & h' & E & I'); auto.
  - intros rows y s0 h0 Hy Hrows. apply in_seq in Hy.
    destruct (for_each_inv
                (fun cols => Inv (flat_map (row w) rows ++ map (fun x => (x, y)) cols))
                (body y) (seq 0 w))
      with (done := @nil nat) (s := s0) (h := h0) as (s1 & h1 & E1 & I1).
    + intros cols x s2 h2 Hx Hcols. apply in_seq in Hx.
      destruct (Hbody _ x y s2 h2 ltac:(lia) ltac:(lia) Hcols)
        as (s3 & h3 & E3 & I3).
      exists s3, h3. split; [exact E3|].
      now rewrite map_app, app_assoc.
    + simpl. now rewrite app_nil_r.
    + exists s1, h1. split; [exact E1|].
      rewrite flat_map_app. simpl. now rewrite app_nil_r.
  - exists s', h'. auto.
Qed.

(** ** One iteration *)

Section Pixel.
Context {P : ObjectProtocol} {N : Naming}.
Variables (use_nodes reuse_materials : bool).
Variables (material_name cube_name mesh_name filename struse_nodes : string).

Ltac read_sample R k :=
  rewrite (bind_return _ _ _ _ _ (getitem_in_range _ _ _ (R k ltac:(lia)))).

(** On a well-formed image an iteration reads its samples and either
    passes the pixel over or places a cube for the colour [color_at]. *)
Lemma pixel_reads (img : image) (parent x y : nat) (st : locals) (h : host) :
  well_formed img -> x < width img -> y < height img ->
  (im_channels img <> 4 -> a st = 1%Q) ->
  pixel use_nodes reuse_materials material_name cube_name mesh_name filename
        struse_nodes parent (im_channels img) (im_pixels img)
        y (y * im_channels img * width img) x st h
  = if skipped img (x, y)
    then (Return {| a := alpha (color_at img x y); materials := materials st |}, h)
    else let '(r, g, b, al) := color_at img x y in
         place use_nodes reuse_materials material_name cube_name mesh_name
               filename struse_nodes parent y x r g b al (materials st) h.
Proof.
  intros [Hin Hlen] Hx Hy Ha.
  assert (R : forall k, k < im_channels img ->
            y * im_channels img * width img + x * im_channels img + k
            < List.length (im_pixels img))
    by (intros k Hk; rewrite Hlen; now apply sample_index_in_range).
  unfold pixel, skipped, color_at, sample_at. simpl fst. simpl snd.
  simpl in Hin. destruct Hin as [Hc|[Hc|[Hc|[]]]]; rewrite <- Hc in *.
  - change (Nat.eqb 1 1) with true. cbv iota. simpl negb. simpl andb.
    cbv iota.
    assert (R0 : y * 1 * width img + x < List.length (im_pixels img))
      by (specialize (R 0); lia).
    rewrite (bind_return _ _ _ _ _ (getitem_in_range _ _ _ R0)).
    now rewrite Ha by discriminate.
  - change (Nat.eqb 3 1) with false. change (Nat.eqb 3 3) with true.
    cbv iota. simpl negb. simpl andb. cbv iota.
    assert (R0 : y * 3 * width img + x * 3 < List.length (im_pixels img))
      by (specialize (R 0); lia).
    rewrite (bind_return _ _ _ _ _ (getitem_in_range _ _ _ R0)).
    read_sample R 1. read_sample R 2.
    now rewrite Ha by discriminate.
  - change (Nat.eqb 4 1) with false. change (Nat.eqb 4 3) with false.
    cbv iota. simpl negb. simpl andb. simpl alpha.
    assert (R0 : y * 4 * width img + x * 4 < List.length (im_pixels img))
      by (specialize (R 0); lia).
    rewrite (bind_return _ _ _ _ _ (getitem_in_range _ _ _ R0)).
    read_sample R 1. read_sample R 2. read_sample R 3.
    destruct (Qeq_bool _ 0); reflexivity.
Qed.

End Pixel.

Section Settle.
Context {N : Naming}.

Lemma settle_hit use_nodes reuse name c d reg m :
  cache_get c d = Some m -> settle use_nodes reuse name c d reg = (m, d, reg, []).
Proof. unfold settle. now intros ->. Qed.

Lemma settle_new use_nodes name c d reg :
  cache_get c d = None ->
  settle use_nodes false name c d reg =
  (List.length reg, d ++ [(c, List.length reg)],
   reg ++ [fresh_material (unique_name (map ma_name reg) name) use_nodes c (alpha c)],
   [MaterialsNew name]).
Proof. unfold settle. intros G. now rewrite G, (cache_set_absent _ _ _ G). Qed.

(** Whatever the settings, the colour ends up in the dictionary with the
    material that was settled on, and the entries that were there stay. *)
Lemma settle_sound use_nodes reuse name c d reg m d' reg' calls :
  settle use_nodes reuse name c d reg = (m, d', reg', calls) ->
  cache_get c d' = Some m /\
  (forall c0 m0, cache_get c0 d = Some m0 -> cache_get c0 d' = Some m0).
Proof.
  unfold settle. destruct (cache_get c d) as [m1|] eqn:G.
  - intros [= <- <- <- <-]. auto.
  - destruct (if reuse then index_of (named name) reg 0 else None);
      intros [= <- <- <- <-]; rewrite (cache_set_absent _ _ _ G);
      (split; [now apply cache_get_last|]);
      intros c0 m0 H0; now apply cache_get_app.
Qed.

End Settle.

Lemma visible_snoc (img : image) (done : list (nat * nat)) (p : nat * nat) :
  visible img (done ++ [p]) =
  visible img done ++ (if skipped img p then [] else [p]).
Proof.
  unfold visible. rewrite filter_app. simpl. now destruct (skipped img p).
Qed.

Lemma material_of_object_grows (h h' : host) (ms : list mesh) (ob : object) (m : nat) :
  bpy_data_meshes h' = bpy_data_meshes h ++ ms ->
  material_of_object h ob = Some m -> material_of_object h' ob = Some m.
Proof.
  unfold material_of_object. intros ->. destruct (ob_data ob) as [i|]; [|discriminate].
  destruct (nth_error (bpy_data_meshes h) i) as [d|] eqn:E; [|discriminate].
  assert (Hi : i < List.length (bpy_data_meshes h))
    by (apply nth_error_Some; congruence).
  rewrite nth_error_app1 by exact Hi. now rewrite E.
Qed.

Lemma cube_ok_grows (img : image) (parent : nat) (h h' : host) (ms : list mesh)
      (d d' : cache) (p : nat * nat) (ob : object) :
  bpy_data_meshes h' = bpy_data_meshes h ++ ms ->
  (forall c0 m0, cache_get c0 d = Some m0 -> cache_get c0 d' = Some m0) ->
  cube_ok img parent h d p ob -> cube_ok img parent h' d' p ob.
Proof.
  intros Hm Hd (Hl & Hp & m & Hmat & Hc). repeat split; auto.
  exists m. split; [eapply material_of_object_grows; eassumption | auto].
Qed.

Lemma skipped_four (img : image) (p : nat * nat) :
  well_formed img -> skipped img p = true -> im_channels img = 4.
Proof.
  intros [Hin _]. unfold skipped. simpl in Hin.
  destruct Hin as [<-|[<-|[<-|[]]]]; simpl; congruence.
Qed.

Lemma opaque_without_alpha (img : image) (x y : nat) :
  well_formed img -> im_channels img <> 4 -> alpha (color_at img x y) = 1%Q.
Proof.
  intros [Hin _] Hne. unfold color_at. simpl in Hin.
  destruct Hin as [<-|[<-|[E|[]]]]; simpl; congruence.
Qed.

Lemma distinct_snoc_seen (cs : list color) (c : color) :
  existsb (fun k => color_eqb k c) (distinct cs) = true ->
  distinct (cs ++ [c]) = distinct cs.
Proof.
  unfold distinct. rewrite distinct_from_app. simpl. now intros ->.
Qed.

Lemma distinct_snoc_new (cs : list color) (c : color) :
  existsb (fun k => color_eqb k c) (distinct cs) = false ->
  distinct (cs ++ [c]) = distinct cs ++ [c].
Proof.
  unfold distinct. rewrite distinct_from_app. simpl. now intros ->.
Qed.

Section Step.
Context {P : ObjectProtocol} {N : Naming}.
Variables (use_nodes reuse_materials : bool).
Variables (material_name cube_name mesh_name filename struse_nodes : string).
Variables (img : image) (parent : nat) (h0 : host).

Hypothesis img_ok : well_formed img.
Hypothesis material_name_ok : renders material_name filename struse_nodes.
Hypothesis mesh_name_ok : renders mesh_name filename struse_nodes.
Hypothesis cube_name_ok : renders cube_name filename struse_nodes.

(** An iteration of the pixel loop goes through and keeps [run_inv]. *)
Lemma pixel_step (done : list (nat * nat)) (x y : nat) (st : locals) (h : host) :
  x < width img -> y < height img ->
  run_inv img reuse_materials parent h0 done st h ->
  exists st' h',
    pixel use_nodes reuse_materials material_name cube_name mesh_name filename
          struse_nodes parent (im_channels img) (im_pixels img)
          y (y * im_channels img * width img) x st h = (Return st', h') /\
    run_inv img reuse_materials parent h0 (done ++ [(x, y)]) st' h'.
Proof.
  intros Hx Hy [Hcubes Hmeshes Hmats Halpha].
  rewrite (pixel_reads _ _ _ _ _ _ _ _ _ _ _ _ _ img_ok Hx Hy Halpha).
  destruct (skipped img (x, y)) eqn:Sk.
  - eexists. exists h. split; [reflexivity|].
    constructor; rewrite ?visible_snoc, ?Sk, ?app_nil_r; cbn [materials a]; auto.
    intros Hne. exfalso. apply Hne. eapply skipped_four; eassumption.
  - destruct (color_at img x y) as [[[r g] b] al] eqn:C.
    destruct (material_name_ok (strcolor_of (r, g, b, al)) x y) as [name Hn].
    destruct (mesh_name_ok (strcolor_of (r, g, b, al)) x y) as [mname Hm].
    destruct (cube_name_ok (strcolor_of (r, g, b, al)) x y) as [cname Hc].
    pose proof (place_runs use_nodes reuse_materials material_name cube_name
                  mesh_name filename struse_nodes parent y x r g b al
                  (materials st) h name mname cname Hn Hm Hc) as Hp.
    cbv zeta in Hp.
    destruct (settle use_nodes reuse_materials name (r, g, b, al)
                (materials st) (bpy_data_materials h))
      as [[[m d'] reg'] calls] eqn:S.
    eexists. eexists. split; [exact Hp|].
    destruct (settle_sound _ _ _ _ _ _ _ _ _ _ S) as [Hget Hkeep].
    destruct Hcubes as (cubes & Eo & F).
    destruct Hmeshes as (ms & Em & Lm).
    constructor; rewrite ?visible_snoc, ?Sk;
      cbn [materials a bpy_data_objects bpy_data_meshes bpy_data_materials].
    + eexists. split; [rewrite Eo, <- app_assoc; reflexivity|].
      apply Forall2_app.
      * eapply Forall2_impl; [|exact F]. intros q ob Hq.
        eapply cube_ok_grows; [|exact Hkeep|exact Hq]. reflexivity.
      * constructor; [|constructor]. unfold cube_ok, cube_object. cbn [fst snd].
        repeat split. exists m. split.
        -- unfold material_of_object.
           cbn [ob_data bpy_data_meshes]. rewrite nth_error_app_last.
           reflexivity.
        -- now rewrite C.
    + eexists. split; [rewrite Em, <- app_assoc; reflexivity|].
      rewrite !length_app, Lm. reflexivity.
    + intros ->. destruct (Hmats eq_refl) as (new & En & Es & Ek).
      unfold colors_of in *. rewrite map_app. cbn [map fst snd]. rewrite C.
      destruct (cache_get (r, g, b, al) (materials st)) as [m1|] eqn:G.
      * rewrite (settle_hit _ _ _ _ _ _ _ G) in S.
        injection S as <- <- <- <-.
        exists new. repeat split; auto.
        rewrite distinct_snoc_seen; [exact Ek|].
        now rewrite <- Ek, cache_get_seen, G.
      * rewrite (settle_new _ _ _ _ _ G) in S.
        injection S as <- <- <- <-.
        eexists. split; [rewrite En, <- app_assoc; reflexivity|].
        rewrite !map_app, !length_app, Es, Ek. cbn [map fst snd List.length].
        split.
        -- rewrite En, length_app, Nat.add_1_r, seq_S. reflexivity.
        -- rewrite distinct_snoc_new; [reflexivity|].
           now rewrite <- Ek, cache_get_seen, G.
    + intros Hne. rewrite <- (opaque_without_alpha img x y img_ok Hne).
      now rewrite C.
Qed.

End Step.

(** ** A whole run *)

Lemma image_data_runs (i : nat) (d : image) (h : host) :
  nth_error (bpy_data_images h) i = Some (Some d) ->
  image_data i h = (Return d, h).
Proof. unfold image_data. now intros ->. Qed.

Section Run.
Context {P : ObjectProtocol} {N : Naming}.
Variables (use_nodes reuse_materials : bool).
Variables (material_name cube_name mesh_name parent_name : string).
Variables (filename struse_nodes : string).
Variable img : image.

Hypothesis img_ok : well_formed img.
Hypothesis parent_name_ok : renders_group parent_name filename struse_nodes.
Hypothesis material_name_ok : renders material_name filename struse_nodes.
Hypothesis mesh_name_ok : renders mesh_name filename struse_nodes.
Hypothesis cube_name_ok : renders cube_name filename struse_nodes.

(** The body of the [try] statement goes through: it adds the parent, then
    handles every pixel. *)
Lemma convert_runs (image : nat) (h : host) :
  nth_error (bpy_data_images h) image = Some (Some img) ->
  exists parent_ob h0 st h',
    convert use_nodes reuse_materials material_name cube_name mesh_name
            parent_name filename struse_nodes image h = (Return tt, h') /\
    ob_data parent_ob = None /\
    bpy_data_objects h0 = bpy_data_objects h ++ [parent_ob] /\
    bpy_data_meshes h0 = bpy_data_meshes h /\
    bpy_data_materials h0 = bpy_data_materials h /\
    run_inv img reuse_materials (List.length (bpy_data_objects h)) h0
            (coords (width img) (height img)) st h'.
Proof.
  intros Himg. destruct parent_name_ok as [pname Hp].
  assert (Hchan : existsb (Nat.eqb (im_channels img)) [1; 3; 4] = true).
  { destruct img_ok as [Hin _]. simpl in Hin.
    destruct Hin as [<-|[<-|[<-|[]]]]; reflexivity. }
  destruct h as [fs ims mats mes obs col tr]. cbn [bpy_data_images] in Himg.
  set (parent_ob := {| ob_name := unique_name (map ob_name obs) pname;
                       ob_data := None; ob_location := (0, 0, 0)%Z;
                       ob_parent := None |}).
  set (h0 := {| files := fs; bpy_data_images := ims; bpy_data_materials := mats;
                bpy_data_meshes := mes; bpy_data_objects := obs ++ [parent_ob];
                bpy_context_collection_objects := col ++ [List.length obs];
                trace := (tr ++ [ObjectsNew pname]) ++
                         [CollectionLink (List.length obs)] |}).
  destruct (pixel_loops_inv
              (run_inv img reuse_materials (List.length obs) h0)
              (fun y =>
                 pixel use_nodes reuse_materials material_name cube_name
                       mesh_name filename struse_nodes (List.length obs)
                       (im_channels img) (im_pixels img) y
                       (y * im_channels img * width img))
              (width img) (height img))
    with (s := {| a := 1%Q; materials := [] |}) (h := h0)
    as (st & h' & E & I).
  - intros done x y s h1 Hx Hy Hinv.
    now apply pixel_step.
  - constructor; cbn [materials a].
    + exists []. rewrite app_nil_r. split; [reflexivity | constructor].
    + exists []. rewrite app_nil_r. split; reflexivity.
    + intros _. exists []. rewrite app_nil_r. repeat split.
    + reflexivity.
  - exists parent_ob, h0, st, h'.
    refine (conj _ (conj eq_refl (conj eq_refl (conj eq_refl (conj eq_refl I))))).
    unfold convert.
    rewrite (bind_return _ _ _ _ _
               (image_data_runs image img
                  (Build_host fs ims mats mes obs col tr) Himg)).
    cbv beta zeta. rewrite Hchan. cbn [negb].
    unfold format_m. rewrite Hp.
    rewrite (surjective_pairing (im_size img)).
    change (fst (im_size img)) with (width img).
    change (snd (im_size img)) with (height img).
    run_calls. fold parent_ob. fold h0. rewrite E. reflexivity.
Qed.

End Run.

Lemma cube_ok_same_meshes (img : image) (parent : nat) (h h' : host) (d : cache)
      (p : nat * nat) (ob : object) :
  bpy_data_meshes h' = bpy_data_meshes h ->
  cube_ok img parent h d p ob -> cube_ok img parent h' d p ob.
Proof.
  intros E. apply cube_ok_grows with (ms := []); [|auto].
  now rewrite app_nil_r.
Qed.

Lemma run_inv_same_data (img : image) (reuse : bool) (parent : nat)
      (h0 h h' : host) (done : list (nat * nat)) (st : locals) :
  bpy_data_objects h' = bpy_data_objects h ->
  bpy_data_meshes h' = bpy_data_meshes h ->
  bpy_data_materials h' = bpy_data_materials h ->
  run_inv img reuse parent h0 done st h -> run_inv img reuse parent h0 done st h'.
Proof.
  intros Eo Em Ea [(cubes & Hc & F) Hm Hmat Hal].
  constructor; rewrite ?Eo, ?Em, ?Ea; auto.
  exists cubes. split; [exact Hc|].
  eapply Forall2_impl; [|exact F]. intros q ob.
  now apply cube_ok_same_meshes.
Qed.

Section WholeRun.
Context {P : ObjectProtocol} {N : Naming}.
Variables (filepath : string) (use_nodes reuse_materials : bool).
Variables (material_name cube_name mesh_name parent_name : string).
Variable img : image.

Let filename := path_tail filepath.
Let struse_nodes := if use_nodes then "nodes" else "".

Hypothesis img_ok : well_formed img.
Hypothesis parent_name_ok : renders_group parent_name filename struse_nodes.
Hypothesis material_name_ok : renders material_name filename struse_nodes.
Hypothesis mesh_name_ok : renders mesh_name filename struse_nodes.
Hypothesis cube_name_ok : renders cube_name filename struse_nodes.

(** A run on a readable, well-formed image with templates that format
    finishes; the image is loaded into the next free slot, the parent is the
    next object, and [run_inv] holds of the host that is left. *)
Lemma read_pixel_art_runs (h : host) :
  find_file filepath (files h) = Some img ->
  exists parent_ob h0 st h',
    read_pixel_art filepath use_nodes reuse_materials material_name cube_name
                   mesh_name parent_name h = (Return FINISHED, h') /\
    ob_data parent_ob = None /\
    bpy_data_objects h0 = bpy_data_objects h ++ [parent_ob] /\
    bpy_data_meshes h0 = bpy_data_meshes h /\
    bpy_data_materials h0 = bpy_data_materials h /\
    run_inv img reuse_materials (List.length (bpy_data_objects h)) h0
            (coords (width img) (height img)) st h'.
Proof.
  intros Hfile. destruct h as [fs ims mats mes obs col tr].
  cbn [files] in Hfile.
  set (h1 := {| files := fs; bpy_data_images := ims ++ [Some img];
                bpy_data_materials := mats; bpy_data_meshes := mes;
                bpy_data_objects := obs;
                bpy_context_collection_objects := col;
                trace := tr ++ [ImagesLoad filepath] |}).
  destruct (convert_runs use_nodes reuse_materials material_name cube_name
              mesh_name parent_name filename struse_nodes img img_ok
              parent_name_ok material_name_ok mesh_name_ok cube_name_ok
              (List.length ims) h1 (nth_error_app_last ims (Some img)))
    as (parent_ob & h0 & st & hmid & E & Hd & Ho & Hm & Ha & I).
  destruct hmid as [fs' ims' mats' mes' obs' col' tr'].
  exists parent_ob, h0, st.
  eexists. split; [|split; [exact Hd|split; [exact Ho|split; [exact Hm|split; [exact Ha|]]]]].
  - unfold read_pixel_art. fold filename. fold struse_nodes.
    run_calls. rewrite Hfile. run_calls. fold h1. rewrite E.
    run_calls. reflexivity.
  - eapply run_inv_same_data; [| | |exact I]; reflexivity.
Qed.

End WholeRun.

(** ** The pixels of an image *)

Lemma in_row (w y : nat) (p : nat * nat) :
  In p (row w y) <-> fst p < w /\ snd p = y.
Proof.
  unfold row. rewrite in_map_iff. split.
  - intros (x & <- & Hx). apply in_seq in Hx. simpl. lia.
  - intros [Hx Hy]. exists (fst p). split.
    + destruct p; simpl in *; congruence.
    + apply in_seq. lia.
Qed.

Lemma in_coords (w hgt : nat) (p : nat * nat) :
  In p (coords w hgt) <-> fst p < w /\ snd p < hgt.
Proof.
  unfold coords. rewrite in_flat_map. split.
  - intros (y & Hy & Hp). apply in_seq in Hy. apply in_row in Hp. lia.
  - intros [Hx Hy]. exists (snd p). split; [apply in_seq; lia|].
    apply in_row. auto.
Qed.

Lemma length_row (w y : nat) : List.length (row w y) = w.
Proof. unfold row. now rewrite length_map, length_seq. Qed.

Lemma length_flat_rows (w : nat) (ys : list nat) :
  List.length (flat_map (row w) ys) = w * List.length ys.
Proof.
  induction ys as [|y ys IH]; simpl; [lia|].
  rewrite length_app, length_row, IH. lia.
Qed.

Lemma length_coords (w hgt : nat) : List.length (coords w hgt) = w * hgt.
Proof. unfold coords. now rewrite length_flat_rows, length_seq. Qed.

Lemma opaque_not_skipped (img : image) (x y : nat) :
  Qeq (alpha (color_at img x y)) 1 -> skipped img (x, y) = false.
Proof.
  intros H. unfold skipped. cbn [fst snd].
  destruct (Qeq_bool (alpha (color_at img x y)) 0) eqn:E.
  - apply Qeq_bool_iff in E. rewrite H in E. discriminate.
  - now rewrite andb_false_r.
Qed.

Lemma visible_all (img : image) :
  fully_opaque img ->
  visible img (coords (width img) (height img)) = coords (width img) (height img).
Proof.
  intros Hop. unfold visible. apply forallb_filter_id.
  apply forallb_forall. intros [x y] Hp. apply in_coords in Hp.
  rewrite opaque_not_skipped; [reflexivity|]. apply Hop; apply Hp.
Qed.

(** ** Counting colours *)

(** [distinct] lists colours of the list, none twice, and misses none. *)
Lemma distinct_from_keeps (seen cs : list color) (k : color) :
  In k seen -> In k (distinct_from seen cs).
Proof.
  revert seen. induction cs as [|c cs IH]; intros seen H; simpl; [exact H|].
  destruct (existsb _ seen); apply IH; [exact H | apply in_or_app; auto].
Qed.

Lemma distinct_from_covers (seen cs : list color) (c : color) :
  In c cs -> exists k, In k (distinct_from seen cs) /\ color_eqb k c = true.
Proof.
  revert seen. induction cs as [|c' cs IH]; intros seen; simpl; [tauto|].
  intros [->|H].
  - destruct (existsb (fun k => color_eqb k c) seen) eqn:E.
    + apply existsb_exists in E. destruct E as (k & Hk & Ek).
      exists k. split; [now apply distinct_from_keeps | exact Ek].
    + exists c. split; [|apply color_eqb_refl].
      apply distinct_from_keeps, in_or_app. simpl. auto.
  - destruct (existsb _ seen); now apply IH.
Qed.

Lemma distinct_covers (cs : list color) (c : color) :
  In c cs -> exists k, In k (distinct cs) /\ color_eqb k c = true.
Proof. apply distinct_from_covers. Qed.

Lemma distinct_from_origin (seen cs : list color) (k : color) :
  In k (distinct_from seen cs) -> In k seen \/ In k cs.
Proof.
  revert seen. induction cs as [|c cs IH]; intros seen; simpl; [auto|].
  destruct (existsb _ seen); intros H; destruct (IH _ H) as [H1|H1]; auto.
  apply in_app_or in H1. simpl in H1. tauto.
Qed.

Lemma distinct_from_apart (seen cs : list color) :
  apart seen -> apart (distinct_from seen cs).
Proof.
  revert seen. induction cs as [|c cs IH]; intros seen H; simpl; [exact H|].
  destruct (existsb _ seen) eqn:E; apply IH; [exact H|].
  now constructor.
Qed.

Lemma distinct_apart (cs : list color) : apart (distinct cs).
Proof. apply distinct_from_apart. constructor. Qed.

(** ** Cubes and materials of an opaque image *)

Lemma cube_ok_parent (img : image) (parent : nat) (h : host) (d : cache)
      (ps : list (nat * nat)) (cubes : list object) :
  Forall2 (cube_ok img parent h d) ps cubes ->
  Forall (fun ob => ob_parent ob = Some parent /\ ob_data ob <> None) cubes.
Proof.
  induction 1 as [|p ob ps cubes (Hl & Hp & m & Hm & _) _ IH]; constructor; auto.
  split; [exact Hp|]. unfold material_of_object in Hm.
  destruct (ob_data ob); [discriminate | discriminate].
Qed.

(** C1, amended.  With [reuse_materials] off, a run on a fully opaque
    well-formed image of [W * H] pixels whose templates format creates the
    parent and exactly [W * H] cubes after it, each with a mesh and with the
    parent as its parent, and exactly as many materials as the image has
    distinct colour tuples. *)
Theorem opaque_image_cubes_and_materials {P : ObjectProtocol} {N : Naming}
        (filepath : string) (use_nodes : bool)
        (material_name cube_name mesh_name parent_name : string)
        (img : image) (h : host) :
  let filename := path_tail filepath in
  let struse_nodes := if use_nodes then "nodes" else "" in
  find_file filepath (files h) = Some img ->
  well_formed img ->
  fully_opaque img ->
  renders_group parent_name filename struse_nodes ->
  renders material_name filename struse_nodes ->
  renders mesh_name filename struse_nodes ->
  renders cube_name filename struse_nodes ->
  exists h' parent_ob cubes new_materials,
    read_pixel_art filepath use_nodes false material_name cube_name mesh_name
                   parent_name h = (Return FINISHED, h') /\
    bpy_data_objects h' = bpy_data_objects h ++ parent_ob :: cubes /\
    ob_data parent_ob = None /\
    List.length cubes = width img * height img /\
    Forall (fun ob => ob_parent ob = Some (List.length (bpy_data_objects h)) /\
                      ob_data ob <> None) cubes /\
    bpy_data_materials h' = bpy_data_materials h ++ new_materials /\
    List.length new_materials =
    List.length (distinct (colors_of img (coords (width img) (height img)))).
Proof.
  intros filename struse_nodes Hfile Hwf Hop Hp Hm Hme Hc.
  destruct (read_pixel_art_runs filepath use_nodes false material_name
              cube_name mesh_name parent_name img Hwf Hp Hm Hme Hc h Hfile)
    as (parent_ob & h0 & st & h' & E & Hd & Ho & _ & Ha & I).
  destruct I as [(cubes & Eo & F) _ Hmat _].
  destruct (Hmat eq_refl) as (new & En & Es & Ek).
  rewrite (visible_all img Hop) in *.
  exists h', parent_ob, cubes, new. repeat split.
  - exact E.
  - rewrite Eo, Ho, <- app_assoc. reflexivity.
  - exact Hd.
  - rewrite <- (Forall2_length F), length_coords. reflexivity.
  - exact (cube_ok_parent _ _ _ _ _ _ F).
  - now rewrite En, Ha.
  - rewrite <- Ek, length_map, <- (length_map snd (materials st)), Es, length_seq.
    reflexivity.
Qed.

(** ** The default templates *)

Section Defaults.
Context {P : ObjectProtocol}.

Ltac format_default :=
  unfold format; lazy -[py_format of_val str_of_int];
  rewrite ?py_format_str, ?py_format_int;
  lazy -[py_format of_val str_of_int];
  rewrite ?py_format_str, ?py_format_int;
  lazy -[py_format of_val str_of_int];
  rewrite ?py_format_str, ?py_format_int;
  lazy -[py_format of_val str_of_int];
  reflexivity.

(** The default templates format for every file name and every pixel. *)
Lemma default_parent_name_renders filename struse_nodes :
  renders_group PARENT_NAME filename struse_nodes.
Proof. unfold renders_group. eexists. format_default. Qed.

Lemma default_material_name_renders filename struse_nodes :
  renders MATERIAL_NAME filename struse_nodes.
Proof. intros strcolor x y. eexists. format_default. Qed.

Lemma default_mesh_name_renders filename struse_nodes :
  renders MESH_NAME filename struse_nodes.
Proof. intros strcolor x y. eexists. format_default. Qed.

Lemma default_cube_name_renders filename struse_nodes :
  renders CUBE_NAME filename struse_nodes.
Proof. intros strcolor x y. eexists. format_default. Qed.

End Defaults.

Lemma rgb_2x1_well_formed : well_formed rgb_2x1.
Proof. split; [simpl; auto | reflexivity]. Qed.

Lemma rgb_2x1_opaque : fully_opaque rgb_2x1.
Proof.
  intros x y _ _.
  rewrite (opaque_without_alpha rgb_2x1 x y rgb_2x1_well_formed)
    by (simpl; discriminate).
  reflexivity.
Qed.

Lemma opaque_image_cubes_and_materials_witness :
  find_file "/tmp/img.png" (files (empty_host [("/tmp/img.png", rgb_2x1)]))
  = Some rgb_2x1 /\
  well_formed rgb_2x1 /\ fully_opaque rgb_2x1 /\
  exists h' parent_ob cubes new_materials,
    read_pixel_art (P := plain_objects) (N := numbered_names)
                   "/tmp/img.png" true false MATERIAL_NAME CUBE_NAME MESH_NAME
                   PARENT_NAME (empty_host [("/tmp/img.png", rgb_2x1)])
    = (Return FINISHED, h') /\
    bpy_data_objects h' = parent_ob :: cubes /\
    ob_data parent_ob = None /\
    List.length cubes = 2 /\
    Forall (fun ob => ob_parent ob = Some 0 /\ ob_data ob <> None) cubes /\
    bpy_data_materials h' = new_materials /\
    List.length new_materials = 2.
Proof.
  split; [reflexivity|]. split; [exact rgb_2x1_well_formed|].
  split; [exact rgb_2x1_opaque|].
  exact (opaque_image_cubes_and_materials (P := plain_objects)
           (N := numbered_names)
           "/tmp/img.png" true MATERIAL_NAME CUBE_NAME MESH_NAME PARENT_NAME
           rgb_2x1 (empty_host [("/tmp/img.png", rgb_2x1)])
           eq_refl rgb_2x1_well_formed rgb_2x1_opaque
           (default_parent_name_renders _ _)
           (default_material_name_renders _ _)
           (default_mesh_name_renders _ _)
           (default_cube_name_renders _ _)).
Defined.

(** C1 as stated fails with [reuse_materials] on: the host already has a
    material under the name computed for the one colour of a one-pixel
    opaque image; the run finishes, creates the cube, and creates no
    material although the image has one colour. *)
Lemma reuse_creates_no_material :
  let run := read_pixel_art (P := plain_objects) (N := numbered_names)
               "red.png" true true MATERIAL_NAME CUBE_NAME MESH_NAME
               PARENT_NAME host_with_red in
  fst run = Return FINISHED /\
  List.length (distinct (colors_of red_1x1 (coords 1 1))) = 1 /\
  List.length (bpy_data_objects (snd run)) = 2 /\
  bpy_data_materials (snd run) = bpy_data_materials host_with_red.
Proof. vm_compute. repeat split. Qed.

(** ** Which material a pixel gets *)

Lemma at_pixel_own (img : image) (parent : nat) (h : host) (d : cache)
      (x y : nat) (ob : object) :
  cube_ok img parent h d (x, y) ob -> at_pixel parent x y ob = true.
Proof.
  intros (Hl & Hp & _). unfold at_pixel. rewrite Hp, Hl. cbn [fst snd].
  now rewrite Nat.eqb_refl, !Z.eqb_refl.
Qed.

Lemma at_pixel_other (img : image) (parent : nat) (h : host) (d : cache)
      (p : nat * nat) (x y : nat) (ob : object) :
  cube_ok img parent h d p ob -> p <> (x, y) -> at_pixel parent x y ob = false.
Proof.
  intros (Hl & _ & _) Hne. unfold at_pixel. rewrite Hl.
  destruct p as [x' y']. cbn [fst snd].
  destruct (Nat.eq_dec x' x) as [->|Hx].
  - assert (Hy : y' <> y) by congruence.
    assert (E : (Z.of_nat y' =? Z.of_nat y)%Z = false)
      by (apply Z.eqb_neq; lia).
    now rewrite E, andb_false_r, andb_false_r.
  - assert (E : (Z.of_nat x' =? Z.of_nat x)%Z = false)
      by (apply Z.eqb_neq; lia).
    now rewrite E, andb_false_r.
Qed.

(** In a list of cubes that stand for pairwise different pixels, looking a
    pixel up by position finds its cube. *)
Lemma cube_found (img : image) (parent : nat) (h : host) (d : cache)
      (ps : list (nat * nat)) (cubes : list object) (x y : nat) :
  Forall2 (cube_ok img parent h d) ps cubes ->
  In (x, y) ps ->
  exists ob, find (at_pixel parent x y) cubes = Some ob /\
             cube_ok img parent h d (x, y) ob.
Proof.
  induction 1 as [|p ob ps cubes Hok _ IH]; simpl; [tauto|].
  destruct (at_pixel parent x y ob) eqn:E.
  - intros _. exists ob. split; [reflexivity|].
    destruct p as [x' y'].
    destruct (Nat.eq_dec x' x) as [->|Hx], (Nat.eq_dec y' y) as [->|Hy];
      try exact Hok;
      rewrite (at_pixel_other _ _ _ _ _ _ _ _ Hok) in E
        by congruence; discriminate.
  - intros [->|Hin]; [|exact (IH Hin)].
    rewrite (at_pixel_own _ _ _ _ _ _ _ Hok) in E. discriminate.
Qed.

Lemma skipn_past {A : Type} (l : list A) (x : A) (l' : list A) :
  skipn (S (List.length l)) (l ++ x :: l') = l'.
Proof. induction l as [|y l IH]; simpl; auto. Qed.

Lemma visible_in (img : image) (x y : nat) :
  x < width img -> y < height img -> skipped img (x, y) = false ->
  In (x, y) (visible img (coords (width img) (height img))).
Proof.
  intros Hx Hy Hs. unfold visible. apply filter_In. split.
  - apply in_coords. auto.
  - now rewrite Hs.
Qed.

(** C3, amended.  After a run on a well-formed image (in particular one of
    four channels) whose templates format, any two pixels that were not
    skipped have materials; these are the same material when the two
    colour tuples are equal, in both values of [reuse_materials], and they
    are different materials when the tuples differ in some channel and
    [reuse_materials] is off. *)
Theorem materials_follow_color_keys {P : ObjectProtocol} {N : Naming}
        (filepath : string) (use_nodes reuse_materials : bool)
        (material_name cube_name mesh_name parent_name : string)
        (img : image) (h : host) :
  let filename := path_tail filepath in
  let struse_nodes := if use_nodes then "nodes" else "" in
  let parent := List.length (bpy_data_objects h) in
  find_file filepath (files h) = Some img ->
  well_formed img ->
  renders_group parent_name filename struse_nodes ->
  renders material_name filename struse_nodes ->
  renders mesh_name filename struse_nodes ->
  renders cube_name filename struse_nodes ->
  exists h',
    read_pixel_art filepath use_nodes reuse_materials material_name cube_name
                   mesh_name parent_name h = (Return FINISHED, h') /\
    forall x1 y1 x2 y2,
      x1 < width img -> y1 < height img -> skipped img (x1, y1) = false ->
      x2 < width img -> y2 < height img -> skipped img (x2, y2) = false ->
      exists m1 m2,
        material_at h' parent x1 y1 = Some m1 /\
        material_at h' parent x2 y2 = Some m2 /\
        (color_eqb (color_at img x1 y1) (color_at img x2 y2) = true ->
         m1 = m2) /\
        (reuse_materials = false ->
         color_eqb (color_at img x1 y1) (color_at img x2 y2) = false ->
         m1 <> m2).
Proof.
  intros filename struse_nodes parent Hfile Hwf Hp Hm Hme Hc. subst parent.
  destruct (read_pixel_art_runs filepath use_nodes reuse_materials
              material_name cube_name mesh_name parent_name img Hwf Hp Hm Hme
              Hc h Hfile)
    as (parent_ob & h0 & st & h' & E & _ & Ho & _ & _ & I).
  exists h'. split; [exact E|].
  intros x1 y1 x2 y2 Hx1 Hy1 Hs1 Hx2 Hy2 Hs2.
  destruct I as [(cubes & Eo & F) _ Hmat _].
  destruct (cube_found _ _ _ _ _ _ x1 y1 F (visible_in img x1 y1 Hx1 Hy1 Hs1))
    as (ob1 & Hf1 & (_ & _ & m1 & Hm1 & Hg1)).
  destruct (cube_found _ _ _ _ _ _ x2 y2 F (visible_in img x2 y2 Hx2 Hy2 Hs2))
    as (ob2 & Hf2 & (_ & _ & m2 & Hm2 & Hg2)).
  cbn [fst snd] in Hg1, Hg2.
  exists m1, m2.
  assert (Hskip : skipn (S (List.length (bpy_data_objects h)))
                        (bpy_data_objects h') = cubes)
    by (rewrite Eo, Ho, <- app_assoc; apply skipn_past).
  unfold material_at, cube_at. rewrite Hskip, Hf1, Hf2.
  split; [exact Hm1|]. split; [exact Hm2|]. split.
  - intros Heq. rewrite (cache_get_compat _ _ _ Heq) in Hg1. congruence.
  - intros Hre Hne ->. destruct (Hmat Hre) as (new & _ & Es & _).
    destruct (cache_get_entry _ _ _ Hg1) as (k1 & Hin1 & Hk1).
    destruct (cache_get_entry _ _ _ Hg2) as (k2 & Hin2 & Hk2).
    assert (Hnd : NoDup (map snd (materials st)))
      by (rewrite Es; apply seq_NoDup).
    assert (k1 = k2) by (eapply unique_value_unique_key; eassumption).
    subst k2. rewrite color_eqb_sym in Hk1.
    rewrite (color_eqb_trans _ _ _ Hk1 Hk2) in Hne. discriminate.
Qed.

Lemma rgba_2x2_well_formed : well_formed rgba_2x2.
Proof. split; [simpl; auto | reflexivity]. Qed.

Lemma materials_follow_color_keys_witness :
  find_file "/tmp/img.png" (files (empty_host [("/tmp/img.png", rgba_2x2)]))
  = Some rgba_2x2 /\
  well_formed rgba_2x2 /\
  exists h',
    read_pixel_art (P := plain_objects) (N := numbered_names)
                   "/tmp/img.png" true false MATERIAL_NAME CUBE_NAME MESH_NAME
                   PARENT_NAME (empty_host [("/tmp/img.png", rgba_2x2)])
    = (Return FINISHED, h') /\
    forall x1 y1 x2 y2,
      x1 < 2 -> y1 < 2 -> skipped rgba_2x2 (x1, y1) = false ->
      x2 < 2 -> y2 < 2 -> skipped rgba_2x2 (x2, y2) = false ->
      exists m1 m2,
        material_at h' 0 x1 y1 = Some m1 /\
        material_at h' 0 x2 y2 = Some m2 /\
        (color_eqb (color_at rgba_2x2 x1 y1) (color_at rgba_2x2 x2 y2) = true ->
         m1 = m2) /\
        (false = false ->
         color_eqb (color_at rgba_2x2 x1 y1) (color_at rgba_2x2 x2 y2) = false ->
         m1 <> m2).
Proof.
  split; [reflexivity|]. split; [exact rgba_2x2_well_formed|].
  exact (materials_follow_color_keys (P := plain_objects)
           (N := numbered_names)
           "/tmp/img.png" true false MATERIAL_NAME CUBE_NAME MESH_NAME
           PARENT_NAME rgba_2x2 (empty_host [("/tmp/img.png", rgba_2x2)])
           eq_refl rgba_2x2_well_formed
           (default_parent_name_renders _ _)
           (default_material_name_renders _ _)
           (default_mesh_name_renders _ _)
           (default_cube_name_renders _ _)).
Defined.

(** C3 as stated fails with [reuse_materials] on: black and a near-black
    are different tuples with the same eight digits, hence the same material
    name under the default template; the second pixel finds by name the
    material just created for the first. *)
Lemma reuse_merges_colors_of_one_name :
  let h := empty_host [("/tmp/img.png", near_black_2x1)] in
  let run := read_pixel_art (P := plain_objects) (N := numbered_names)
               "/tmp/img.png" true true MATERIAL_NAME CUBE_NAME MESH_NAME
               PARENT_NAME h in
  fst run = Return FINISHED /\
  color_eqb (color_at near_black_2x1 0 0) (color_at near_black_2x1 1 0) = false /\
  strcolor_of (color_at near_black_2x1 0 0)
  = strcolor_of (color_at near_black_2x1 1 0) /\
  material_at (snd run) 0 0 0 = Some 0 /\
  material_at (snd run) 0 1 0 = Some 0.
Proof. vm_compute. repeat split. Qed.

(** ** Reusing a material *)

Lemma index_of_found {A : Type} (p : A -> bool) (l : list A) (k j : nat) :
  index_of p l k = Some j ->
  exists i x, j = k + i /\ nth_error l i = Some x /\ p x = true.
Proof.
  revert k. induction l as [|x l IH]; intros k; simpl; [discriminate|].
  destruct (p x) eqn:E.
  - intros [= <-]. exists 0, x. rewrite Nat.add_0_r. auto.
  - intros H. destruct (IH _ H) as (i & x' & -> & Hn & Hp).
    exists (S i), x'. split; [lia|]. split; assumption.
Qed.

Lemma index_of_exists {A : Type} (p : A -> bool) (l : list A) (k : nat) (x : A) :
  In x l -> p x = true -> exists j, index_of p l k = Some j.
Proof.
  revert k. induction l as [|y l IH]; intros k; simpl; [tauto|].
  intros Hin Hp. destruct (p y) eqn:E; [eauto|].
  destruct Hin as [->|Hin]; [congruence|]. now apply IH.
Qed.

(** C9.  With [reuse_materials] on, when a colour is met for the first time
    and the registry holds a material under the computed name, placing the
    pixel leaves the registry of materials exactly as it was (nothing
    created, no property of any material changed), whatever becomes of the
    iteration.  The iteration completes when the mesh and the cube
    templates format for the pixel, and then the colour is bound to the
    material found and the new mesh carries it; it raises the error of the
    first of the two templates that does not format. *)
Theorem existing_material_is_reused {P : ObjectProtocol} {N : Naming}
        (use_nodes : bool)
        (material_name cube_name mesh_name filename struse_nodes : string)
        (parent y x : nat) (r g b a : sample) (d : cache) (h : host)
        (name : string) (existing : material) :
  format material_name
         (pixel_params filename (strcolor_of (r, g, b, a)) x y struse_nodes)
  = Done name ->
  cache_get (r, g, b, a) d = None ->
  In existing (bpy_data_materials h) ->
  ma_name existing = name ->
  exists i found,
    nth_error (bpy_data_materials h) i = Some found /\
    ma_name found = name /\
    let params :=
      pixel_params filename (strcolor_of (r, g, b, a)) x y struse_nodes in
    let run := place use_nodes true material_name cube_name mesh_name filename
                     struse_nodes parent y x r g b a d h in
    bpy_data_materials (snd run) = bpy_data_materials h /\
    match format mesh_name params, format cube_name params with
    | Done _, Done _ =>
        exists st' me,
          fst run = Return st' /\
          cache_get (r, g, b, a) (materials st') = Some i /\
          nth_error (bpy_data_meshes (snd run))
                    (List.length (bpy_data_meshes h)) = Some me /\
          me_materials me = [i]
    | Done _, Failed e => fst run = Raise (exn_of_format_error e)
    | Failed e, _ => fst run = Raise (exn_of_format_error e)
    end.
Proof.
  intros Hn G Hin Hname.
  destruct (index_of_exists (fun m => String.eqb (ma_name m) name)
              (bpy_data_materials h) 0 existing Hin)
    as [j I]; [now apply String.eqb_eq|].
  destruct (index_of_found _ _ _ _ I) as (i & found & -> & Hnth & Hp).
  apply String.eqb_eq in Hp. simpl in I.
  exists i, found. split; [exact Hnth|]. split; [exact Hp|].
  destruct h as [fs ims mats mes obs col tr].
  cbn [bpy_data_materials bpy_data_meshes] in *. cbv zeta.
  unfold place, format_m. rewrite Hn, G.
  destruct (format mesh_name _) as [mname|e1];
    [destruct (format cube_name _) as [cname|e2]|];
    run_calls; rewrite I; run_host; (split; [reflexivity|]);
    [|reflexivity ..].
  eexists. eexists. split; [reflexivity|].
  cbn [materials snd bpy_data_meshes]. rewrite (cache_set_absent _ _ _ G).
  split; [now apply cache_get_last|].
  rewrite nth_error_app_last. split; reflexivity.
Qed.

Lemma existing_material_is_reused_witness :
  (format (P := plain_objects) MATERIAL_NAME
          (pixel_params "red.png" (strcolor_of (1, 0, 0, 1)%Q) 0 0 "nodes")
   = Done "pixel_art_FF0000FF" /\
   cache_get (1, 0, 0, 1)%Q [] = None /\
   In (fresh_material "pixel_art_FF0000FF" false default_diffuse_color 1)
      (bpy_data_materials host_with_red)) /\
  exists i found,
    nth_error (bpy_data_materials host_with_red) i = Some found /\
    ma_name found = "pixel_art_FF0000FF" /\
    let run := place (P := plain_objects) (N := numbered_names)
                     true true MATERIAL_NAME CUBE_NAME MESH_NAME "red.png"
                     "nodes" 0 0 0 1 0 0 1 [] host_with_red in
    bpy_data_materials (snd run) = bpy_data_materials host_with_red /\
    exists st' me,
      fst run = Return st' /\
      cache_get (1, 0, 0, 1)%Q (materials st') = Some i /\
      nth_error (bpy_data_meshes (snd run))
                (List.length (bpy_data_meshes host_with_red)) = Some me /\
      me_materials me = [i].
Proof.
  assert (Hin : In (fresh_material "pixel_art_FF0000FF" false
                                   default_diffuse_color 1)
                   (bpy_data_materials host_with_red))
    by (left; reflexivity).
  split; [repeat split; exact Hin|].
  exact (existing_material_is_reused (P := plain_objects)
           (N := numbered_names) true MATERIAL_NAME CUBE_NAME MESH_NAME
           "red.png" "nodes" 0 0 0 1 0 0 1 [] host_with_red
           "pixel_art_FF0000FF"
           (fresh_material "pixel_art_FF0000FF" false default_diffuse_color 1)
           eq_refl eq_refl Hin eq_refl).
Defined.

(** ** Unsupported channel counts *)

Lemma channels_rejected (c : nat) :
  ~ In c [1; 3; 4] -> existsb (Nat.eqb c) [1; 3; 4] = false.
Proof.
  intros H. destruct (existsb (Nat.eqb c) [1; 3; 4]) eqn:E; [|reflexivity].
  apply existsb_exists in E. destruct E as (k & Hk & Ek).
  apply Nat.eqb_eq in Ek. subst k. contradiction.
Qed.

(** C5.  When the decoded image has a channel count other than 1, 3 or 4,
    [read_pixel_art] raises the unsupported-channel-count error; objects,
    meshes, materials and the collection are as before (not even the parent
    exists), and the image has been released: dereferenced, then removed,
    once each, its slot left empty. *)
Theorem unsupported_channels_rejected {P : ObjectProtocol} {N : Naming}
        (filepath : string) (use_nodes reuse_materials : bool)
        (material_name cube_name mesh_name parent_name : string)
        (img : image) (h : host) :
  find_file filepath (files h) = Some img ->
  ~ In (im_channels img) [1; 3; 4] ->
  exists h',
    read_pixel_art filepath use_nodes reuse_materials material_name cube_name
                   mesh_name parent_name h
    = (Raise (IOError ("Cannot handle image with " ++
                       str_of_int (Z.of_nat (im_channels img)) ++
                       " channels!")%string), h') /\
    bpy_data_objects h' = bpy_data_objects h /\
    bpy_data_meshes h' = bpy_data_meshes h /\
    bpy_data_materials h' = bpy_data_materials h /\
    bpy_context_collection_objects h' = bpy_context_collection_objects h /\
    bpy_data_images h' = bpy_data_images h ++ [None] /\
    trace h' = trace h ++ [ ImagesLoad filepath;
                            UserClear (List.length (bpy_data_images h));
                            ImagesRemove (List.length (bpy_data_images h)) ].
Proof.
  intros Hfile Hch. apply channels_rejected in Hch.
  destruct h as [fs ims mats mes obs col tr]. cbn [files] in Hfile.
  eexists. split.
  - unfold read_pixel_art. run_calls. rewrite Hfile. run_calls.
    unfold convert.
    rewrite (bind_return _ _ _ _ _
               (image_data_runs (List.length ims) img
                  (Build_host fs (ims ++ [Some img]) mats mes obs col
                              (tr ++ [ImagesLoad filepath]))
                  (nth_error_app_last ims (Some img)))).
    cbv beta zeta. rewrite Hch. cbn [negb]. run_calls.
    rewrite update_at_app_last. reflexivity.
  - cbn [bpy_data_objects bpy_data_meshes bpy_data_materials
         bpy_context_collection_objects bpy_data_images trace].
    rewrite <- !app_assoc. repeat split.
Qed.

Lemma unsupported_channels_rejected_witness :
  (find_file "/tmp/ga.png" (files (empty_host [("/tmp/ga.png", two_channels_1x1)]))
   = Some two_channels_1x1 /\
   ~ In (im_channels two_channels_1x1) [1; 3; 4]) /\
  exists h',
    read_pixel_art (P := plain_objects) (N := numbered_names)
                   "/tmp/ga.png" true false MATERIAL_NAME CUBE_NAME MESH_NAME
                   PARENT_NAME (empty_host [("/tmp/ga.png", two_channels_1x1)])
    = (Raise (IOError "Cannot handle image with 2 channels!"), h') /\
    bpy_data_objects h' = [] /\
    bpy_data_meshes h' = [] /\
    bpy_data_materials h' = [] /\
    bpy_context_collection_objects h' = [] /\
    bpy_data_images h' = [None] /\
    trace h' = [ ImagesLoad "/tmp/ga.png"; UserClear 0; ImagesRemove 0 ].
Proof.
  assert (Hch : ~ In (im_channels two_channels_1x1) [1; 3; 4])
    by (simpl; intros [H|[H|[H|[]]]]; discriminate).
  split; [split; [reflexivity | exact Hch]|].
  exact (unsupported_channels_rejected (P := plain_objects)
           (N := numbered_names) "/tmp/ga.png" true false MATERIAL_NAME
           CUBE_NAME MESH_NAME PARENT_NAME two_channels_1x1
           (empty_host [("/tmp/ga.png", two_channels_1x1)]) eq_refl Hch).
Defined.

(** ** Releasing the image *)

Lemma quiet_ret {A : Type} (x : A) : quiet (ret x).
Proof.
  intros h. split; [reflexivity|]. exists []. now rewrite app_nil_r.
Qed.

Lemma quiet_raise {A : Type} (e : exn) : quiet (@raise A e).
Proof.
  intros h. split; [reflexivity|]. exists []. now rewrite app_nil_r.
Qed.

Lemma quiet_bind {A B : Type} (m : M A) (k : A -> M B) :
  quiet m -> (forall x, quiet (k x)) -> quiet (bind m k).
Proof.
  intros Hm Hk h. unfold bind.
  destruct (Hm h) as (Hi & evs & Ht & Hq).
  destruct (m h) as [[x|e] h1]; cbn [snd] in *.
  - destruct (Hk x h1) as (Hi' & evs' & Ht' & Hq').
    split; [congruence|]. exists (evs ++ evs').
    rewrite Ht', Ht, app_assoc, forallb_app, Hq, Hq'. auto.
  - split; [exact Hi|]. exists evs. auto.
Qed.

Lemma quiet_for_each {I S : Type} (xs : list I) (body : I -> S -> M S) (s : S) :
  (forall i s', quiet (body i s')) -> quiet (for_each xs body s).
Proof.
  intros Hb. revert s. induction xs as [|i xs IH]; intros s; simpl.
  - apply quiet_ret.
  - apply quiet_bind; auto.
Qed.

Lemma quiet_log (e : event) : not_release e = true -> quiet (log e).
Proof.
  intros He h. split; [reflexivity|]. exists [e]. simpl. now rewrite He.
Qed.

Lemma quiet_modify (f : host -> host) :
  (forall h, bpy_data_images (f h) = bpy_data_images h /\ trace (f h) = trace h) ->
  quiet (modify f).
Proof.
  intros Hf h. unfold modify. cbn [snd]. destruct (Hf h) as [Hi Ht].
  split; [exact Hi|]. exists []. now rewrite app_nil_r.
Qed.

Lemma quiet_get_host : quiet get_host.
Proof.
  intros h. split; [reflexivity|]. exists []. now rewrite app_nil_r.
Qed.

Lemma quiet_getitem (pixels : list sample) (i : nat) : quiet (getitem pixels i).
Proof.
  unfold getitem. destruct (nth_error pixels i);
    [apply quiet_ret | apply quiet_raise].
Qed.

Lemma quiet_on_tree {A : Type} (m : nat) (f : node_tree -> A * node_tree) :
  quiet (on_tree m f).
Proof.
  unfold on_tree. apply quiet_bind; [apply quiet_get_host|]. intros h.
  destruct (nth_error (bpy_data_materials h) m) as [d|]; [|apply quiet_raise].
  destruct (ma_node_tree d) as [t|]; [|apply quiet_raise].
  destruct (f t) as [x t'].
  apply quiet_bind; [|intros; apply quiet_ret].
  apply quiet_modify. intros h1. split; reflexivity.
Qed.

Ltac quiet_step :=
  match goal with
  | |- quiet (bind _ _) => apply quiet_bind; [|intros]
  | |- quiet (ret _) => apply quiet_ret
  | |- quiet (raise _) => apply quiet_raise
  | |- quiet get_host => apply quiet_get_host
  | |- quiet (log _) => apply quiet_log; reflexivity
  | |- quiet (modify _) => apply quiet_modify; intros; split; reflexivity
  | |- quiet (on_tree _ _) => apply quiet_on_tree
  | |- quiet (getitem _ _) => apply quiet_getitem
  | |- quiet (for_each _ _ _) => apply quiet_for_each; intros
  | |- quiet (match ?x with _ => _ end) => destruct x
  | |- quiet (if ?x then _ else _) => destruct x
  end.

Ltac quiet_calls :=
  unfold materials_new, meshes_new, objects_new, materials_get,
    set_diffuse_color, set_use_nodes, nodes_clear, nodes_new,
    set_default_value, links_new, from_pydata, mesh_materials_append,
    mesh_update, collection_link, set_location, set_parent, modify_material,
    modify_mesh, modify_object, for_range;
  repeat quiet_step.

Section Quiet.
Context {P : ObjectProtocol} {N : Naming}.

Lemma quiet_format_m (template : string) (params : kwargs) :
  quiet (format_m template params).
Proof. unfold format_m. quiet_calls. Qed.

Lemma quiet_place use_nodes reuse_materials material_name cube_name mesh_name
      filename struse_nodes parent y x r g b al d :
  quiet (place use_nodes reuse_materials material_name cube_name mesh_name
               filename struse_nodes parent y x r g b al d).
Proof.
  unfold place, create_material, build_nodes.
  repeat first [apply quiet_format_m | progress quiet_calls].
Qed.

Lemma quiet_pixel use_nodes reuse_materials material_name cube_name mesh_name
      filename struse_nodes parent channels pixels y offset x st :
  quiet (pixel use_nodes reuse_materials material_name cube_name mesh_name
               filename struse_nodes parent channels pixels y offset x st).
Proof.
  unfold pixel. repeat first [apply quiet_place | progress quiet_calls].
Qed.

End Quiet.

Lemma quiet_image_data (i : nat) : quiet (image_data i).
Proof.
  intros h. unfold image_data.
  destruct (nth_error (bpy_data_images h) i) as [[d|]|];
    (split; [reflexivity|]); exists []; now rewrite app_nil_r.
Qed.

Lemma quiet_convert {P : ObjectProtocol} {N : Naming}
      use_nodes reuse_materials material_name cube_name mesh_name parent_name
      filename struse_nodes image :
  quiet (convert use_nodes reuse_materials material_name cube_name mesh_name
                 parent_name filename struse_nodes image).
Proof.
  unfold convert. apply quiet_bind; [apply quiet_image_data|]. intros img.
  cbv zeta. destruct (negb _); [apply quiet_raise|].
  apply quiet_bind; [apply quiet_format_m|]. intros name.
  destruct (im_size img) as [w hgt].
  repeat first [apply quiet_pixel | progress quiet_calls].
Qed.

Lemma no_release_filtered (i : nat) (evs : list event) :
  forallb not_release evs = true -> releases i evs = [].
Proof.
  unfold releases. induction evs as [|e evs IH]; simpl; [reflexivity|].
  rewrite andb_true_iff. intros [He Hq]. rewrite (IH Hq).
  destruct e; simpl in *; try reflexivity; discriminate.
Qed.

Lemma skipn_own_length {A : Type} (l l' : list A) :
  skipn (List.length l) (l ++ l') = l'.
Proof. induction l; simpl; auto. Qed.

(** [try: body finally: release], for any body that leaves the images
    alone: however the body ends, the release follows it, once. *)
Lemma finally_releases {A : Type} (body : M A) (image : nat) (h : host) :
  quiet body ->
  let run := try_finally body (user_clear image ;;; images_remove image) h in
  fst run = fst (body h) /\
  bpy_data_images (snd run)
  = update_at image (fun _ => None) (bpy_data_images h) /\
  exists evs,
    trace (snd run) = trace h ++ evs ++ [UserClear image; ImagesRemove image] /\
    forallb not_release evs = true.
Proof.
  intros Hq. destruct (Hq h) as (Hi & evs & Ht & He).
  unfold try_finally. destruct (body h) as [r [fs ims mats mes obs col tr]].
  cbn [snd fst bpy_data_images trace] in *. run_calls.
  split; [reflexivity|]. split; [now rewrite Hi|].
  exists evs. split; [|exact He]. rewrite Ht, <- !app_assoc. reflexivity.
Qed.

(** C2.  Once [images.load] has succeeded, the run ends, by returning or by
    raising, with the image released exactly once: what the run adds to the
    trace is the load, then events none of which is a release, then
    [user_clear] and [images.remove] of the image, in this order; the slot
    of the image is empty afterwards.  This holds for every setting, every
    template and every image, so also when the channel check or a step of
    the pixel loop raises. *)
Theorem image_released_exactly_once {P : ObjectProtocol} {N : Naming}
        (filepath : string) (use_nodes reuse_materials : bool)
        (material_name cube_name mesh_name parent_name : string)
        (img : image) (h : host) :
  find_file filepath (files h) = Some img ->
  let image := List.length (bpy_data_images h) in
  let run := read_pixel_art filepath use_nodes reuse_materials material_name
                            cube_name mesh_name parent_name h in
  (fst run = Return FINISHED \/ exists e, fst run = Raise e) /\
  (exists evs,
      trace (snd run) =
      trace h ++ [ImagesLoad filepath] ++ evs ++
      [UserClear image; ImagesRemove image] /\
      forallb not_release evs = true) /\
  releases image (skipn (List.length (trace h)) (trace (snd run)))
  = [UserClear image; ImagesRemove image] /\
  nth_error (bpy_data_images (snd run)) image = Some None.
Proof.
  intros Hfile image run. subst image run.
  destruct h as [fs ims mats mes obs col tr]. cbn [files] in Hfile.
  cbn [bpy_data_images trace].
  set (h1 := {| files := fs; bpy_data_images := ims ++ [Some img];
                bpy_data_materials := mats; bpy_data_meshes := mes;
                bpy_data_objects := obs;
                bpy_context_collection_objects := col;
                trace := tr ++ [ImagesLoad filepath] |}).
  set (body := convert use_nodes reuse_materials material_name cube_name
                       mesh_name parent_name (path_tail filepath)
                       (if use_nodes then "nodes" else "")%string
                       (List.length ims)).
  destruct (finally_releases body (List.length ims) h1 (quiet_convert _ _ _ _ _ _ _ _ _))
    as (Hr & Hi & evs & Ht & Hq).
  assert (E : read_pixel_art filepath use_nodes reuse_materials material_name
                cube_name mesh_name parent_name
                (Build_host fs ims mats mes obs col tr)
              = bind (try_finally body
                        (user_clear (List.length ims) ;;;
                         images_remove (List.length ims)))
                     (fun _ => ret FINISHED) h1).
  { unfold read_pixel_art. run_calls. rewrite Hfile. run_calls.
    reflexivity. }
  rewrite E. clear E. unfold bind, ret.
  destruct (try_finally body _ h1) as [r h2]. cbn [fst snd] in *.
  assert (Hend : forall (r' : result status),
             trace (snd (r', h2)) = tr ++ [ImagesLoad filepath] ++ evs ++
               [UserClear (List.length ims); ImagesRemove (List.length ims)] /\
             bpy_data_images (snd (r', h2)) = ims ++ [None]).
  { intros r'. cbn [snd]. rewrite Ht, Hi. cbn [h1 trace bpy_data_images].
    rewrite update_at_app_last, <- !app_assoc. auto. }
  assert (Hrel : releases (List.length ims)
                   (skipn (List.length tr)
                      (tr ++ [ImagesLoad filepath] ++ evs ++
                       [UserClear (List.length ims);
                        ImagesRemove (List.length ims)]))
                 = [UserClear (List.length ims); ImagesRemove (List.length ims)]).
  { rewrite skipn_own_length. unfold releases.
    cbn [filter app is_release]. rewrite filter_app.
    fold (releases (List.length ims) evs).
    rewrite (no_release_filtered _ _ Hq). cbn [filter app is_release].
    now rewrite Nat.eqb_refl. }
  destruct r as [u|e].
  - destruct (Hend (Return FINISHED)) as [T1 I1]. cbn [fst snd] in *.
    rewrite T1, I1.
    split; [auto|]. split; [eauto|]. split; [exact Hrel|].
    apply nth_error_app_last.
  - destruct (Hend (@Raise status e)) as [T2 I2]. cbn [fst snd] in *.
    rewrite T2, I2.
    split; [eauto|]. split; [eauto|]. split; [exact Hrel|].
    apply nth_error_app_last.
Qed.

Lemma image_released_exactly_once_witness :
  find_file "/tmp/img.png" (files (empty_host [("/tmp/img.png", rgb_2x1)]))
  = Some rgb_2x1 /\
  let run := read_pixel_art (P := plain_objects) (N := numbered_names)
               "/tmp/img.png" true false MATERIAL_NAME "{bogus}" MESH_NAME
               PARENT_NAME (empty_host [("/tmp/img.png", rgb_2x1)]) in
  (fst run = Return FINISHED \/ exists e, fst run = Raise e) /\
  (exists evs,
      trace (snd run) =
      [] ++ [ImagesLoad "/tmp/img.png"] ++ evs ++ [UserClear 0; ImagesRemove 0] /\
      forallb not_release evs = true) /\
  releases 0 (skipn 0 (trace (snd run))) = [UserClear 0; ImagesRemove 0] /\
  nth_error (bpy_data_images (snd run)) 0 = Some None.
Proof.
  split; [reflexivity|].
  exact (image_released_exactly_once (P := plain_objects)
           (N := numbered_names) "/tmp/img.png" true false MATERIAL_NAME
           "{bogus}" MESH_NAME PARENT_NAME rgb_2x1
           (empty_host [("/tmp/img.png", rgb_2x1)]) eq_refl).
Defined.

(** This run does take an error path: the cube template fails at the first
    pixel, after its mesh was created. *)
Lemma failing_run_releases_image :
  let run := read_pixel_art (P := plain_objects) (N := numbered_names)
               "/tmp/img.png" true false MATERIAL_NAME "{bogus}" MESH_NAME
               PARENT_NAME (empty_host [("/tmp/img.png", rgb_2x1)]) in
  fst run = Raise (KeyError "bogus") /\
  List.length (bpy_data_meshes (snd run)) = 1 /\
  trace (snd run) =
  [ ImagesLoad "/tmp/img.png"; ObjectsNew "img.png"; CollectionLink 0;
    CacheLookup (1, 0, 0, 1)%Q; MaterialsNew "pixel_art_FF0000FF";
    MeshesNew "img.png_0_0_mesh"; UserClear 0; ImagesRemove 0 ].
Proof. vm_compute. repeat split. Qed.

(** ** Keys of the templates *)

Lemma lookup_same_keys (kw1 kw2 : kwargs) (key : string) (v : pyval) :
  keys kw1 = keys kw2 -> lookup key kw1 = Some v ->
  exists v', lookup key kw2 = Some v'.
Proof.
  revert kw2. induction kw1 as [|[k w] kw1 IH]; intros [|[k' w'] kw2];
    simpl; try discriminate.
  intros [= <- Hk]. destruct (String.eqb key k); [eauto|]. now apply IH.
Qed.

Section Keys.
Context {P : ObjectProtocol}.

Lemma lift_not_missing {A : Type} (r : result A) (key : string) :
  lift r <> Failed (MissingKey key).
Proof. destruct r; discriminate. Qed.

Lemma resolve_not_missing (o : obj) (path : list accessor) (key : string) :
  resolve o path <> Failed (MissingKey key).
Proof.
  revert o. induction path as [|[name|sub|msg] path IH]; intros o; simpl;
    try discriminate.
  - destruct (py_getattr o name); simpl; [apply IH | discriminate].
  - destruct (py_getitem o sub); simpl; [apply IH | discriminate].
Qed.

Lemma do_conversion_not_missing (o : obj) (c : option ascii) (key : string) :
  do_conversion o c <> Failed (MissingKey key).
Proof.
  unfold do_conversion. destruct c as [c|]; [|discriminate].
  repeat (match goal with |- context [if ?b then _ else _] => destruct b end);
    try apply lift_not_missing; discriminate.
Qed.

(** A field that one set of arguments resolves, an other set with the same
    keys resolves too, or fails for another reason than a missing key. *)
Lemma get_field_object_same_keys (kw1 kw2 : kwargs) (name : string) (o : obj)
      (key : string) :
  keys kw1 = keys kw2 ->
  get_field_object kw1 name = Done o ->
  get_field_object kw2 name <> Failed (MissingKey key).
Proof.
  intros Hk. unfold get_field_object. destruct (split_first name) as [first rest].
  destruct (get_integer first); try discriminate.
  destruct first as [|c first]; [discriminate|].
  destruct (lookup (String c first) kw1) as [v|] eqn:L; [|discriminate].
  destruct (lookup_same_keys _ _ _ _ Hk L) as [v' L']. rewrite L'.
  intros _. apply resolve_not_missing.
Qed.

Lemma output_markup_same_keys (expand1 expand2 : string -> fresult string)
      (kw1 kw2 : kwargs) name cv spec ne (s : string) (key : string) :
  keys kw1 = keys kw2 ->
  (forall sp t, expand1 sp = Done t -> expand2 sp <> Failed (MissingKey key)) ->
  output_markup expand1 kw1 name cv spec ne = Done s ->
  output_markup expand2 kw2 name cv spec ne <> Failed (MissingKey key).
Proof.
  intros Hk He. unfold output_markup.
  destruct (get_field_object kw1 name) as [o1|] eqn:G1; [|discriminate].
  pose proof (get_field_object_same_keys _ _ _ _ key Hk G1) as G2.
  destruct (get_field_object kw2 name) as [o2|e2]; [|congruence].
  destruct (do_conversion o1 cv) as [c1|]; [|discriminate].
  pose proof (do_conversion_not_missing o2 cv key) as C2.
  destruct (do_conversion o2 cv) as [c2|e2]; [|congruence].
  destruct ne.
  - destruct (expand1 spec) as [t1|] eqn:E1; [|discriminate].
    pose proof (He _ _ E1) as E2.
    destruct (expand2 spec) as [t2|e2]; [|congruence].
    intros _. apply lift_not_missing.
  - intros _. apply lift_not_missing.
Qed.

Lemma render_same_keys (expand1 expand2 : string -> fresult string)
      (kw1 kw2 : kwargs) (items : list item) (s : string) (key : string) :
  keys kw1 = keys kw2 ->
  (forall sp t, expand1 sp = Done t -> expand2 sp <> Failed (MissingKey key)) ->
  render expand1 kw1 items = Done s ->
  render expand2 kw2 items <> Failed (MissingKey key).
Proof.
  intros Hk He. revert s.
  induction items as [|[text|name cv spec ne|msg] items IH]; intros s; simpl;
    try discriminate.
  - destruct (render expand1 kw1 items) as [s1|]; [|discriminate].
    intros _. specialize (IH _ eq_refl).
    destruct (render expand2 kw2 items); [discriminate | congruence].
  - destruct (output_markup expand1 kw1 name cv spec ne) as [s1|] eqn:O1;
      [|discriminate].
    pose proof (output_markup_same_keys _ _ _ _ _ _ _ _ _ key Hk He O1) as O2.
    destruct (output_markup expand2 kw2 name cv spec ne); [|congruence].
    destruct (render expand1 kw1 items) as [s2|]; [|discriminate].
    intros _. specialize (IH _ eq_refl).
    destruct (render expand2 kw2 items); [discriminate | congruence].
Qed.

Lemma build_string_same_keys (depth : nat) (kw1 kw2 : kwargs)
      (input s : string) (key : string) :
  keys kw1 = keys kw2 ->
  build_string depth kw1 input = Done s ->
  build_string depth kw2 input <> Failed (MissingKey key).
Proof.
  intros Hk. revert input s. induction depth as [|depth IH]; intros input s;
    simpl; [discriminate|].
  apply render_same_keys; [exact Hk|]. intros sp t. apply IH.
Qed.

(** A template that formats with one set of keyword arguments never misses
    a key with another set that has the same keys. *)
Lemma format_same_keys (template : string) (kw1 kw2 : kwargs) (s key : string) :
  keys kw1 = keys kw2 ->
  format template kw1 = Done s ->
  format template kw2 <> Failed (MissingKey key).
Proof. apply build_string_same_keys. Qed.

(** The dictionaries of the run have the keys of the dictionaries of the
    validation. *)
Lemma run_keys_are_checked_keys :
  (forall filename struse_nodes,
      keys (group_params filename struse_nodes) = ["filename"; "use_nodes"]%string /\
      keys (group_params filename struse_nodes) = keys (group_params "" "")) /\
  (forall filename strcolor x y struse_nodes,
      keys (pixel_params filename strcolor x y struse_nodes)
      = ["filename"; "color"; "x"; "y"; "use_nodes"]%string /\
      keys (pixel_params filename strcolor x y struse_nodes) = keys pix_params).
Proof. repeat split. Qed.

End Keys.

(** ** Validation of the templates *)

Section Validation.
Context {P : ObjectProtocol} {N : Naming}.

(** What the validation loop can do: pass every check and change nothing;
    report one error and cancel; or let an exception through, having
    changed nothing. *)
Lemma validate_outcome (checks : list (string * string * kwargs)) (h : host) :
  match validate checks h with
  | (Return None, h') => h' = h /\ Forall passes checks
  | (Return (Some st), h') =>
      st = CANCELLED /\ ~ Forall passes checks /\ same_data h h' /\
      exists message, trace h' = trace h ++ [Report message]
  | (Raise e, h') => h' = h /\ ~ Forall passes checks
  end.
Proof.
  induction checks as [|[[name value] params] checks IH]; simpl.
  - split; [reflexivity | constructor].
  - destruct (format value params) as [s|e] eqn:F.
    + destruct (validate checks h) as [[[st|]|e] h'].
      * destruct IH as (-> & Hn & Hd & Ht).
        refine (conj eq_refl (conj _ (conj Hd Ht))).
        intros Hall. inversion Hall. contradiction.
      * destruct IH as [-> Hall]. split; [reflexivity|].
        constructor; [exists s; exact F | exact Hall].
      * destruct IH as [-> Hn]. split; [reflexivity|].
        intros Hall. inversion Hall. contradiction.
    + assert (Hn : ~ Forall passes ((name, value, params) :: checks)).
      { intros Hall. inversion Hall as [|? ? Hp _]; subst.
        unfold passes in Hp. destruct Hp as [s Hs]. congruence. }
      destruct h as [fs ims mats mes obs col tr].
      destruct (exn_of_format_error e); unfold report; run_calls;
        try (split; [reflexivity | exact Hn]);
        (split; [reflexivity|]); (split; [exact Hn|]);
        (split; [repeat split|]); eexists; reflexivity.
Qed.

(** When some template does not pass its check, [execute] ends without
    [read_pixel_art]: no image is loaded and no data block is created or
    changed; the trace gains at most the report. *)
Lemma rejected_templates_change_nothing (self : ImportPixelArt) (h : host) :
  ~ Forall passes (checks_of self) ->
  let run := execute self h in
  fst run <> Return FINISHED /\
  same_data h (snd run) /\
  (trace (snd run) = trace h \/
   exists message, trace (snd run) = trace h ++ [Report message]).
Proof.
  intros Hn. unfold execute. fold (checks_of self). unfold bind.
  pose proof (validate_outcome (checks_of self) h) as V.
  destruct (validate (checks_of self) h) as [[[st|]|e] h']; cbn [fst snd].
  - destruct V as (-> & _ & Hd & Ht). unfold ret. cbn [fst snd].
    split; [discriminate|]. auto.
  - destruct V as [_ Hall]. contradiction.
  - destruct V as [-> _]. split; [discriminate|].
    split; [repeat split | auto].
Qed.

(** A template that names a key outside the dictionary is reported. *)
Lemma unknown_key_is_reported (self : ImportPixelArt) (h : host) (key : string) :
  format (parent_name self) (group_params "" "") = Failed (MissingKey key) ->
  exists h',
    execute self h = (Return CANCELLED, h') /\
    trace h' = trace h ++
      [Report ("Illegal key used in object name: " ++ repr_str key)%string].
Proof.
  intros F. unfold execute, validate, group_params in *. rewrite F.
  destruct h as [fs ims mats mes obs col tr]. unfold report.
  cbn [exn_of_format_error]. run_calls. eexists. split; reflexivity.
Qed.

(** A template with a positional field, [{}], is neither: formatting it
    raises [IndexError] before anything else is looked at. *)
Lemma format_positional (kw : kwargs) : format "{}" kw = Failed (NoPositional 0).
Proof. reflexivity. Qed.

(** C6 at the failing input.  With the parent template [{}] the operator
    neither reports nor cancels: the [IndexError] of [str.format] is caught
    by neither handler and leaves [execute]; the host is untouched. *)
Theorem positional_field_escapes_validation
        (filepath : string) (use_nodes reuse_materials : bool)
        (cube_name mesh_name material_name : string) (h : host) :
  execute {| filepath := filepath; use_nodes := use_nodes;
             reuse_materials := reuse_materials; parent_name := "{}";
             cube_name := cube_name; mesh_name := mesh_name;
             material_name := material_name |} h
  = (Raise (IndexError
              "Replacement index 0 out of range for positional args tuple"),
     h).
Proof.
  unfold execute, validate. cbn [parent_name]. rewrite format_positional.
  reflexivity.
Qed.

(** C10.  The keys used to validate a template in [execute] are the keys
    supplied when it is formatted during the conversion ([filename] and
    [use_nodes] for the parent; [filename], [color], [x], [y] and
    [use_nodes] for materials, meshes and cubes); so when the validation
    loop of [execute] lets the four templates pass, no call of [format] in
    the run, whatever the file name, the pixel and its colour, fails for a
    missing key. *)
Theorem validated_templates_find_their_keys :
  (forall filename struse_nodes,
      keys (group_params filename struse_nodes) = ["filename"; "use_nodes"]%string /\
      keys (group_params filename struse_nodes)
      = keys [ ("filename", PStr ""); ("use_nodes", PStr "") ]%string) /\
  (forall filename strcolor x y struse_nodes,
      keys (pixel_params filename strcolor x y struse_nodes)
      = ["filename"; "color"; "x"; "y"; "use_nodes"]%string /\
      keys (pixel_params filename strcolor x y struse_nodes) = keys pix_params) /\
  (forall (self : ImportPixelArt) (h h' : host),
      validate (checks_of self) h = (Return None, h') ->
      forall filename strcolor x y struse_nodes key,
        format (parent_name self) (group_params filename struse_nodes)
        <> Failed (MissingKey key) /\
        format (material_name self)
               (pixel_params filename strcolor x y struse_nodes)
        <> Failed (MissingKey key) /\
        format (mesh_name self)
               (pixel_params filename strcolor x y struse_nodes)
        <> Failed (MissingKey key) /\
        format (cube_name self)
               (pixel_params filename strcolor x y struse_nodes)
        <> Failed (MissingKey key)).
Proof.
  split; [intros; split; reflexivity|]. split; [intros; split; reflexivity|].
  intros self h h' V filename strcolor x y struse_nodes key.
  pose proof (validate_outcome (checks_of self) h) as O. rewrite V in O.
  destruct O as [_ Hall]. unfold checks_of in Hall.
  inversion Hall as [|? ? H1 Hall1]; subst.
  inversion Hall1 as [|? ? H2 Hall2]; subst.
  inversion Hall2 as [|? ? H3 Hall3]; subst.
  inversion Hall3 as [|? ? H4 _]; subst.
  unfold passes in H1, H2, H3, H4.
  destruct H1 as [s1 H1], H2 as [s2 H2], H3 as [s3 H3], H4 as [s4 H4].
  repeat split; eapply format_same_keys; try eassumption; reflexivity.
Qed.

End Validation.

(** An unknown key in a later template goes unreported when an earlier
    template fails in a way validation does not catch: [filename] is empty
    during validation, so [{filename[0]}] raises [IndexError]. *)
Lemma unknown_key_behind_uncaught_error :
  execute (P := plain_objects) (N := numbered_names)
          {| filepath := "/tmp/img.png"; use_nodes := true;
             reuse_materials := false; parent_name := "{filename[0]}";
             cube_name := CUBE_NAME; mesh_name := MESH_NAME;
             material_name := "{bogus}" |}
          (empty_host [("/tmp/img.png", rgb_2x1)])
  = (Raise (IndexError "string index out of range"),
     empty_host [("/tmp/img.png", rgb_2x1)]).
Proof. reflexivity. Qed.

(** ** A run from start to end *)

(** Red and green, two by one: the parent named after the file, a cube at
    [(0, 0, 0)] and one at [(1, 0, 0)], and two materials named after the
    colours. *)
Example red_and_green :
  let run := read_pixel_art (P := plain_objects) (N := numbered_names)
               "/tmp/img.png" true false MATERIAL_NAME CUBE_NAME MESH_NAME
               PARENT_NAME (empty_host [("/tmp/img.png", rgb_2x1)]) in
  fst run = Return FINISHED /\
  map ob_name (bpy_data_objects (snd run))
  = ["img.png"; "img.png_0_0"; "img.png_1_0"]%string /\
  map ob_location (bpy_data_objects (snd run))
  = [(0, 0, 0); (0, 0, 0); (1, 0, 0)]%Z /\
  map ob_parent (bpy_data_objects (snd run)) = [None; Some 0; Some 0] /\
  map ma_name (bpy_data_materials (snd run))
  = ["pixel_art_FF0000FF"; "pixel_art_00FF00FF"]%string /\
  map me_materials (bpy_data_meshes (snd run)) = [[0]; [1]] /\
  bpy_data_images (snd run) = [None].
Proof. vm_compute. repeat split. Qed.

(** ** The scene a run leaves *)

Section SettleCases.
Context {N : Naming}.

(** The three ways a colour is settled: it is in the dictionary; or it is
    not and a material of the name is found (only with reuse on); or a
    material is created. *)
Lemma settle_cases use_nodes reuse name c d reg m d' reg' calls :
  settle use_nodes reuse name c d reg = (m, d', reg', calls) ->
  (cache_get c d = Some m /\ d' = d /\ reg' = reg) \/
  (cache_get c d = None /\ d' = d ++ [(c, m)] /\
   ((reuse = true /\ reg' = reg /\
     exists x, nth_error reg m = Some x /\ named name x = true) \/
    (m = List.length reg /\
     reg' = reg ++ [fresh_material (unique_name (map ma_name reg) name)
                                   use_nodes c (alpha c)] /\
     (reuse = true -> index_of (named name) reg 0 = None)))).
Proof.
  unfold settle. destruct (cache_get c d) as [m1|] eqn:G.
  - intros [= <- <- <- <-]. auto.
  - destruct reuse.
    + destruct (index_of (named name) reg 0) as [j|] eqn:I.
      * intros [= <- <- <- <-]. right. split; [reflexivity|].
        split; [now apply cache_set_absent|]. left.
        destruct (index_of_found _ _ _ _ I) as (i & x & -> & Hx & Hp).
        repeat split. exists x. auto.
      * intros [= <- <- <- <-]. right. split; [reflexivity|].
        split; [now apply cache_set_absent|]. right. auto.
    + intros [= <- <- <- <-]. right. split; [reflexivity|].
      split; [now apply cache_set_absent|]. right.
      repeat split. discriminate.
Qed.

End SettleCases.

Lemma firstn_within {A : Type} (n : nat) (l l' : list A) :
  n <= List.length l -> firstn n (l ++ l') = firstn n l.
Proof.
  intros H. rewrite firstn_app.
  replace (n - List.length l) with 0 by lia. simpl. apply app_nil_r.
Qed.

Lemma firstn_whole {A : Type} (l l' : list A) :
  firstn (List.length l) (l ++ l') = l.
Proof.
  rewrite firstn_app, Nat.sub_diag, firstn_all. simpl. apply app_nil_r.
Qed.

Lemma nth_error_snoc {A : Type} (l : list A) (x : A) (k : nat) (y : A) :
  nth_error (l ++ [x]) k = Some y ->
  (k < List.length l /\ nth_error l k = Some y) \/ (k = List.length l /\ y = x).
Proof.
  intros H. destruct (Nat.lt_ge_cases k (List.length l)) as [Hk|Hk].
  - left. split; [exact Hk|]. now rewrite nth_error_app1 in H.
  - right. rewrite nth_error_app2 in H by exact Hk.
    destruct (k - List.length l) as [|j] eqn:E.
    + simpl in H. injection H as <-. split; [lia | reflexivity].
    + simpl in H. destruct j; discriminate.
Qed.

Section SceneStep.
Context {P : ObjectProtocol} {N : Naming}.
Variables (use_nodes reuse_materials : bool).
Variables (material_name cube_name mesh_name filename struse_nodes : string).
Variables (img : image) (parent : nat) (h0 : host).

Hypothesis img_ok : well_formed img.
Hypothesis material_name_ok : renders material_name filename struse_nodes.
Hypothesis mesh_name_ok : renders mesh_name filename struse_nodes.
Hypothesis cube_name_ok : renders cube_name filename struse_nodes.

Let scene := scene_inv use_nodes reuse_materials material_name cube_name
                       mesh_name filename struse_nodes img parent h0.

(** An iteration of the pixel loop keeps [scene_inv] as well. *)
Lemma scene_step (done : list (nat * nat)) (x y : nat) (st : locals) (h : host) :
  x < width img -> y < height img ->
  run_inv img reuse_materials parent h0 done st h ->
  scene done st h ->
  exists st' h',
    pixel use_nodes reuse_materials material_name cube_name mesh_name filename
          struse_nodes parent (im_channels img) (im_pixels img)
          y (y * im_channels img * width img) x st h = (Return st', h') /\
    run_inv img reuse_materials parent h0 (done ++ [(x, y)]) st' h' /\
    scene (done ++ [(x, y)]) st' h'.
Proof.
  intros Hx Hy I S.
  destruct (pixel_step use_nodes reuse_materials material_name cube_name
              mesh_name filename struse_nodes img parent h0 img_ok
              material_name_ok mesh_name_ok cube_name_ok done x y st h Hx Hy I)
    as (st' & h' & E & I').
  exists st', h'. split; [exact E|]. split; [exact I'|].
  rewrite (pixel_reads _ _ _ _ _ _ _ _ _ _ _ _ _ img_ok Hx Hy (inv_alpha _ _ _ _ _ _ _ I)) in E.
  destruct S as [Sf Si So Sm Sc Scu Sk Sr Se Scr].
  destruct (skipped img (x, y)) eqn:Sk'.
  - injection E as <- <-.
    constructor; rewrite ?visible_snoc, ?Sk', ?app_nil_r; cbn [materials]; auto.
  - destruct (color_at img x y) as [[[r g] b] al] eqn:C.
    destruct (material_name_ok (strcolor_of (r, g, b, al)) x y) as [name Hn].
    destruct (mesh_name_ok (strcolor_of (r, g, b, al)) x y) as [mname Hm].
    destruct (cube_name_ok (strcolor_of (r, g, b, al)) x y) as [cname Hc].
    pose proof (place_runs use_nodes reuse_materials material_name cube_name
                  mesh_name filename struse_nodes parent y x r g b al
                  (materials st) h name mname cname Hn Hm Hc) as Hp.
    cbv zeta in Hp.
    destruct (settle use_nodes reuse_materials name (r, g, b, al)
                (materials st) (bpy_data_materials h))
      as [[[m d'] reg'] calls] eqn:St.
    rewrite Hp in E. injection E as <- <-.
    destruct (settle_sound _ _ _ _ _ _ _ _ _ _ St) as [Hget Hkeep].
    pose proof (settle_cases _ _ _ _ _ _ _ _ _ _ St) as Cases.
    destruct Sr as (new & En & Ln).
    constructor; rewrite ?visible_snoc, ?Sk';
      cbn [materials bpy_data_objects bpy_data_meshes bpy_data_materials
           bpy_context_collection_objects files bpy_data_images].
    + exact Sf.
    + exact Si.
    + rewrite !length_app, So. cbn [List.length]. lia.
    + rewrite !length_app, Sm. cbn [List.length]. lia.
    + rewrite Sc, length_app, seq_app, <- app_assoc, So. reflexivity.
    + intros k p Hk. apply nth_error_snoc in Hk.
      destruct Hk as [[Hlt Hk]|[-> ->]].
      * destruct (Scu k p Hk) as (cn & mn & m0 & F1 & F2 & G & O & M).
        exists cn, mn, m0. cbv zeta.
        cbn [bpy_data_objects bpy_data_meshes].
        rewrite !firstn_within by lia.
        rewrite !nth_error_app1 by lia.
        repeat split; auto.
      * exists cname, mname, m. cbv zeta.
        cbn [bpy_data_objects bpy_data_meshes fst snd].
        unfold params_at. cbn [fst snd]. rewrite C.
        rewrite <- So, <- Sm, !firstn_whole, !nth_error_app_last.
        repeat split; auto.
    + unfold colors_of in *. rewrite map_app. cbn [map fst snd]. rewrite C.
      destruct Cases as [(G & -> & _)|(G & -> & _)].
      * rewrite distinct_snoc_seen; [exact Sk|].
        now rewrite <- Sk, cache_get_seen, G.
      * rewrite map_app. cbn [map fst]. rewrite Sk.
        rewrite distinct_snoc_new; [reflexivity|].
        now rewrite <- Sk, cache_get_seen, G.
    + destruct Cases as [(G & -> & ->)|(G & -> & [(_ & -> & _)|(_ & -> & _)])].
      * exists new. auto.
      * exists new. split; [exact En|]. rewrite length_app. lia.
      * eexists. split; [rewrite En, <- app_assoc; reflexivity|].
        rewrite !length_app. cbn [List.length]. lia.
    + intros c0 m0 Hin.
      assert (Old : In (c0, m0) (materials st) ->
                    forall extra,
                    exists d0,
                      nth_error (bpy_data_materials h ++ extra) m0 = Some d0 /\
                      (reuse_materials = false ->
                       List.length (bpy_data_materials h0) <= m0 /\
                       exists name0,
                         d0 = fresh_material name0 use_nodes c0 (alpha c0))).
      { intros Hi extra. destruct (Se _ _ Hi) as (d0 & Hd0 & Hf).
        exists d0. split; [|exact Hf].
        rewrite nth_error_app1; [exact Hd0|].
        apply nth_error_Some. congruence. }
      destruct Cases as [(G & -> & ->)|(G & -> & [(Hr & -> & X)|(-> & -> & _)])].
      * destruct (Old Hin []) as (d0 & Hd0 & Hf). rewrite app_nil_r in Hd0. eauto.
      * apply in_app_or in Hin. destruct Hin as [Hin|[[= <- <-]|[]]].
        -- destruct (Old Hin []) as (d0 & Hd0 & Hf). rewrite app_nil_r in Hd0. eauto.
        -- destruct X as (x0 & Hx0 & _). exists x0. split; [exact Hx0|].
           intros Hf. congruence.
      * apply in_app_or in Hin. destruct Hin as [Hin|[[= <- <-]|[]]].
        -- apply Old. exact Hin.
        -- eexists. split; [apply nth_error_app_last|].
           intros _. split; [rewrite En, length_app; lia | eauto].
    + cbv zeta. intros j d0 Hd0.
      assert (Old : forall extra,
                 nth_error (bpy_data_materials h)
                           (List.length (bpy_data_materials h0) + j) = Some d0 ->
                 exists x1 y1 name1,
                   In (x1, y1) (visible img done ++ [(x, y)]) /\
                   format material_name
                          (params_at filename struse_nodes img (x1, y1))
                   = Done name1 /\
                   d0 = fresh_material
                          (unique_name
                             (map ma_name
                                  (firstn (List.length (bpy_data_materials h0) + j)
                                          (bpy_data_materials h ++ extra)))
                             name1)
                          use_nodes (color_at img x1 y1)
                          (alpha (color_at img x1 y1)) /\
                   (reuse_materials = true ->
                    index_of (named name1)
                             (firstn (List.length (bpy_data_materials h0) + j)
                                     (bpy_data_materials h ++ extra)) 0 = None)).
      { intros extra Hj.
        destruct (Scr j d0 Hj) as (x1 & y1 & name1 & Hin1 & F1 & D1 & R1).
        exists x1, y1, name1.
        assert (Hlt : List.length (bpy_data_materials h0) + j
                      < List.length (bpy_data_materials h))
          by (apply nth_error_Some; congruence).
        rewrite firstn_within by lia.
        split; [apply in_or_app; left; exact Hin1|]. auto. }
      destruct Cases as [(G & -> & ->)|(G & -> & [(_ & -> & _)|(-> & -> & Hnone)])].
      * destruct (Old [] Hd0) as (x1 & y1 & n1 & A1 & A2 & A3 & A4).
        rewrite app_nil_r in A3, A4. exists x1, y1, n1. auto.
      * destruct (Old [] Hd0) as (x1 & y1 & n1 & A1 & A2 & A3 & A4).
        rewrite app_nil_r in A3, A4. exists x1, y1, n1. auto.
      * apply nth_error_snoc in Hd0. destruct Hd0 as [[Hlt Hd0]|[Hj ->]].
        -- exact (Old _ Hd0).
        -- exists x, y, name. rewrite Hj, firstn_whole.
           split; [apply in_or_app; right; left; reflexivity|].
           unfold params_at. cbn [fst snd]. rewrite C.
           repeat split; auto.
Qed.

End SceneStep.

(** [read_pixel_art] on a file the host can decode: the load, the body of
    the [try] statement, the release. *)
Lemma read_pixel_art_loaded {P : ObjectProtocol} {N : Naming}
      (filepath : string) (use_nodes reuse_materials : bool)
      (material_name cube_name mesh_name parent_name : string)
      (img : image) (h : host) :
  find_file filepath (files h) = Some img ->
  read_pixel_art filepath use_nodes reuse_materials material_name cube_name
                 mesh_name parent_name h
  = let (r, h') :=
      convert use_nodes reuse_materials material_name cube_name mesh_name
              parent_name (path_tail filepath)
              (if use_nodes then "nodes" else "")%string
              (List.length (bpy_data_images h)) (loaded filepath img h) in
    (match r with Return _ => Return FINISHED | Raise e => Raise e end,
     released (List.length (bpy_data_images h)) h').
Proof.
  intros Hfile. destruct h as [fs ims mats mes obs col tr].
  cbn [files] in Hfile. unfold read_pixel_art, loaded, released.
  run_calls. rewrite Hfile. run_calls.
  destruct (convert _ _ _ _ _ _ _ _ _ _) as [[u|e] [fs' ims' mats' mes' obs' col' tr']];
    run_calls; rewrite <- app_assoc; reflexivity.
Qed.

(** The body of the [try] statement, spelled out up to the loops. *)
Lemma convert_unfold {P : ObjectProtocol} {N : Naming}
      (use_nodes reuse_materials : bool)
      (material_name cube_name mesh_name parent_name : string)
      (filename struse_nodes : string) (i : nat) (img : image) (h : host) :
  nth_error (bpy_data_images h) i = Some (Some img) ->
  convert use_nodes reuse_materials material_name cube_name mesh_name
          parent_name filename struse_nodes i h
  = if negb (existsb (Nat.eqb (im_channels img)) [1; 3; 4])
    then (Raise (IOError ("Cannot handle image with " ++
                          str_of_int (Z.of_nat (im_channels img)) ++
                          " channels!")%string), h)
    else
      match format parent_name (group_params filename struse_nodes) with
      | Failed e => (Raise (exn_of_format_error e), h)
      | Done pname =>
          match
            for_range (height img)
              (fun y st =>
                 for_range (width img)
                   (pixel use_nodes reuse_materials material_name cube_name
                          mesh_name filename struse_nodes
                          (List.length (bpy_data_objects h))
                          (im_channels img) (im_pixels img) y
                          (y * im_channels img * width img)) st)
              {| a := 1%Q; materials := [] |} (with_parent pname h)
          with
          | (Return _, h') => (Return tt, h')
          | (Raise e, h') => (Raise e, h')
          end
      end.
Proof.
  intros Himg. unfold convert.
  rewrite (bind_return _ _ _ _ _ (image_data_runs i img h Himg)).
  cbv beta zeta. destruct (negb _); [reflexivity|].
  unfold format_m. destruct (format parent_name _) as [pname|e]; [|reflexivity].
  rewrite (surjective_pairing (im_size img)).
  change (fst (im_size img)) with (width img).
  change (snd (im_size img)) with (height img).
  destruct h as [fs ims mats mes obs col tr].
  unfold with_parent, group_object. run_calls. rewrite <- app_assoc.
  cbn [app].
  destruct (for_range _ _ _ _) as [[st|e] h']; reflexivity.
Qed.

Section SceneRun.
Context {P : ObjectProtocol} {N : Naming}.
Variables (use_nodes reuse_materials : bool).
Variables (material_name cube_name mesh_name parent_name : string).
Variables (filename struse_nodes : string).
Variable img : image.

Hypothesis img_ok : well_formed img.
Hypothesis parent_name_ok : renders_group parent_name filename struse_nodes.
Hypothesis material_name_ok : renders material_name filename struse_nodes.
Hypothesis mesh_name_ok : renders mesh_name filename struse_nodes.
Hypothesis cube_name_ok : renders cube_name filename struse_nodes.

(** The body of the [try] statement, with both invariants at its end. *)
Lemma convert_scene (image : nat) (h : host) :
  nth_error (bpy_data_images h) image = Some (Some img) ->
  exists pname st h',
    format parent_name (group_params filename struse_nodes) = Done pname /\
    convert use_nodes reuse_materials material_name cube_name mesh_name
            parent_name filename struse_nodes image h = (Return tt, h') /\
    run_inv img reuse_materials (List.length (bpy_data_objects h))
            (with_parent pname h) (coords (width img) (height img)) st h' /\
    scene_inv use_nodes reuse_materials material_name cube_name mesh_name
              filename struse_nodes img (List.length (bpy_data_objects h))
              (with_parent pname h) (coords (width img) (height img)) st h'.
Proof.
  intros Himg. destruct parent_name_ok as [pname Hp].
  assert (Hchan : existsb (Nat.eqb (im_channels img)) [1; 3; 4] = true).
  { destruct img_ok as [Hin _]. simpl in Hin.
    destruct Hin as [<-|[<-|[<-|[]]]]; reflexivity. }
  destruct h as [fs ims mats mes obs col tr]. cbn [bpy_data_images] in Himg.
  set (h0 := with_parent pname (Build_host fs ims mats mes obs col tr)).
  cbn [bpy_data_objects].
  destruct (pixel_loops_inv
              (fun d s hh =>
                 run_inv img reuse_materials (List.length obs) h0 d s hh /\
                 scene_inv use_nodes reuse_materials material_name cube_name
                           mesh_name filename struse_nodes img
                           (List.length obs) h0 d s hh)
              (fun y =>
                 pixel use_nodes reuse_materials material_name cube_name
                       mesh_name filename struse_nodes (List.length obs)
                       (im_channels img) (im_pixels img) y
                       (y * im_channels img * width img))
              (width img) (height img))
    with (s := {| a := 1%Q; materials := [] |}) (h := h0)
    as (st & h' & E & I & S).
  - intros done x y s h1 Hx Hy [I S].
    destruct (scene_step use_nodes reuse_materials material_name cube_name
                mesh_name filename struse_nodes img (List.length obs) h0
                img_ok material_name_ok mesh_name_ok cube_name_ok
                done x y s h1 Hx Hy I S) as (s' & h1' & E & I' & S').
    exists s', h1'. auto.
  - split; constructor; cbn [materials a visible filter List.length seq];
      rewrite ?Nat.add_0_r, ?app_nil_r; auto.
    + exists []. rewrite app_nil_r. split; [reflexivity | constructor].
    + exists []. rewrite app_nil_r. split; reflexivity.
    + intros _. exists []. rewrite app_nil_r. repeat split.
    + intros k p Hk. destruct k; discriminate.
    + exists []. rewrite app_nil_r. split; [reflexivity | apply Nat.le_refl].
    + intros c m [].
    + cbv zeta. intros j d Hd. exfalso.
      assert (List.length mats + j < List.length mats)
        by (apply nth_error_Some; unfold h0 in Hd;
            cbn [with_parent bpy_data_materials] in Hd; congruence).
      lia.
  - exists pname, st, h'.
    refine (conj Hp (conj _ (conj I S))).
    rewrite (convert_unfold _ _ _ _ _ _ _ _ _ img
               (Build_host fs ims mats mes obs col tr) Himg).
    rewrite Hchan, Hp. cbn [negb bpy_data_objects]. fold h0. rewrite E.
    reflexivity.
Qed.

End SceneRun.

Section SceneWholeRun.
Context {P : ObjectProtocol} {N : Naming}.
Variables (filepath : string) (use_nodes reuse_materials : bool).
Variables (material_name cube_name mesh_name parent_name : string).
Variable img : image.

Let filename := path_tail filepath.
Let struse_nodes := (if use_nodes then "nodes" else "")%string.

Hypothesis img_ok : well_formed img.
Hypothesis parent_name_ok : renders_group parent_name filename struse_nodes.
Hypothesis material_name_ok : renders material_name filename struse_nodes.
Hypothesis mesh_name_ok : renders mesh_name filename struse_nodes.
Hypothesis cube_name_ok : renders cube_name filename struse_nodes.

(** A run on a readable, well-formed image with templates that format
    finishes; the host it leaves is the host [hmid] at the end of the loops
    with the image released, and both invariants hold of [hmid]. *)
Lemma read_pixel_art_scene (h : host) :
  find_file filepath (files h) = Some img ->
  exists pname st hmid,
    format parent_name (group_params filename struse_nodes) = Done pname /\
    read_pixel_art filepath use_nodes reuse_materials material_name cube_name
                   mesh_name parent_name h
    = (Return FINISHED, released (List.length (bpy_data_images h)) hmid) /\
    run_inv img reuse_materials (List.length (bpy_data_objects h))
            (with_parent pname (loaded filepath img h))
            (coords (width img) (height img)) st hmid /\
    scene_inv use_nodes reuse_materials material_name cube_name mesh_name
              filename struse_nodes img (List.length (bpy_data_objects h))
              (with_parent pname (loaded filepath img h))
              (coords (width img) (height img)) st hmid.
Proof.
  intros Hfile.
  destruct (convert_scene use_nodes reuse_materials material_name cube_name
              mesh_name parent_name filename struse_nodes img img_ok
              parent_name_ok material_name_ok mesh_name_ok cube_name_ok
              (List.length (bpy_data_images h)) (loaded filepath img h)
              (nth_error_app_last (bpy_data_images h) (Some img)))
    as (pname & st & hmid & Hp & E & I & S).
  exists pname, st, hmid. split; [exact Hp|]. split; [|split; [exact I | exact S]].
  rewrite (read_pixel_art_loaded _ _ _ _ _ _ _ img h Hfile).
  fold filename. fold struse_nodes. rewrite E. reflexivity.
Qed.

End SceneWholeRun.

(** ** Counting what a run creates *)

Lemma length_visible_le (img : image) (ps : list (nat * nat)) :
  List.length (visible img ps) <= List.length ps.
Proof. apply filter_length_le. Qed.

Lemma visible_without_alpha (img : image) (ps : list (nat * nat)) :
  well_formed img -> im_channels img <> 4 -> visible img ps = ps.
Proof.
  intros Hwf Hne. unfold visible. induction ps as [|p ps IH]; simpl; [reflexivity|].
  destruct (skipped img p) eqn:Sk.
  - exfalso. apply Hne. eapply skipped_four; eassumption.
  - simpl. now rewrite IH.
Qed.

(** X1.  A run on a well-formed image whose templates format, in either
    value of [reuse_materials], creates the parent, then one object and one
    mesh for every pixel that is not skipped, and nothing else in
    [bpy.data.objects] and [bpy.data.meshes]: at most [W * H] cubes, and
    exactly [W * H] for an image without alpha channel.  It creates at most
    one material per distinct colour among the pixels that are not skipped,
    and exactly one with [reuse_materials] off. *)
Theorem cubes_meshes_and_materials_counted {P : ObjectProtocol} {N : Naming}
        (filepath : string) (use_nodes reuse_materials : bool)
        (material_name cube_name mesh_name parent_name : string)
        (img : image) (h : host) :
  let filename := path_tail filepath in
  let struse_nodes := if use_nodes then "nodes" else "" in
  let shown := visible img (coords (width img) (height img)) in
  find_file filepath (files h) = Some img ->
  well_formed img ->
  renders_group parent_name filename struse_nodes ->
  renders material_name filename struse_nodes ->
  renders mesh_name filename struse_nodes ->
  renders cube_name filename struse_nodes ->
  exists h' parent_ob cubes meshes new_materials,
    read_pixel_art filepath use_nodes reuse_materials material_name cube_name
                   mesh_name parent_name h = (Return FINISHED, h') /\
    bpy_data_objects h' = bpy_data_objects h ++ parent_ob :: cubes /\
    bpy_data_meshes h' = bpy_data_meshes h ++ meshes /\
    bpy_data_materials h' = bpy_data_materials h ++ new_materials /\
    List.length cubes = List.length shown /\
    List.length meshes = List.length shown /\
    List.length shown <= width img * height img /\
    (im_channels img <> 4 -> List.length shown = width img * height img) /\
    List.length new_materials <= List.length (distinct (colors_of img shown)) /\
    (reuse_materials = false ->
     List.length new_materials = List.length (distinct (colors_of img shown))).
Proof.
  intros filename struse_nodes shown Hfile Hwf Hp Hm Hme Hc.
  destruct (read_pixel_art_scene filepath use_nodes reuse_materials
              material_name cube_name mesh_name parent_name img Hwf Hp Hm Hme
              Hc h Hfile)
    as (pname & st & hmid & _ & E & I & S).
  destruct I as [(cubes & Eo & F) (ms & Em & Lm) Hmat _].
  destruct S as [_ _ _ _ _ _ Sk (new & En & Ln) _ _].
  cbn [with_parent loaded bpy_data_objects bpy_data_meshes bpy_data_materials]
    in Eo, Em, En, Hmat.
  exists (released (List.length (bpy_data_images h)) hmid),
         (group_object pname (loaded filepath img h)), cubes, ms, new.
  cbn [released bpy_data_objects bpy_data_meshes bpy_data_materials].
  split; [exact E|]. split; [now rewrite Eo, <- app_assoc|].
  split; [exact Em|]. split; [exact En|].
  split; [symmetry; exact (Forall2_length F)|]. split; [exact Lm|].
  split; [unfold shown; rewrite <- length_coords; apply length_visible_le|].
  split.
  { intros Hne. unfold shown. rewrite (visible_without_alpha img _ Hwf Hne).
    apply length_coords. }
  assert (Ld : List.length (materials st)
               = List.length (distinct (colors_of img shown)))
    by (unfold shown; rewrite <- Sk; now rewrite length_map).
  split; [now rewrite <- Ld|].
  intros Hre. destruct (Hmat Hre) as (new' & En' & Es & _).
  rewrite En in En'. apply app_inv_head in En'. subst new'.
  rewrite <- Ld, <- (length_map snd (materials st)), Es, length_seq.
  reflexivity.
Qed.

Lemma cubes_meshes_and_materials_counted_witness :
  find_file "/tmp/img.png" (files (empty_host [("/tmp/img.png", rgba_2x2)]))
  = Some rgba_2x2 /\
  well_formed rgba_2x2 /\
  exists h' parent_ob cubes meshes new_materials,
    read_pixel_art (P := plain_objects) (N := numbered_names)
                   "/tmp/img.png" true true MATERIAL_NAME CUBE_NAME MESH_NAME
                   PARENT_NAME (empty_host [("/tmp/img.png", rgba_2x2)])
    = (Return FINISHED, h') /\
    bpy_data_objects h' = parent_ob :: cubes /\
    bpy_data_meshes h' = meshes /\
    bpy_data_materials h' = new_materials /\
    List.length cubes = 3 /\
    List.length meshes = 3 /\
    3 <= 4 /\
    (4 <> 4 -> 3 = 4) /\
    List.length new_materials <= 2 /\
    (true = false -> List.length new_materials = 2).
Proof.
  split; [reflexivity|]. split; [exact rgba_2x2_well_formed|].
  exact (cubes_meshes_and_materials_counted (P := plain_objects)
           (N := numbered_names)
           "/tmp/img.png" true true MATERIAL_NAME CUBE_NAME MESH_NAME
           PARENT_NAME rgba_2x2 (empty_host [("/tmp/img.png", rgba_2x2)])
           eq_refl rgba_2x2_well_formed
           (default_parent_name_renders _ _)
           (default_material_name_renders _ _)
           (default_mesh_name_renders _ _)
           (default_cube_name_renders _ _)).
Defined.

(** ** Where the cubes are and what they are made of *)

(** X2.  After a run on a well-formed image whose templates format, the
    [k]-th pixel [(x, y)] that is not skipped, counting row by row, is the
    [k]-th object after the parent in [bpy.data.objects]: it sits at
    [(x, y, 0)], its parent is the parent, its data is the [k]-th mesh of
    the run, and its name is the one the host makes of [cube_name]
    formatted with the file name, the colour digits, [x], [y] and the node
    setting, given the names of the objects before it. *)
Theorem cube_of_each_visible_pixel {P : ObjectProtocol} {N : Naming}
        (filepath : string) (use_nodes reuse_materials : bool)
        (material_name cube_name mesh_name parent_name : string)
        (img : image) (h : host) :
  let filename := path_tail filepath in
  let struse_nodes := if use_nodes then "nodes" else "" in
  let parent := List.length (bpy_data_objects h) in
  find_file filepath (files h) = Some img ->
  well_formed img ->
  renders_group parent_name filename struse_nodes ->
  renders material_name filename struse_nodes ->
  renders mesh_name filename struse_nodes ->
  renders cube_name filename struse_nodes ->
  exists h',
    read_pixel_art filepath use_nodes reuse_materials material_name cube_name
                   mesh_name parent_name h = (Return FINISHED, h') /\
    forall k x y,
      nth_error (visible img (coords (width img) (height img))) k = Some (x, y) ->
      exists cname,
        format cube_name
               (pixel_params filename (strcolor_of (color_at img x y)) x y
                             struse_nodes) = Done cname /\
        nth_error (bpy_data_objects h') (S parent + k)
        = Some {| ob_name :=
                    unique_name
                      (map ob_name (firstn (S parent + k) (bpy_data_objects h')))
                      cname;
                  ob_data := Some (List.length (bpy_data_meshes h) + k);
                  ob_location := (Z.of_nat x, Z.of_nat y, 0%Z);
                  ob_parent := Some parent |}.
Proof.
  intros filename struse_nodes parent Hfile Hwf Hp Hm Hme Hc.
  destruct (read_pixel_art_scene filepath use_nodes reuse_materials
              material_name cube_name mesh_name parent_name img Hwf Hp Hm Hme
              Hc h Hfile)
    as (pname & st & hmid & _ & E & _ & S).
  exists (released (List.length (bpy_data_images h)) hmid).
  split; [exact E|]. intros k x y Hk.
  destruct S as [_ _ _ _ _ Scu _ _ _ _].
  destruct (Scu k (x, y) Hk) as (cname & _ & _ & Fc & _ & _ & O & _).
  exists cname. split; [exact Fc|].
  cbn [released bpy_data_objects]. cbv zeta in O.
  cbn [with_parent loaded bpy_data_objects bpy_data_meshes fst snd] in O.
  rewrite length_app in O. cbn [List.length] in O.
  replace (S parent + k) with (List.length (bpy_data_objects h) + 1 + k)
    by (unfold parent; lia).
  exact O.
Qed.

Lemma cube_of_each_visible_pixel_witness :
  find_file "/tmp/img.png" (files (empty_host [("/tmp/img.png", rgba_2x2)]))
  = Some rgba_2x2 /\
  well_formed rgba_2x2 /\
  exists h',
    read_pixel_art (P := plain_objects) (N := numbered_names)
                   "/tmp/img.png" true false MATERIAL_NAME CUBE_NAME MESH_NAME
                   PARENT_NAME (empty_host [("/tmp/img.png", rgba_2x2)])
    = (Return FINISHED, h') /\
    forall k x y,
      nth_error [(0, 0); (0, 1); (1, 1)] k = Some (x, y) ->
      exists cname,
        format (P := plain_objects) CUBE_NAME
               (pixel_params "img.png" (strcolor_of (color_at rgba_2x2 x y)) x y
                             "nodes") = Done cname /\
        nth_error (bpy_data_objects h') (1 + k)
        = Some {| ob_name :=
                    @unique_name numbered_names
                      (map ob_name (firstn (1 + k) (bpy_data_objects h')))
                      cname;
                  ob_data := Some (0 + k);
                  ob_location := (Z.of_nat x, Z.of_nat y, 0%Z);
                  ob_parent := Some 0 |}.
Proof.
  split; [reflexivity|]. split; [exact rgba_2x2_well_formed|].
  exact (cube_of_each_visible_pixel (P := plain_objects)
           (N := numbered_names)
           "/tmp/img.png" true false MATERIAL_NAME CUBE_NAME MESH_NAME
           PARENT_NAME rgba_2x2 (empty_host [("/tmp/img.png", rgba_2x2)])
           eq_refl rgba_2x2_well_formed
           (default_parent_name_renders _ _)
           (default_material_name_renders _ _)
           (default_mesh_name_renders _ _)
           (default_cube_name_renders _ _)).
Defined.

(** X3.  The [k]-th mesh of the run, which is the data of the cube of the
    [k]-th pixel that is not skipped, is the unit cube of the script (its
    eight vertices, its six faces, no edges given), updated, with exactly
    one material slot; the slot holds a material that exists.  The mesh is
    named from [mesh_name] as the cube is from [cube_name]. *)
Theorem mesh_of_each_cube {P : ObjectProtocol} {N : Naming}
        (filepath : string) (use_nodes reuse_materials : bool)
        (material_name cube_name mesh_name parent_name : string)
        (img : image) (h : host) :
  let filename := path_tail filepath in
  let struse_nodes := if use_nodes then "nodes" else "" in
  find_file filepath (files h) = Some img ->
  well_formed img ->
  renders_group parent_name filename struse_nodes ->
  renders material_name filename struse_nodes ->
  renders mesh_name filename struse_nodes ->
  renders cube_name filename struse_nodes ->
  exists h',
    read_pixel_art filepath use_nodes reuse_materials material_name cube_name
                   mesh_name parent_name h = (Return FINISHED, h') /\
    forall k x y,
      nth_error (visible img (coords (width img) (height img))) k = Some (x, y) ->
      let me := List.length (bpy_data_meshes h) + k in
      exists mname m d,
        format mesh_name
               (pixel_params filename (strcolor_of (color_at img x y)) x y
                             struse_nodes) = Done mname /\
        nth_error (bpy_data_meshes h') me
        = Some {| me_name :=
                    unique_name (map me_name (firstn me (bpy_data_meshes h')))
                                mname;
                  me_vertices :=
                    [ (0, 0, 0); (1, 0, 0); (1, 1, 0); (0, 1, 0);
                      (0, 0, 1); (1, 0, 1); (1, 1, 1); (0, 1, 1) ]%Z;
                  me_edges := [];
                  me_faces :=
                    [ [0; 1; 2; 3]; [0; 1; 5; 4]; [1; 2; 6; 5];
                      [4; 5; 6; 7]; [2; 3; 7; 6]; [0; 3; 7; 4] ];
                  me_materials := [m];
                  me_updated := true |} /\
        nth_error (bpy_data_materials h') m = Some d.
Proof.
  intros filename struse_nodes Hfile Hwf Hp Hm Hme Hc.
  destruct (read_pixel_art_scene filepath use_nodes reuse_materials
              material_name cube_name mesh_name parent_name img Hwf Hp Hm Hme
              Hc h Hfile)
    as (pname & st & hmid & _ & E & _ & S).
  exists (released (List.length (bpy_data_images h)) hmid).
  split; [exact E|]. intros k x y Hk me.
  destruct S as [_ _ _ _ _ Scu _ _ Se _].
  destruct (Scu k (x, y) Hk) as (_ & mname & m & _ & Fm & G & _ & M).
  destruct (cache_get_entry _ _ _ G) as (c0 & Hin & _).
  destruct (Se c0 m Hin) as (d & Hd & _).
  exists mname, m, d. split; [exact Fm|].
  cbn [released bpy_data_meshes bpy_data_materials].
  split; [exact M | exact Hd].
Qed.

Lemma mesh_of_each_cube_witness :
  find_file "/tmp/img.png" (files (empty_host [("/tmp/img.png", rgba_2x2)]))
  = Some rgba_2x2 /\
  well_formed rgba_2x2 /\
  exists h',
    read_pixel_art (P := plain_objects) (N := numbered_names)
                   "/tmp/img.png" true false MATERIAL_NAME CUBE_NAME MESH_NAME
                   PARENT_NAME (empty_host [("/tmp/img.png", rgba_2x2)])
    = (Return FINISHED, h') /\
    forall k x y,
      nth_error [(0, 0); (0, 1); (1, 1)] k = Some (x, y) ->
      exists mname m d,
        format (P := plain_objects) MESH_NAME
               (pixel_params "img.png" (strcolor_of (color_at rgba_2x2 x y)) x y
                             "nodes") = Done mname /\
        nth_error (bpy_data_meshes h') (0 + k)
        = Some {| me_name :=
                    @unique_name numbered_names
                      (map me_name (firstn (0 + k) (bpy_data_meshes h'))) mname;
                  me_vertices := cube_verts;
                  me_edges := cube_edges;
                  me_faces := cube_faces;
                  me_materials := [m];
                  me_updated := true |} /\
        nth_error (bpy_data_materials h') m = Some d.
Proof.
  split; [reflexivity|]. split; [exact rgba_2x2_well_formed|].
  exact (mesh_of_each_cube (P := plain_objects) (N := numbered_names)
           "/tmp/img.png" true false MATERIAL_NAME CUBE_NAME MESH_NAME
           PARENT_NAME rgba_2x2 (empty_host [("/tmp/img.png", rgba_2x2)])
           eq_refl rgba_2x2_well_formed
           (default_parent_name_renders _ _)
           (default_material_name_renders _ _)
           (default_mesh_name_renders _ _)
           (default_cube_name_renders _ _)).
Defined.

(** X4.  The parent is the first object the run creates: an empty (no
    data) at the origin, without a parent, named as the host names an object
    for which [parent_name] formatted with the file name and the node
    setting is asked.  The active collection gains exactly the objects the
    run creates, the parent and the cubes, each linked once, in the order of
    their creation. *)
Theorem parent_and_collection {P : ObjectProtocol} {N : Naming}
        (filepath : string) (use_nodes reuse_materials : bool)
        (material_name cube_name mesh_name parent_name : string)
        (img : image) (h : host) :
  let filename := path_tail filepath in
  let struse_nodes := if use_nodes then "nodes" else "" in
  let parent := List.length (bpy_data_objects h) in
  find_file filepath (files h) = Some img ->
  well_formed img ->
  renders_group parent_name filename struse_nodes ->
  renders material_name filename struse_nodes ->
  renders mesh_name filename struse_nodes ->
  renders cube_name filename struse_nodes ->
  exists h' pname,
    read_pixel_art filepath use_nodes reuse_materials material_name cube_name
                   mesh_name parent_name h = (Return FINISHED, h') /\
    format parent_name (group_params filename struse_nodes) = Done pname /\
    nth_error (bpy_data_objects h') parent
    = Some {| ob_name := unique_name (map ob_name (bpy_data_objects h)) pname;
              ob_data := None; ob_location := (0, 0, 0)%Z;
              ob_parent := None |} /\
    parent < List.length (bpy_data_objects h') /\
    bpy_context_collection_objects h'
    = bpy_context_collection_objects h ++
      seq parent (List.length (bpy_data_objects h') - parent).
Proof.
  intros filename struse_nodes parent Hfile Hwf Hp Hm Hme Hc.
  destruct (read_pixel_art_scene filepath use_nodes reuse_materials
              material_name cube_name mesh_name parent_name img Hwf Hp Hm Hme
              Hc h Hfile)
    as (pname & st & hmid & Fp & E & I & S).
  exists (released (List.length (bpy_data_images h)) hmid), pname.
  split; [exact E|]. split; [exact Fp|].
  destruct I as [(cubes & Eo & _) _ _ _].
  destruct S as [_ _ So _ Sc _ _ _ _ _].
  cbn [released bpy_data_objects bpy_context_collection_objects].
  cbn [with_parent loaded bpy_data_objects bpy_context_collection_objects]
    in Eo, So, Sc.
  rewrite length_app in So, Sc. cbn [List.length] in So, Sc.
  split.
  { rewrite Eo, <- app_assoc. cbn [app].
    rewrite nth_error_app2 by apply Nat.le_refl.
    unfold parent. rewrite Nat.sub_diag. reflexivity. }
  split; [unfold parent; lia|].
  rewrite Sc, So, <- app_assoc. cbn [app]. f_equal.
  replace (List.length (bpy_data_objects h) + 1 +
           List.length (visible img (coords (width img) (height img))) - parent)
    with (S (List.length (visible img (coords (width img) (height img)))))
    by (unfold parent; lia).
  cbn [seq]. unfold parent.
  replace (List.length (bpy_data_objects h) + 1)
    with (S (List.length (bpy_data_objects h))) by lia.
  reflexivity.
Qed.

Lemma parent_and_collection_witness :
  find_file "/tmp/img.png" (files (empty_host [("/tmp/img.png", rgba_2x2)]))
  = Some rgba_2x2 /\
  well_formed rgba_2x2 /\
  exists h' pname,
    read_pixel_art (P := plain_objects) (N := numbered_names)
                   "/tmp/img.png" true false MATERIAL_NAME CUBE_NAME MESH_NAME
                   PARENT_NAME (empty_host [("/tmp/img.png", rgba_2x2)])
    = (Return FINISHED, h') /\
    format (P := plain_objects) PARENT_NAME (group_params "img.png" "nodes")
    = Done pname /\
    nth_error (bpy_data_objects h') 0
    = Some {| ob_name := @unique_name numbered_names [] pname;
              ob_data := None; ob_location := (0, 0, 0)%Z;
              ob_parent := None |} /\
    0 < List.length (bpy_data_objects h') /\
    bpy_context_collection_objects h'
    = seq 0 (List.length (bpy_data_objects h') - 0).
Proof.
  split; [reflexivity|]. split; [exact rgba_2x2_well_formed|].
  exact (parent_and_collection (P := plain_objects) (N := numbered_names)
           "/tmp/img.png" true false MATERIAL_NAME CUBE_NAME MESH_NAME
           PARENT_NAME rgba_2x2 (empty_host [("/tmp/img.png", rgba_2x2)])
           eq_refl rgba_2x2_well_formed
           (default_parent_name_renders _ _)
           (default_material_name_renders _ _)
           (default_mesh_name_renders _ _)
           (default_cube_name_renders _ _)).
Defined.

(** ** The colours of the materials *)

(** X5.  With [reuse_materials] off, the material of the cube of every
    pixel that is not skipped was created by this run, and it carries the
    pixel's colour: its [diffuse_color] equals the pixel's [(r, g, b, a)]
    channel by channel, its [use_nodes] is the setting, and its node tree is
    the graph built for that colour (no tree when nodes are off). *)
Theorem materials_carry_pixel_colors {P : ObjectProtocol} {N : Naming}
        (filepath : string) (use_nodes : bool)
        (material_name cube_name mesh_name parent_name : string)
        (img : image) (h : host) :
  let filename := path_tail filepath in
  let struse_nodes := if use_nodes then "nodes" else "" in
  let parent := List.length (bpy_data_objects h) in
  find_file filepath (files h) = Some img ->
  well_formed img ->
  renders_group parent_name filename struse_nodes ->
  renders material_name filename struse_nodes ->
  renders mesh_name filename struse_nodes ->
  renders cube_name filename struse_nodes ->
  exists h',
    read_pixel_art filepath use_nodes false material_name cube_name
                   mesh_name parent_name h = (Return FINISHED, h') /\
    forall x y,
      x < width img -> y < height img -> skipped img (x, y) = false ->
      exists m d,
        material_at h' parent x y = Some m /\
        List.length (bpy_data_materials h) <= m /\
        nth_error (bpy_data_materials h') m = Some d /\
        color_eqb (ma_diffuse_color d) (color_at img x y) = true /\
        ma_use_nodes d = use_nodes /\
        ma_node_tree d
        = (if use_nodes
           then Some (shader_graph (ma_diffuse_color d)
                                   (alpha (ma_diffuse_color d)))
           else None).
Proof.
  intros filename struse_nodes parent Hfile Hwf Hp Hm Hme Hc.
  destruct (read_pixel_art_scene filepath use_nodes false
              material_name cube_name mesh_name parent_name img Hwf Hp Hm Hme
              Hc h Hfile)
    as (pname & st & hmid & _ & E & I & S).
  exists (released (List.length (bpy_data_images h)) hmid).
  split; [exact E|]. intros x y Hx Hy Hs.
  destruct I as [(cubes & Eo & F) _ _ _].
  destruct S as [_ _ _ _ _ _ _ _ Se _].
  destruct (cube_found _ _ _ _ _ _ x y F (visible_in img x y Hx Hy Hs))
    as (ob & Hf & (_ & _ & m & Hmo & Hg)).
  cbn [fst snd] in Hg.
  destruct (cache_get_entry _ _ _ Hg) as (c0 & Hin & Hc0).
  destruct (Se c0 m Hin) as (d & Hd & Hfresh).
  destruct (Hfresh eq_refl) as (Hge & name & ->).
  exists m, (fresh_material name use_nodes c0 (alpha c0)).
  cbn [with_parent loaded bpy_data_objects bpy_data_materials] in Eo, Hge.
  subst parent.
  assert (Hskip : skipn (S (List.length (bpy_data_objects h)))
                        (bpy_data_objects hmid) = cubes)
    by (rewrite Eo, <- app_assoc; apply skipn_past).
  unfold material_at, cube_at.
  cbn [released bpy_data_objects bpy_data_materials].
  rewrite Hskip, Hf.
  split; [exact Hmo|]. split; [exact Hge|]. split; [exact Hd|].
  cbn [fresh_material ma_diffuse_color ma_use_nodes ma_node_tree].
  repeat split. exact Hc0.
Qed.

Lemma materials_carry_pixel_colors_witness :
  find_file "/tmp/img.png" (files (empty_host [("/tmp/img.png", rgba_2x2)]))
  = Some rgba_2x2 /\
  well_formed rgba_2x2 /\
  exists h',
    read_pixel_art (P := plain_objects) (N := numbered_names)
                   "/tmp/img.png" true false MATERIAL_NAME CUBE_NAME MESH_NAME
                   PARENT_NAME (empty_host [("/tmp/img.png", rgba_2x2)])
    = (Return FINISHED, h') /\
    forall x y,
      x < 2 -> y < 2 -> skipped rgba_2x2 (x, y) = false ->
      exists m d,
        material_at h' 0 x y = Some m /\
        0 <= m /\
        nth_error (bpy_data_materials h') m = Some d /\
        color_eqb (ma_diffuse_color d) (color_at rgba_2x2 x y) = true /\
        ma_use_nodes d = true /\
        ma_node_tree d
        = Some (shader_graph (ma_diffuse_color d) (alpha (ma_diffuse_color d))).
Proof.
  split; [reflexivity|]. split; [exact rgba_2x2_well_formed|].
  exact (materials_carry_pixel_colors (P := plain_objects)
           (N := numbered_names)
           "/tmp/img.png" true MATERIAL_NAME CUBE_NAME MESH_NAME
           PARENT_NAME rgba_2x2 (empty_host [("/tmp/img.png", rgba_2x2)])
           eq_refl rgba_2x2_well_formed
           (default_parent_name_renders _ _)
           (default_material_name_renders _ _)
           (default_mesh_name_renders _ _)
           (default_cube_name_renders _ _)).
Defined.

(** ** The materials a run creates *)

Lemma visible_pixel (img : image) (x y : nat) :
  In (x, y) (visible img (coords (width img) (height img))) ->
  x < width img /\ y < height img /\ skipped img (x, y) = false.
Proof.
  unfold visible. intros H. apply filter_In in H. destruct H as [Hc Hs].
  apply in_coords in Hc. cbn [fst snd] in Hc.
  destruct (skipped img (x, y)); [discriminate|]. tauto.
Qed.

(** X6.  Every material a run creates, in either value of
    [reuse_materials], is made for a pixel [(x, y)] that is not skipped: it
    is named as the host names a material for which [material_name]
    formatted at that pixel is asked, given the names of the materials before
    it; its [diffuse_color] is the pixel's [(r, g, b, a)]; its [use_nodes] is
    the setting; and its node tree is the graph built for that colour, or
    none when nodes are off. *)
Theorem created_materials_follow_the_template
        {P : ObjectProtocol} {N : Naming}
        (filepath : string) (use_nodes reuse_materials : bool)
        (material_name cube_name mesh_name parent_name : string)
        (img : image) (h : host) :
  let filename := path_tail filepath in
  let struse_nodes := if use_nodes then "nodes" else "" in
  find_file filepath (files h) = Some img ->
  well_formed img ->
  renders_group parent_name filename struse_nodes ->
  renders material_name filename struse_nodes ->
  renders mesh_name filename struse_nodes ->
  renders cube_name filename struse_nodes ->
  exists h',
    read_pixel_art filepath use_nodes reuse_materials material_name cube_name
                   mesh_name parent_name h = (Return FINISHED, h') /\
    forall j d,
      let i := List.length (bpy_data_materials h) + j in
      nth_error (bpy_data_materials h') i = Some d ->
      exists x y name,
        x < width img /\ y < height img /\ skipped img (x, y) = false /\
        format material_name
               (pixel_params filename (strcolor_of (color_at img x y)) x y
                             struse_nodes) = Done name /\
        d = {| ma_name :=
                 unique_name (map ma_name (firstn i (bpy_data_materials h')))
                             name;
               ma_diffuse_color := color_at img x y;
               ma_use_nodes := use_nodes;
               ma_node_tree :=
                 if use_nodes
                 then Some (shader_graph (color_at img x y)
                                         (alpha (color_at img x y)))
                 else None |}.
Proof.
  intros filename struse_nodes Hfile Hwf Hp Hm Hme Hc.
  destruct (read_pixel_art_scene filepath use_nodes reuse_materials
              material_name cube_name mesh_name parent_name img Hwf Hp Hm Hme
              Hc h Hfile)
    as (pname & st & hmid & _ & E & _ & S).
  exists (released (List.length (bpy_data_images h)) hmid).
  split; [exact E|]. intros j d i Hd. subst i.
  destruct S as [_ _ _ _ _ _ _ _ _ Scr].
  cbn [released bpy_data_materials] in *.
  destruct (Scr j d Hd) as (x & y & name & Hin & F & D & _).
  destruct (visible_pixel img x y Hin) as (Hx & Hy & Hs).
  exists x, y, name. repeat split; auto.
Qed.

Lemma created_materials_follow_the_template_witness :
  let h := empty_host [("/tmp/img.png", rgba_2x2)] in
  find_file "/tmp/img.png" (files h) = Some rgba_2x2 /\
  well_formed rgba_2x2 /\
  exists h',
    read_pixel_art (P := plain_objects) (N := numbered_names)
                   "/tmp/img.png" true true MATERIAL_NAME CUBE_NAME MESH_NAME
                   PARENT_NAME h = (Return FINISHED, h') /\
    forall j d,
      nth_error (bpy_data_materials h') (0 + j) = Some d ->
      exists x y name,
        x < 2 /\ y < 2 /\ skipped rgba_2x2 (x, y) = false /\
        format (P := plain_objects) MATERIAL_NAME
               (pixel_params "img.png" (strcolor_of (color_at rgba_2x2 x y)) x y
                             "nodes") = Done name /\
        d = {| ma_name :=
                 @unique_name numbered_names
                   (map ma_name (firstn (0 + j) (bpy_data_materials h'))) name;
               ma_diffuse_color := color_at rgba_2x2 x y;
               ma_use_nodes := true;
               ma_node_tree :=
                 Some (shader_graph (color_at rgba_2x2 x y)
                                    (alpha (color_at rgba_2x2 x y))) |}.
Proof.
  intros h. split; [reflexivity|]. split; [exact rgba_2x2_well_formed|].
  exact (created_materials_follow_the_template (P := plain_objects)
           (N := numbered_names)
           "/tmp/img.png" true true MATERIAL_NAME CUBE_NAME MESH_NAME
           PARENT_NAME rgba_2x2 h eq_refl rgba_2x2_well_formed
           (default_parent_name_renders _ _)
           (default_material_name_renders _ _)
           (default_mesh_name_renders _ _)
           (default_cube_name_renders _ _)).
Defined.

(** X7.  With [reuse_materials] on, when [bpy.data.materials] already
    holds, for every pixel that is not skipped, a material under the name
    [material_name] formats to at that pixel, the run finishes, creates its
    cubes, and leaves [bpy.data.materials] exactly as it was: no material is
    created and none is changed. *)
Theorem reuse_finds_every_material {P : ObjectProtocol} {N : Naming}
        (filepath : string) (use_nodes : bool)
        (material_name cube_name mesh_name parent_name : string)
        (img : image) (h : host) :
  let filename := path_tail filepath in
  let struse_nodes := if use_nodes then "nodes" else "" in
  find_file filepath (files h) = Some img ->
  well_formed img ->
  renders_group parent_name filename struse_nodes ->
  renders material_name filename struse_nodes ->
  renders mesh_name filename struse_nodes ->
  renders cube_name filename struse_nodes ->
  (forall x y,
      x < width img -> y < height img -> skipped img (x, y) = false ->
      exists name d,
        format material_name
               (pixel_params filename (strcolor_of (color_at img x y)) x y
                             struse_nodes) = Done name /\
        In d (bpy_data_materials h) /\ ma_name d = name) ->
  exists h',
    read_pixel_art filepath use_nodes true material_name cube_name
                   mesh_name parent_name h = (Return FINISHED, h') /\
    bpy_data_materials h' = bpy_data_materials h /\
    List.length (bpy_data_objects h')
    = List.length (bpy_data_objects h) + 1
      + List.length (visible img (coords (width img) (height img))).
Proof.
  intros filename struse_nodes Hfile Hwf Hp Hm Hme Hc Hold.
  destruct (read_pixel_art_scene filepath use_nodes true
              material_name cube_name mesh_name parent_name img Hwf Hp Hm Hme
              Hc h Hfile)
    as (pname & st & hmid & _ & E & _ & S).
  exists (released (List.length (bpy_data_images h)) hmid).
  split; [exact E|].
  destruct S as [_ _ So _ _ _ _ (new & En & _) _ Scr].
  cbn [released bpy_data_materials bpy_data_objects].
  cbn [with_parent loaded bpy_data_materials bpy_data_objects] in *.
  rewrite length_app in So. cbn [List.length] in So.
  split; [|exact So].
  destruct new as [|d new]; [now rewrite app_nil_r in En|]. exfalso.
  assert (Hd : nth_error (bpy_data_materials hmid)
                         (List.length (bpy_data_materials h) + 0) = Some d).
  { rewrite En, Nat.add_0_r, nth_error_app2 by apply Nat.le_refl.
    now rewrite Nat.sub_diag. }
  destruct (Scr 0 d Hd) as (x & y & name & Hin & F & _ & Hnone).
  specialize (Hnone eq_refl).
  rewrite En, Nat.add_0_r, firstn_whole in Hnone.
  destruct (visible_pixel img x y Hin) as (Hx & Hy & Hs).
  destruct (Hold x y Hx Hy Hs) as (name' & d' & F' & Hd' & Hname).
  unfold params_at in F. cbn [fst snd] in F.
  fold filename in F. fold struse_nodes in F.
  rewrite F in F'. injection F' as <-.
  destruct (index_of_exists (named name) (bpy_data_materials h) 0 d' Hd')
    as [k Hk]; [unfold named; now apply String.eqb_eq|].
  congruence.
Qed.

Lemma reuse_finds_every_material_witness :
  find_file "red.png" (files host_with_red) = Some red_1x1 /\
  well_formed red_1x1 /\
  exists h',
    read_pixel_art (P := plain_objects) (N := numbered_names)
                   "red.png" true true MATERIAL_NAME CUBE_NAME MESH_NAME
                   PARENT_NAME host_with_red = (Return FINISHED, h') /\
    bpy_data_materials h' = bpy_data_materials host_with_red /\
    List.length (bpy_data_objects h') = 0 + 1 + 1.
Proof.
  assert (Hwf : well_formed red_1x1) by (split; [simpl; auto | reflexivity]).
  split; [reflexivity|]. split; [exact Hwf|].
  refine (reuse_finds_every_material (P := plain_objects)
            (N := numbered_names)
            "red.png" true MATERIAL_NAME CUBE_NAME MESH_NAME PARENT_NAME
            red_1x1 host_with_red eq_refl Hwf
            (default_parent_name_renders _ _)
            (default_material_name_renders _ _)
            (default_mesh_name_renders _ _)
            (default_cube_name_renders _ _) _).
  intros x y Hx Hy _.
  assert (x = 0) by (unfold width in Hx; simpl in Hx; lia).
  assert (y = 0) by (unfold height in Hy; simpl in Hy; lia).
  subst x y. eexists. eexists. split; [reflexivity|].
  split; [left; reflexivity | reflexivity].
Defined.

(** ** An image without pixels *)

Lemma loops_over_nothing {S : Type} (body : nat -> nat -> S -> M S)
      (w hgt : nat) (s : S) (h : host) :
  w = 0 \/ hgt = 0 ->
  for_range hgt (fun y st => for_range w (body y) st) s h = (Return s, h).
Proof.
  intros [->| ->]; [|reflexivity]. unfold for_range. cbn [seq].
  generalize (seq 0 hgt). intros ys. induction ys as [|y ys IH]; simpl;
    [reflexivity|].
  unfold bind, ret at 1. exact IH.
Qed.

(** X8.  On an image of width or height 0, with a supported channel count
    and a parent template that formats, the run finishes having created the
    parent and nothing else: no cube, no mesh, no material.  Neither the
    pixel buffer nor the other three templates are looked at. *)
Theorem empty_image_gives_only_the_parent {P : ObjectProtocol} {N : Naming}
        (filepath : string) (use_nodes reuse_materials : bool)
        (material_name cube_name mesh_name parent_name : string)
        (img : image) (h : host) (pname : string) :
  find_file filepath (files h) = Some img ->
  In (im_channels img) [1; 3; 4] ->
  width img = 0 \/ height img = 0 ->
  format parent_name
         (group_params (path_tail filepath)
                       (if use_nodes then "nodes" else "")) = Done pname ->
  exists h',
    read_pixel_art filepath use_nodes reuse_materials material_name cube_name
                   mesh_name parent_name h = (Return FINISHED, h') /\
    bpy_data_objects h'
    = bpy_data_objects h ++
      [ {| ob_name := unique_name (map ob_name (bpy_data_objects h)) pname;
           ob_data := None; ob_location := (0, 0, 0)%Z; ob_parent := None |} ] /\
    bpy_context_collection_objects h'
    = bpy_context_collection_objects h ++ [List.length (bpy_data_objects h)] /\
    bpy_data_meshes h' = bpy_data_meshes h /\
    bpy_data_materials h' = bpy_data_materials h.
Proof.
  intros Hfile Hin Hempty Fp.
  rewrite (read_pixel_art_loaded _ _ _ _ _ _ _ img h Hfile).
  rewrite (convert_unfold _ _ _ _ _ _ _ _ _ img (loaded filepath img h)
             (nth_error_app_last (bpy_data_images h) (Some img))).
  assert (Hch : existsb (Nat.eqb (im_channels img)) [1; 3; 4] = true).
  { simpl in Hin. destruct Hin as [<-|[<-|[<-|[]]]]; reflexivity. }
  rewrite Hch, Fp. cbn [negb].
  rewrite loops_over_nothing by exact Hempty.
  eexists. split; [reflexivity|]. repeat split.
Qed.

Lemma empty_image_gives_only_the_parent_witness :
  let img := {| im_channels := 4; im_size := (0, 3); im_pixels := [] |} in
  let h := empty_host [("/tmp/none.png", img)] in
  find_file "/tmp/none.png" (files h) = Some img /\
  exists h',
    read_pixel_art (P := plain_objects) (N := numbered_names)
                   "/tmp/none.png" true false "{bogus}" "{" "}" PARENT_NAME h
    = (Return FINISHED, h') /\
    bpy_data_objects h'
    = [ {| ob_name := @unique_name numbered_names [] "none.png";
           ob_data := None; ob_location := (0, 0, 0)%Z; ob_parent := None |} ] /\
    bpy_context_collection_objects h' = [0] /\
    bpy_data_meshes h' = [] /\
    bpy_data_materials h' = [].
Proof.
  intros img h. split; [reflexivity|].
  exact (empty_image_gives_only_the_parent (P := plain_objects)
           (N := numbered_names)
           "/tmp/none.png" true false "{bogus}" "{" "}" PARENT_NAME img h
           "none.png" eq_refl (or_intror (or_intror (or_introl eq_refl)))
           (or_introl eq_refl) eq_refl).
Defined.

(** ** What a finished run has gone through *)

Lemma for_each_returned {I S : Type} (Inv : S -> Prop) (Q : I -> Prop)
      (body : I -> S -> M S) (xs : list I) :
  (forall i s h s' h',
      In i xs -> Inv s -> body i s h = (Return s', h') -> Inv s' /\ Q i) ->
  forall s h s' h',
    Inv s -> for_each xs body s h = (Return s', h') ->
    Inv s' /\ Forall Q xs.
Proof.
  induction xs as [|i xs IH]; intros Hb s h s' h' Hi E; simpl in E.
  - injection E as <- <-. split; [exact Hi | constructor].
  - unfold bind in E. destruct (body i s h) as [[s1|e] h1] eqn:B; [|discriminate].
    destruct (Hb i s h s1 h1 (or_introl eq_refl) Hi B) as [Hi1 Hq].
    destruct (IH (fun j s0 h0 s2 h2 Hj => Hb j s0 h0 s2 h2 (or_intror Hj))
                 s1 h1 s' h' Hi1 E) as [Hi' Hall].
    split; [exact Hi' | constructor; assumption].
Qed.

(** When the two loops return, every iteration has returned. *)
Lemma pixel_loops_returned {S : Type} (Inv : S -> Prop) (Q : nat -> nat -> Prop)
      (body : nat -> nat -> S -> M S) (w hgt : nat) :
  (forall x y s h s' h',
      x < w -> y < hgt -> Inv s -> body y x s h = (Return s', h') ->
      Inv s' /\ Q x y) ->
  forall s h s' h',
    Inv s ->
    for_range hgt (fun y st => for_range w (body y) st) s h = (Return s', h') ->
    Inv s' /\ forall x y, x < w -> y < hgt -> Q x y.
Proof.
  intros Hb s h s' h' Hi E. unfold for_range in E.
  destruct (for_each_returned Inv (fun y => Forall (fun x => Q x y) (seq 0 w))
              (fun y st => for_each (seq 0 w) (body y) st) (seq 0 hgt))
    with (s := s) (h := h) (s' := s') (h' := h') as [Hi' Hall]; auto.
  - intros y s0 h0 s1 h1 Hy Hi0 E0. apply in_seq in Hy.
    apply (for_each_returned Inv (fun x => Q x y) (body y) (seq 0 w))
      with (s := s0) (h := h0) (s' := s1) (h' := h1); auto.
    intros x s2 h2 s3 h3 Hx Hi2 E2. apply in_seq in Hx.
    apply (Hb x y s2 h2 s3 h3); auto; lia.
  - split; [exact Hi'|]. intros x y Hx Hy.
    rewrite Forall_forall in Hall.
    assert (Hrow := Hall y ltac:(apply in_seq; lia)).
    rewrite Forall_forall in Hrow. apply Hrow. apply in_seq. lia.
Qed.

Section Returned.
Context {P : ObjectProtocol} {N : Naming}.
Variables (use_nodes reuse_materials : bool).
Variables (material_name cube_name mesh_name : string).
Variables (filename struse_nodes : string).

(** [place] returns only when its three templates have formatted; the
    alpha it leaves in the locals is the one it was given. *)
Lemma place_outcome parent y x r g b al materials h :
  match place use_nodes reuse_materials material_name cube_name mesh_name
              filename struse_nodes parent y x r g b al materials h with
  | (Return st', _) =>
      a st' = al /\
      exists name mname cname,
        format material_name
               (pixel_params filename (strcolor_of (r, g, b, al)) x y
                             struse_nodes) = Done name /\
        format mesh_name
               (pixel_params filename (strcolor_of (r, g, b, al)) x y
                             struse_nodes) = Done mname /\
        format cube_name
               (pixel_params filename (strcolor_of (r, g, b, al)) x y
                             struse_nodes) = Done cname
  | (Raise _, _) => True
  end.
Proof.
  destruct h as [fs ims mats mes obs col tr].
  unfold place, format_m. cbv zeta.
  destruct (format material_name _) as [name|e1]; [|exact I].
  destruct (format mesh_name _) as [mname|e2];
    destruct (format cube_name _) as [cname|e3];
    (destruct (cache_get (r, g, b, al) materials) as [m|];
     [ run_host
     | destruct reuse_materials;
       [ unfold materials_get; run_host;
         destruct (index_of _ mats 0) as [m|];
         [ run_host
         | run_host; rewrite create_material_runs; run_host ]
       | run_host; rewrite create_material_runs; run_host ] ]);
    first [ exact I
          | split; [reflexivity|]; do 3 eexists; repeat split; reflexivity ].
Qed.

(** An iteration returns only when the samples of its pixel lie inside the
    buffer and, unless the pixel is skipped, the three templates format. *)
Lemma pixel_returned (img : image) (parent x y : nat) (st st' : locals)
      (h h' : host) :
  In (im_channels img) [1; 3; 4] ->
  (im_channels img <> 4 -> a st = 1%Q) ->
  pixel use_nodes reuse_materials material_name cube_name mesh_name filename
        struse_nodes parent (im_channels img) (im_pixels img)
        y (y * im_channels img * width img) x st h = (Return st', h') ->
  (im_channels img <> 4 -> a st' = 1%Q) /\
  (y * im_channels img * width img + x * im_channels img + im_channels img
   <= List.length (im_pixels img) /\
   (skipped img (x, y) = false ->
    formats_at material_name cube_name mesh_name filename struse_nodes
               img x y)).
Proof.
  intros Hin Ha E. unfold formats_at, params_at, skipped, color_at, sample_at.
  cbn [fst snd]. simpl in Hin.
  destruct Hin as [Hc|[Hc|[Hc|[]]]]; rewrite <- Hc in *; unfold pixel in E.
  - change (Nat.eqb 1 1) with true in *. cbv iota zeta in *.
    unfold bind, getitem in E.
    destruct (nth_error (im_pixels img) (y * 1 * width img + x)) as [v|] eqn:R0;
      [|discriminate].
    unfold ret in E.
    pose proof (place_outcome parent y x v v v (a st) (materials st) h) as O.
    rewrite E in O. destruct O as [Ha' O].
    rewrite (@nth_error_nth sample _ _ _ 0%Q R0), <- (Ha ltac:(discriminate)).
    split; [intros _; exact Ha'|].
    split; [|intros _; exact O].
    assert (y * 1 * width img + x < List.length (im_pixels img))
      by (apply nth_error_Some; congruence).
    lia.
  - change (Nat.eqb 3 1) with false in *. change (Nat.eqb 3 3) with true in *.
    cbv iota zeta in *. unfold bind, getitem in E.
    destruct (nth_error (im_pixels img) (y * 3 * width img + x * 3))
      as [r|] eqn:R0; [|discriminate].
    unfold ret in E.
    destruct (nth_error (im_pixels img) (y * 3 * width img + x * 3 + 1))
      as [g|] eqn:R1; [|discriminate].
    destruct (nth_error (im_pixels img) (y * 3 * width img + x * 3 + 2))
      as [b|] eqn:R2; [|discriminate].
    pose proof (place_outcome parent y x r g b (a st) (materials st) h) as O.
    rewrite E in O. destruct O as [Ha' O].
    rewrite (@nth_error_nth sample _ _ _ 0%Q R0), (@nth_error_nth sample _ _ _ 0%Q R1),
      (@nth_error_nth sample _ _ _ 0%Q R2), <- (Ha ltac:(discriminate)).
    split; [intros _; exact Ha'|].
    split; [|intros _; exact O].
    assert (y * 3 * width img + x * 3 + 2 < List.length (im_pixels img))
      by (apply nth_error_Some; congruence).
    lia.
  - change (Nat.eqb 4 1) with false in *. change (Nat.eqb 4 3) with false in *.
    cbv iota zeta in *. unfold bind, getitem in E.
    destruct (nth_error (im_pixels img) (y * 4 * width img + x * 4))
      as [r|] eqn:R0; [|discriminate].
    unfold ret in E.
    destruct (nth_error (im_pixels img) (y * 4 * width img + x * 4 + 1))
      as [g|] eqn:R1; [|discriminate].
    destruct (nth_error (im_pixels img) (y * 4 * width img + x * 4 + 2))
      as [b|] eqn:R2; [|discriminate].
    destruct (nth_error (im_pixels img) (y * 4 * width img + x * 4 + 3))
      as [al|] eqn:R3; [|discriminate].
    rewrite (@nth_error_nth sample _ _ _ 0%Q R0), (@nth_error_nth sample _ _ _ 0%Q R1),
      (@nth_error_nth sample _ _ _ 0%Q R2), (@nth_error_nth sample _ _ _ 0%Q R3).
    cbn [negb andb alpha].
    split; [intros Hne; now contradiction Hne|].
    split.
    { assert (y * 4 * width img + x * 4 + 3 < List.length (im_pixels img))
        by (apply nth_error_Some; congruence).
      lia. }
    destruct (Qeq_bool al 0) eqn:Q0; [discriminate|].
    intros _.
    pose proof (place_outcome parent y x r g b al (materials st) h) as O.
    rewrite E in O. destruct O as [_ O]. exact O.
Qed.

End Returned.

Lemma last_sample_index (w hgt c : nat) :
  0 < w -> 0 < hgt ->
  (hgt - 1) * c * w + (w - 1) * c + c = w * hgt * c.
Proof.
  intros Hw Hh. destruct w as [|w]; [lia|]. destruct hgt as [|hgt]; [lia|].
  replace (S hgt - 1) with hgt by lia. replace (S w - 1) with w by lia.
  ring.
Qed.

(** What a run that returns has gone through. *)
Lemma finished_run_conditions {P : ObjectProtocol} {N : Naming}
        (filepath : string) (use_nodes reuse_materials : bool)
        (material_name cube_name mesh_name parent_name : string)
        (h h' : host) :
  read_pixel_art filepath use_nodes reuse_materials material_name cube_name
                 mesh_name parent_name h = (Return FINISHED, h') ->
  exists img pname,
    find_file filepath (files h) = Some img /\
    In (im_channels img) [1; 3; 4] /\
    format parent_name
           (group_params (path_tail filepath)
                         (if use_nodes then "nodes" else "")) = Done pname /\
    width img * height img * im_channels img <= List.length (im_pixels img) /\
    forall x y,
      x < width img -> y < height img -> skipped img (x, y) = false ->
      exists name mname cname,
        format material_name
               (pixel_params (path_tail filepath)
                             (strcolor_of (color_at img x y)) x y
                             (if use_nodes then "nodes" else "")) = Done name /\
        format mesh_name
               (pixel_params (path_tail filepath)
                             (strcolor_of (color_at img x y)) x y
                             (if use_nodes then "nodes" else "")) = Done mname /\
        format cube_name
               (pixel_params (path_tail filepath)
                             (strcolor_of (color_at img x y)) x y
                             (if use_nodes then "nodes" else "")) = Done cname.
Proof.
  intros E.
  destruct (find_file filepath (files h)) as [img|] eqn:Hfile.
  2:{ unfold read_pixel_art, bind, images_load in E. rewrite Hfile in E.
      discriminate. }
  rewrite (read_pixel_art_loaded _ _ _ _ _ _ _ img h Hfile) in E.
  rewrite (convert_unfold _ _ _ _ _ _ _ _ _ img (loaded filepath img h)
             (nth_error_app_last (bpy_data_images h) (Some img))) in E.
  destruct (negb (existsb (Nat.eqb (im_channels img)) [1; 3; 4])) eqn:Hch;
    [discriminate|].
  destruct (format parent_name _) as [pname|e] eqn:Fp; [|discriminate].
  destruct (for_range _ _ _ _) as [[st|e] hl] eqn:L; [|discriminate].
  clear E.
  assert (Hin : In (im_channels img) [1; 3; 4]).
  { apply negb_false_iff, existsb_exists in Hch.
    destruct Hch as (c & Hc & Heq). apply Nat.eqb_eq in Heq. now rewrite Heq. }
  apply (pixel_loops_returned
           (fun s => im_channels img <> 4 -> a s = 1%Q)
           (fun x y =>
              y * im_channels img * width img + x * im_channels img
              + im_channels img <= List.length (im_pixels img) /\
              (skipped img (x, y) = false ->
               formats_at material_name cube_name mesh_name
                          (path_tail filepath)
                          (if use_nodes then "nodes" else "")%string img x y)))
    in L.
  - destruct L as [_ Hall]. exists img, pname.
    split; [reflexivity|]. split; [exact Hin|]. split; [reflexivity|]. split.
    + destruct (Nat.eq_dec (width img) 0) as [Hw|Hw]; [rewrite Hw; simpl; lia|].
      destruct (Nat.eq_dec (height img) 0) as [Hh|Hh];
        [rewrite Hh, Nat.mul_0_r; simpl; lia|].
      destruct (Hall (width img - 1) (height img - 1) ltac:(lia) ltac:(lia))
        as [Hb _].
      rewrite last_sample_index in Hb by lia. exact Hb.
    + intros x y Hx Hy Hs. destruct (Hall x y Hx Hy) as [_ Hf].
      exact (Hf Hs).
  - intros x y s h1 s' h1' Hx Hy Ha E.
    exact (pixel_returned _ _ _ _ _ _ _ img _ x y s s' h1 h1' Hin Ha E).
  - reflexivity.
Qed.


Section Enough.
Context {P : ObjectProtocol} {N : Naming}.
Variables (use_nodes reuse_materials : bool).
Variables (material_name cube_name mesh_name : string).
Variables (filename struse_nodes : string).
Variable img : image.

Hypothesis channels_ok : In (im_channels img) [1; 3; 4].
Hypothesis buffer_ok :
  width img * height img * im_channels img <= List.length (im_pixels img).

Ltac read_sample R k :=
  rewrite (bind_return _ _ _ _ _ (getitem_in_range _ _ _ (R k ltac:(lia)))).

(** [pixel_reads], for a buffer that is long enough. *)
Lemma pixel_reads_enough (parent x y : nat) (st : locals) (h : host) :
  x < width img -> y < height img ->
  (im_channels img <> 4 -> a st = 1%Q) ->
  pixel use_nodes reuse_materials material_name cube_name mesh_name filename
        struse_nodes parent (im_channels img) (im_pixels img)
        y (y * im_channels img * width img) x st h
  = if skipped img (x, y)
    then (Return {| a := alpha (color_at img x y); materials := materials st |}, h)
    else let '(r, g, b, al) := color_at img x y in
         place use_nodes reuse_materials material_name cube_name mesh_name
               filename struse_nodes parent y x r g b al (materials st) h.
Proof.
  intros Hx Hy Ha. pose proof channels_ok as Hin.
  assert (R : forall k, k < im_channels img ->
            y * im_channels img * width img + x * im_channels img + k
            < List.length (im_pixels img)).
  { intros k Hk. eapply Nat.lt_le_trans; [|exact buffer_ok].
    now apply sample_index_in_range. }
  unfold pixel, skipped, color_at, sample_at. simpl fst. simpl snd.
  simpl in Hin. destruct Hin as [Hc|[Hc|[Hc|[]]]]; rewrite <- Hc in *.
  - change (Nat.eqb 1 1) with true. cbv iota. simpl negb. simpl andb.
    cbv iota.
    assert (R0 : y * 1 * width img + x < List.length (im_pixels img))
      by (specialize (R 0); lia).
    rewrite (bind_return _ _ _ _ _ (getitem_in_range _ _ _ R0)).
    now rewrite Ha by discriminate.
  - change (Nat.eqb 3 1) with false. change (Nat.eqb 3 3) with true.
    cbv iota. simpl negb. simpl andb. cbv iota.
    assert (R0 : y * 3 * width img + x * 3 < List.length (im_pixels img))
      by (specialize (R 0); lia).
    rewrite (bind_return _ _ _ _ _ (getitem_in_range _ _ _ R0)).
    read_sample R 1. read_sample R 2.
    now rewrite Ha by discriminate.
  - change (Nat.eqb 4 1) with false. change (Nat.eqb 4 3) with false.
    cbv iota. simpl negb. simpl andb. simpl alpha.
    assert (R0 : y * 4 * width img + x * 4 < List.length (im_pixels img))
      by (specialize (R 0); lia).
    rewrite (bind_return _ _ _ _ _ (getitem_in_range _ _ _ R0)).
    read_sample R 1. read_sample R 2. read_sample R 3.
    destruct (Qeq_bool _ 0); reflexivity.
Qed.

Hypothesis templates_ok :
  forall x y,
    x < width img -> y < height img -> skipped img (x, y) = false ->
    formats_at material_name cube_name mesh_name filename struse_nodes img x y.

(** The loops return when the buffer is long enough and the templates
    format at the pixels that are not skipped. *)
Lemma loops_return (parent : nat) (h : host) :
  exists st h',
    for_range (height img)
      (fun y st =>
         for_range (width img)
           (pixel use_nodes reuse_materials material_name cube_name mesh_name
                  filename struse_nodes parent (im_channels img)
                  (im_pixels img) y (y * im_channels img * width img)) st)
      {| a := 1%Q; materials := [] |} h = (Return st, h').
Proof.
  destruct (pixel_loops_inv
              (fun _ s _ => im_channels img <> 4 -> a s = 1%Q)
              (fun y =>
                 pixel use_nodes reuse_materials material_name cube_name
                       mesh_name filename struse_nodes parent
                       (im_channels img) (im_pixels img) y
                       (y * im_channels img * width img))
              (width img) (height img))
    with (s := {| a := 1%Q; materials := [] |}) (h := h)
    as (st & h' & E & _).
  - intros done x y s h1 Hx Hy Ha.
    rewrite (pixel_reads_enough _ _ _ _ _ Hx Hy Ha).
    destruct (skipped img (x, y)) eqn:Sk.
    + eexists. eexists. split; [reflexivity|]. cbn [a].
      intros Hne. exfalso. apply Hne.
      unfold skipped in Sk. pose proof channels_ok as Hin. simpl in Hin.
      destruct Hin as [Hc|[Hc|[Hc|[]]]]; rewrite <- Hc in *;
        [discriminate Sk | discriminate Sk | reflexivity].
    + destruct (templates_ok x y Hx Hy Sk) as (name & mname & cname & Fn & Fm & Fc).
      unfold params_at in Fn, Fm, Fc. cbn [fst snd] in Fn, Fm, Fc.
      assert (Hal : im_channels img <> 4 -> alpha (color_at img x y) = 1%Q).
      { intros Hne. unfold color_at. pose proof channels_ok as Hin.
        simpl in Hin.
        destruct Hin as [Hc|[Hc|[Hc|[]]]]; rewrite <- Hc in *;
          [reflexivity | reflexivity | now contradiction Hne]. }
      destruct (color_at img x y) as [[[r g] b] al] eqn:C.
      pose proof (place_runs use_nodes reuse_materials material_name cube_name
                    mesh_name filename struse_nodes parent y x r g b al
                    (materials s) h1 name mname cname Fn Fm Fc) as Hp.
      cbv zeta in Hp.
      destruct (settle use_nodes reuse_materials name (r, g, b, al)
                  (materials s) (bpy_data_materials h1))
        as [[[m d'] reg'] calls].
      eexists. eexists. split; [exact Hp|]. cbn [a]. exact Hal.
  - reflexivity.
  - eauto.
Qed.

End Enough.

(** X9.  [read_pixel_art] returns [{'FINISHED'}] exactly when: the host
    decodes the file; the image has 1, 3 or 4 channels; the parent template
    formats; the buffer holds at least [W * H * channels] samples; and at
    every pixel that is not skipped the material, mesh and cube templates
    format.  It returns nothing else: in every other case the run raises. *)
Theorem run_finishes_exactly_when {P : ObjectProtocol} {N : Naming}
        (filepath : string) (use_nodes reuse_materials : bool)
        (material_name cube_name mesh_name parent_name : string)
        (h : host) :
  ((exists h',
       read_pixel_art filepath use_nodes reuse_materials material_name cube_name
                      mesh_name parent_name h = (Return FINISHED, h')) <->
   exists img pname,
      find_file filepath (files h) = Some img /\
      In (im_channels img) [1; 3; 4] /\
      format parent_name
             (group_params (path_tail filepath)
                           (if use_nodes then "nodes" else "")) = Done pname /\
      width img * height img * im_channels img <= List.length (im_pixels img) /\
      forall x y,
        x < width img -> y < height img -> skipped img (x, y) = false ->
        exists name mname cname,
          format material_name
                 (pixel_params (path_tail filepath)
                               (strcolor_of (color_at img x y)) x y
                               (if use_nodes then "nodes" else "")) = Done name /\
          format mesh_name
                 (pixel_params (path_tail filepath)
                               (strcolor_of (color_at img x y)) x y
                               (if use_nodes then "nodes" else "")) = Done mname /\
          format cube_name
                 (pixel_params (path_tail filepath)
                               (strcolor_of (color_at img x y)) x y
                               (if use_nodes then "nodes" else "")) = Done cname)
  /\
  (forall st h',
      read_pixel_art filepath use_nodes reuse_materials material_name cube_name
                     mesh_name parent_name h = (Return st, h') ->
      st = FINISHED).
Proof.
  split; [|intros st h' E;
           destruct (find_file filepath (files h)) as [img|] eqn:Hfile;
           [ rewrite (read_pixel_art_loaded _ _ _ _ _ _ _ img h Hfile) in E;
             destruct (convert _ _ _ _ _ _ _ _ _ _) as [[u|e] hc];
             [now injection E | discriminate]
           | unfold read_pixel_art, bind, images_load in E;
             rewrite Hfile in E; discriminate ]].
  split.
  - intros [h' E]. exact (finished_run_conditions _ _ _ _ _ _ _ h h' E).
  - intros (img & pname & Hfile & Hin & Fp & Hbuf & Hfmt).
    rewrite (read_pixel_art_loaded _ _ _ _ _ _ _ img h Hfile).
    rewrite (convert_unfold _ _ _ _ _ _ _ _ _ img (loaded filepath img h)
               (nth_error_app_last (bpy_data_images h) (Some img))).
    assert (Hch : existsb (Nat.eqb (im_channels img)) [1; 3; 4] = true).
    { simpl in Hin. destruct Hin as [<-|[<-|[<-|[]]]]; reflexivity. }
    rewrite Hch, Fp. cbn [negb].
    destruct (loops_return use_nodes reuse_materials material_name cube_name
                mesh_name (path_tail filepath)
                (if use_nodes then "nodes" else "")%string img Hin Hbuf Hfmt
                (List.length (bpy_data_objects (loaded filepath img h)))
                (with_parent pname (loaded filepath img h)))
      as (st & hl & E).
    rewrite E. eexists. reflexivity.
Qed.

(** ** What was there before a run *)

Lemma extends_refl (h : host) : extends h h.
Proof. repeat split; exists []; now rewrite app_nil_r. Qed.

Lemma extends_trans (h1 h2 h3 : host) :
  extends h1 h2 -> extends h2 h3 -> extends h1 h3.
Proof.
  intros (F1 & (a1 & A1) & (b1 & B1) & (c1 & C1) & (d1 & D1))
         (F2 & (a2 & A2) & (b2 & B2) & (c2 & C2) & (d2 & D2)).
  split; [congruence|].
  split; [exists (a1 ++ a2); now rewrite A2, A1, app_assoc|].
  split; [exists (b1 ++ b2); now rewrite B2, B1, app_assoc|].
  split; [exists (c1 ++ c2); now rewrite C2, C1, app_assoc|].
  exists (d1 ++ d2). now rewrite D2, D1, app_assoc.
Qed.

Lemma steady_ret {A : Type} (x : A) : steady (ret x).
Proof. intros h. apply extends_refl. Qed.

Lemma steady_raise {A : Type} (e : exn) : steady (@raise A e).
Proof. intros h. apply extends_refl. Qed.

Lemma steady_bind {A B : Type} (m : M A) (k : A -> M B) :
  steady m -> (forall x, steady (k x)) -> steady (bind m k).
Proof.
  intros Hm Hk h. unfold bind. specialize (Hm h).
  destruct (m h) as [[x|e] h1]; cbn [snd] in *; [|exact Hm].
  eapply extends_trans; [exact Hm | apply Hk].
Qed.

Lemma steady_for_each {I S : Type} (xs : list I) (body : I -> S -> M S) (s : S) :
  (forall i s', steady (body i s')) -> steady (for_each xs body s).
Proof.
  intros Hb. revert s. induction xs as [|i xs IH]; intros s; simpl.
  - apply steady_ret.
  - apply steady_bind; [apply Hb | exact IH].
Qed.

Lemma steady_getitem (pixels : list sample) (i : nat) : steady (getitem pixels i).
Proof.
  unfold getitem. destruct (nth_error pixels i); [apply steady_ret | apply steady_raise].
Qed.

Ltac solve_extends :=
  cbn [snd]; unfold extends;
  cbn [files bpy_data_materials bpy_data_meshes bpy_data_objects
       bpy_context_collection_objects];
  repeat split;
  first [ exists []; now rewrite app_nil_r
        | eexists; reflexivity
        | eexists; rewrite <- app_assoc; reflexivity ].

Section Steady.
Context {P : ObjectProtocol} {N : Naming}.
Variables (use_nodes reuse_materials : bool).
Variables (material_name cube_name mesh_name parent_name : string).
Variables (filename struse_nodes : string).

Lemma steady_format_m (template : string) (params : kwargs) :
  steady (format_m template params).
Proof.
  unfold format_m. destruct (format template params);
    [apply steady_ret | apply steady_raise].
Qed.

(** Placing a cube changes no data block that was there, wherever it
    stops. *)
Lemma steady_place parent y x r g b a materials :
  steady (place use_nodes reuse_materials material_name cube_name mesh_name
                filename struse_nodes parent y x r g b a materials).
Proof.
  intros h. destruct h as [fs ims mats mes obs col tr].
  unfold place, format_m. cbv zeta.
  destruct (format material_name _) as [name|e1]; [|run_calls; solve_extends].
  destruct (format mesh_name _) as [mname|e2];
    destruct (format cube_name _) as [cname|e3];
    (destruct (cache_get (r, g, b, a) materials) as [m|];
     [ run_host; solve_extends
     | destruct reuse_materials;
       [ unfold materials_get; run_host;
         destruct (index_of _ mats 0) as [m|];
         [ run_host; solve_extends
         | run_host; rewrite create_material_runs; run_host; solve_extends ]
       | run_host; rewrite create_material_runs; run_host; solve_extends ] ]).
Qed.

Lemma steady_pixel parent channels pixels y offset x st :
  steady (pixel use_nodes reuse_materials material_name cube_name mesh_name
                filename struse_nodes parent channels pixels y offset x st).
Proof.
  unfold pixel.
  destruct (Nat.eqb channels 1); [|destruct (Nat.eqb channels 3)]; cbv zeta;
    repeat (apply steady_bind; [apply steady_getitem | intros ?]);
    try apply steady_place.
  destruct (Qeq_bool _ 0); [apply steady_ret | apply steady_place].
Qed.

Lemma steady_objects_new (name : string) (data : option nat) :
  steady (objects_new name data).
Proof. intros [fs ims mats mes obs col tr]. run_calls. solve_extends. Qed.

Lemma steady_collection_link (ob : nat) : steady (collection_link ob).
Proof. intros [fs ims mats mes obs col tr]. run_calls. solve_extends. Qed.

Lemma steady_image_data (i : nat) : steady (image_data i).
Proof.
  intros h. unfold image_data.
  destruct (nth_error (bpy_data_images h) i) as [[d|]|]; apply extends_refl.
Qed.

(** The body of the [try] statement changes no data block that was
    there. *)
Lemma steady_convert (image : nat) :
  steady (convert use_nodes reuse_materials material_name cube_name mesh_name
                  parent_name filename struse_nodes image).
Proof.
  unfold convert. apply steady_bind; [apply steady_image_data|]. intros img.
  cbv zeta. destruct (negb _); [apply steady_raise|].
  apply steady_bind; [apply steady_format_m|]. intros name.
  apply steady_bind; [apply steady_objects_new|]. intros parent.
  apply steady_bind; [apply steady_collection_link|]. intros _.
  destruct (im_size img) as [w hgt].
  apply steady_bind; [|intros; apply steady_ret].
  unfold for_range. apply steady_for_each. intros y st.
  apply steady_for_each. intros x st'. apply steady_pixel.
Qed.

End Steady.

(** A run of [read_pixel_art], however it ends: nothing that was there is
    changed, and [bpy.data.images] is as before, or has one more slot, which
    is empty. *)
Lemma read_pixel_art_only_adds {P : ObjectProtocol} {N : Naming}
      (filepath : string) (use_nodes reuse_materials : bool)
      (material_name cube_name mesh_name parent_name : string) (h : host) :
  extends h (snd (read_pixel_art filepath use_nodes reuse_materials
                                 material_name cube_name mesh_name
                                 parent_name h)) /\
  (bpy_data_images (snd (read_pixel_art filepath use_nodes reuse_materials
                                        material_name cube_name mesh_name
                                        parent_name h))
   = bpy_data_images h \/
   bpy_data_images (snd (read_pixel_art filepath use_nodes reuse_materials
                                        material_name cube_name mesh_name
                                        parent_name h))
   = bpy_data_images h ++ [None]).
Proof.
  destruct (find_file filepath (files h)) as [img|] eqn:Hfile.
  - rewrite (read_pixel_art_loaded _ _ _ _ _ _ _ img h Hfile).
    pose proof (steady_convert use_nodes reuse_materials material_name
                  cube_name mesh_name parent_name (path_tail filepath)
                  (if use_nodes then "nodes" else "")%string
                  (List.length (bpy_data_images h)) (loaded filepath img h))
      as Hs.
    destruct (quiet_convert use_nodes reuse_materials material_name
                  cube_name mesh_name parent_name (path_tail filepath)
                  (if use_nodes then "nodes" else "")%string
                  (List.length (bpy_data_images h)) (loaded filepath img h))
      as [Hi _].
    destruct (convert _ _ _ _ _ _ _ _ _ _) as [r h'].
    cbn [snd] in *. split.
    + destruct Hs as (F & A & B & C & D). repeat split; assumption.
    + right. cbn [released bpy_data_images]. rewrite Hi.
      cbn [loaded bpy_data_images].
      exact (update_at_app_last (fun _ => None) (bpy_data_images h) (Some img)).
  - assert (E : read_pixel_art filepath use_nodes reuse_materials
                  material_name cube_name mesh_name parent_name h
                = (Raise (RuntimeError "Error: Cannot read the image file"), h)).
    { unfold read_pixel_art, bind, images_load. now rewrite Hfile. }
    rewrite E. split; [apply extends_refl | left; reflexivity].
Qed.

Lemma validate_keeps_data {P : ObjectProtocol}
      (checks : list (string * string * kwargs)) (h : host) :
  extends h (snd (validate checks h)) /\
  bpy_data_images (snd (validate checks h)) = bpy_data_images h.
Proof.
  induction checks as [|[[name value] params] checks IH]; simpl.
  - split; [apply extends_refl | reflexivity].
  - destruct (format value params) as [s|e]; [exact IH|].
    destruct h as [fs ims mats mes obs col tr].
    destruct (exn_of_format_error e); unfold report; run_calls;
      (split; [solve_extends | reflexivity]).
Qed.

(** X10.  Whatever the settings, the templates, the file and the image, and
    however the operator ends (finished, cancelled, or with an exception),
    no material, mesh, object or collection entry that existed before is
    changed, moved or removed: the old lists are the beginnings of the new
    ones.  No image that was loaded before is touched either; at most one
    slot is added to [bpy.data.images], and it is empty at the end. *)
Theorem existing_data_is_left_alone {P : ObjectProtocol} {N : Naming}
        (self : ImportPixelArt) (h : host) :
  files (snd (execute self h)) = files h /\
  (exists new,
      bpy_data_materials (snd (execute self h)) = bpy_data_materials h ++ new) /\
  (exists new,
      bpy_data_meshes (snd (execute self h)) = bpy_data_meshes h ++ new) /\
  (exists new,
      bpy_data_objects (snd (execute self h)) = bpy_data_objects h ++ new) /\
  (exists new,
      bpy_context_collection_objects (snd (execute self h))
      = bpy_context_collection_objects h ++ new) /\
  (bpy_data_images (snd (execute self h)) = bpy_data_images h \/
   bpy_data_images (snd (execute self h)) = bpy_data_images h ++ [None]).
Proof.
  unfold execute, bind.
  destruct (validate_keeps_data
              [ ("object name", parent_name self,
                 [ ("filename", PStr ""); ("use_nodes", PStr "") ]);
                ("material names", material_name self, pix_params);
                ("mesh names", mesh_name self, pix_params);
                ("pixel names", cube_name self, pix_params) ]%string h)
    as [Hv Hi].
  destruct (validate _ h) as [[[st|]|e] h1]; cbn [snd] in *.
  - unfold ret. cbn [snd]. destruct Hv as (F & A & B & C & D).
    repeat split; auto.
  - destruct (read_pixel_art_only_adds (filepath self) (use_nodes self)
                (reuse_materials self) (material_name self) (cube_name self)
                (mesh_name self) (parent_name self) h1) as [He Him].
    destruct (extends_trans _ _ _ Hv He) as (F & A & B & C & D).
    rewrite Hi in Him. repeat split; auto.
  - destruct Hv as (F & A & B & C & D). repeat split; auto.
Qed.

(** ** A run that fails after the parent was created *)

(** X11.  Once the file is decoded, the channel count accepted and the
    parent template formatted, the parent object is created and linked, and
    it stays: however the run goes on, to the end or to an exception raised
    in the pixel loops, the host is left with the parent at the position it
    was created at, linked to the collection, followed by whatever cubes
    were created.  Nothing is rolled back. *)
Theorem parent_outlives_the_run {P : ObjectProtocol} {N : Naming}
        (filepath : string) (use_nodes reuse_materials : bool)
        (material_name cube_name mesh_name parent_name : string)
        (img : image) (h : host) (pname : string) :
  find_file filepath (files h) = Some img ->
  In (im_channels img) [1; 3; 4] ->
  format parent_name
         (group_params (path_tail filepath)
                       (if use_nodes then "nodes" else "")) = Done pname ->
  exists cubes links,
    bpy_data_objects
      (snd (read_pixel_art filepath use_nodes reuse_materials material_name
                           cube_name mesh_name parent_name h))
    = bpy_data_objects h ++
      {| ob_name := unique_name (map ob_name (bpy_data_objects h)) pname;
         ob_data := None; ob_location := (0, 0, 0)%Z; ob_parent := None |}
      :: cubes /\
    bpy_context_collection_objects
      (snd (read_pixel_art filepath use_nodes reuse_materials material_name
                           cube_name mesh_name parent_name h))
    = bpy_context_collection_objects h ++
      List.length (bpy_data_objects h) :: links.
Proof.
  intros Hfile Hin Fp.
  rewrite (read_pixel_art_loaded _ _ _ _ _ _ _ img h Hfile).
  rewrite (convert_unfold _ _ _ _ _ _ _ _ _ img (loaded filepath img h)
             (nth_error_app_last (bpy_data_images h) (Some img))).
  assert (Hch : existsb (Nat.eqb (im_channels img)) [1; 3; 4] = true).
  { simpl in Hin. destruct Hin as [<-|[<-|[<-|[]]]]; reflexivity. }
  rewrite Hch, Fp. cbn [negb].
  assert (Hs : steady
                 (for_range (height img)
                    (fun y st =>
                       for_range (width img)
                         (pixel use_nodes reuse_materials material_name
                                cube_name mesh_name (path_tail filepath)
                                (if use_nodes then "nodes" else "")%string
                                (List.length
                                   (bpy_data_objects (loaded filepath img h)))
                                (im_channels img) (im_pixels img) y
                                (y * im_channels img * width img)) st)
                    {| a := 1%Q; materials := [] |})).
  { unfold for_range. apply steady_for_each. intros y st.
    apply steady_for_each. intros x st'. apply steady_pixel. }
  specialize (Hs (with_parent pname (loaded filepath img h))).
  destruct (for_range _ _ _ _) as [[st|e] hl]; cbn [snd] in *;
    destruct Hs as (_ & _ & _ & (cubes & Ho) & (links & Hl));
    cbn [released bpy_data_objects bpy_context_collection_objects];
    cbn [with_parent loaded group_object bpy_data_objects
         bpy_context_collection_objects] in Ho, Hl;
    exists cubes, links; rewrite Ho, Hl, <- !app_assoc; split; reflexivity.
Qed.

Lemma parent_outlives_the_run_witness :
  let img := {| im_channels := 3; im_size := (2, 1);
                im_pixels := [ 1; 0; 0; 0 ]%Q |} in
  let h := empty_host [("/tmp/short.png", img)] in
  let run := read_pixel_art (P := plain_objects) (N := numbered_names)
               "/tmp/short.png" true false MATERIAL_NAME CUBE_NAME MESH_NAME
               PARENT_NAME h in
  find_file "/tmp/short.png" (files h) = Some img /\
  fst run = Raise (IndexError "array index out of range") /\
  exists cubes links,
    bpy_data_objects (snd run)
    = {| ob_name := @unique_name numbered_names [] "short.png";
         ob_data := None; ob_location := (0, 0, 0)%Z; ob_parent := None |}
      :: cubes /\
    bpy_context_collection_objects (snd run) = 0 :: links.
Proof.
  intros img h run. split; [reflexivity|]. split; [reflexivity|].
  exact (parent_outlives_the_run (P := plain_objects) (N := numbered_names)
           "/tmp/short.png" true false MATERIAL_NAME CUBE_NAME MESH_NAME
           PARENT_NAME img h "short.png" eq_refl
           (or_intror (or_introl eq_refl)) eq_refl).
Defined.

(** ** The operator *)

Section Operator.
Context {P : ObjectProtocol} {N : Naming}.

(** The validation loop stops at the first template that does not format:
    a [ValueError] or a [KeyError] is reported and cancels; anything else
    is let through. *)
Lemma validate_first_failure (passing rest : list (string * string * kwargs))
      (name value : string) (params : kwargs) (e : format_error) (h : host) :
  Forall passes passing ->
  format value params = Failed e ->
  validate (passing ++ (name, value, params) :: rest) h
  = match exn_of_format_error e with
    | ValueError msg =>
        (Return (Some CANCELLED),
         reported ("Format error in " ++ name ++ ": " ++ msg) h)
    | KeyError key =>
        (Return (Some CANCELLED),
         reported ("Illegal key used in " ++ name ++ ": " ++ repr_str key) h)
    | e' => (Raise e', h)
    end.
Proof.
  intros Hall F. induction Hall as [|[[n v] ps] passing [s Hs] _ IH]; simpl.
  - rewrite F. destruct h as [fs ims mats mes obs col tr].
    destruct (exn_of_format_error e); unfold report, reported; run_calls;
      reflexivity.
  - rewrite Hs. exact IH.
Qed.

Lemma validate_all_pass (checks : list (string * string * kwargs)) (h : host) :
  Forall passes checks -> validate checks h = (Return None, h).
Proof.
  induction 1 as [|[[n v] ps] checks [s Hs] _ IH]; simpl; [reflexivity|].
  now rewrite Hs.
Qed.

(** X12.  The validation of [execute], case by case.  When the four
    templates format with the arguments of the validation, [execute] is
    [read_pixel_art] called with the operator's settings: same result,
    same effect, nothing reported.  Otherwise the templates are checked in
    the order object name, material names, mesh names, pixel names, and the
    first one that does not format decides: on a [ValueError] the operator
    reports [Format error in <setting>: <text of the error>], on a
    [KeyError] it reports [Illegal key used in <setting>: <repr of the
    key>], and in both cases it returns [{'CANCELLED'}] with every data
    block as it was; any other exception leaves [execute] with nothing
    reported.  The templates after the first failing one are not looked
    at. *)
Theorem validation_decides_the_run (self : ImportPixelArt) (h : host) :
  ((forall n v ps, In (n, v, ps) (checks_of self) ->
                   exists s, format v ps = Done s) ->
   execute self h
   = read_pixel_art (filepath self) (use_nodes self) (reuse_materials self)
                    (material_name self) (cube_name self) (mesh_name self)
                    (parent_name self) h) /\
  (forall (passing rest : list (string * string * kwargs))
          (name value : string) (params : kwargs) (e : format_error),
      checks_of self = passing ++ (name, value, params) :: rest ->
      (forall n v ps, In (n, v, ps) passing -> exists s, format v ps = Done s) ->
      format value params = Failed e ->
      execute self h
      = match exn_of_format_error e with
        | ValueError msg =>
            (Return CANCELLED,
             reported ("Format error in " ++ name ++ ": " ++ msg) h)
        | KeyError key =>
            (Return CANCELLED,
             reported ("Illegal key used in " ++ name ++ ": " ++ repr_str key) h)
        | e' => (Raise e', h)
        end).
Proof.
  unfold execute. fold (checks_of self). split.
  - intros Hall.
    rewrite (bind_return _ _ _ _ _ (validate_all_pass (checks_of self) h
               ltac:(apply Forall_forall; intros [[n v] ps] Hin;
                     exact (Hall n v ps Hin)))).
    reflexivity.
  - intros passing rest name value params e Hsplit Hpass F.
    rewrite Hsplit. unfold bind.
    rewrite (validate_first_failure passing rest name value params e h).
    + destruct (exn_of_format_error e); reflexivity.
    + apply Forall_forall. intros [[n v] ps] Hin. exact (Hpass n v ps Hin).
    + exact F.
Qed.

End Operator.

Lemma validation_decides_the_run_witness :
  let h := empty_host [("/tmp/img.png", rgb_2x1)] in
  execute (P := plain_objects) (N := numbered_names)
          {| filepath := "/tmp/img.png"; use_nodes := true;
             reuse_materials := false; parent_name := PARENT_NAME;
             cube_name := "{"; mesh_name := MESH_NAME;
             material_name := "{bogus}" |} h
  = (Return CANCELLED,
     reported "Illegal key used in material names: 'bogus'" h) /\
  execute (P := plain_objects) (N := numbered_names)
          {| filepath := "/tmp/img.png"; use_nodes := true;
             reuse_materials := false; parent_name := PARENT_NAME;
             cube_name := "{"; mesh_name := MESH_NAME;
             material_name := "{a'b}" |} h
  = (Return CANCELLED,
     reported ("Illegal key used in material names: " ++
               String double_quote ("a'b" ++ String double_quote "")) h) /\
  execute (P := plain_objects) (N := numbered_names)
          {| filepath := "/tmp/img.png"; use_nodes := true;
             reuse_materials := false; parent_name := "{filename!x}";
             cube_name := "{"; mesh_name := MESH_NAME;
             material_name := "{bogus}" |} h
  = (Return CANCELLED,
     reported "Format error in object name: Unknown conversion specifier x"
              h).
Proof.
  intros h.
  assert (Hparent : forall n v ps,
             In (n, v, ps)
                [ ("object name", PARENT_NAME,
                   [ ("filename", PStr ""); ("use_nodes", PStr "") ]) ]%string ->
             exists s, format (P := plain_objects) v ps = Done s).
  { intros n v ps [[= <- <- <-]|[]]. eexists. reflexivity. }
  split; [|split].
  - exact (proj2 (validation_decides_the_run (P := plain_objects)
                    (N := numbered_names)
                    {| filepath := "/tmp/img.png"; use_nodes := true;
                       reuse_materials := false; parent_name := PARENT_NAME;
                       cube_name := "{"; mesh_name := MESH_NAME;
                       material_name := "{bogus}" |} h)
             [ ("object name", PARENT_NAME,
                [ ("filename", PStr ""); ("use_nodes", PStr "") ]) ]%string
             [ ("mesh names", MESH_NAME, pix_params);
               ("pixel names", "{", pix_params) ]%string
             "material names" "{bogus}" pix_params (MissingKey "bogus")
             eq_refl Hparent eq_refl).
  - exact (proj2 (validation_decides_the_run (P := plain_objects)
                    (N := numbered_names)
                    {| filepath := "/tmp/img.png"; use_nodes := true;
                       reuse_materials := false; parent_name := PARENT_NAME;
                       cube_name := "{"; mesh_name := MESH_NAME;
                       material_name := "{a'b}" |} h)
             [ ("object name", PARENT_NAME,
                [ ("filename", PStr ""); ("use_nodes", PStr "") ]) ]%string
             [ ("mesh names", MESH_NAME, pix_params);
               ("pixel names", "{", pix_params) ]%string
             "material names" "{a'b}" pix_params (MissingKey "a'b")
             eq_refl Hparent eq_refl).
  - exact (proj2 (validation_decides_the_run (P := plain_objects)
                    (N := numbered_names)
                    {| filepath := "/tmp/img.png"; use_nodes := true;
                       reuse_materials := false; parent_name := "{filename!x}";
                       cube_name := "{"; mesh_name := MESH_NAME;
                       material_name := "{bogus}" |} h)
             []
             [ ("material names", "{bogus}", pix_params);
               ("mesh names", MESH_NAME, pix_params);
               ("pixel names", "{", pix_params) ]%string
             "object name" "{filename!x}"
             [ ("filename", PStr ""); ("use_nodes", PStr "") ]%string
             (Syntax "Unknown conversion specifier x")
             eq_refl (fun n v ps (Hin : In (n, v, ps) []) => match Hin with end)
             eq_refl).
Defined.

(** ** The default settings *)

Section DefaultNames.
Context {P : ObjectProtocol}.

Ltac format_fields :=
  unfold format;
  repeat (lazy -[py_format of_val str_of_int];
          progress rewrite ?py_format_str, ?py_format_int);
  lazy -[py_format of_val str_of_int];
  reflexivity.

(** What the four default templates format to. *)
Lemma default_names (filename strcolor : string) (x y : nat)
      (struse_nodes : string) :
  format PARENT_NAME (group_params filename struse_nodes) = Done filename /\
  format MATERIAL_NAME (pixel_params filename strcolor x y struse_nodes)
  = Done ("pixel_art_" ++ strcolor)%string /\
  format CUBE_NAME (pixel_params filename strcolor x y struse_nodes)
  = Done (filename ++ "_" ++ str_of_int (Z.of_nat x) ++ "_" ++
          str_of_int (Z.of_nat y))%string /\
  format MESH_NAME (pixel_params filename strcolor x y struse_nodes)
  = Done (filename ++ "_" ++ str_of_int (Z.of_nat x) ++ "_" ++
          str_of_int (Z.of_nat y) ++ "_mesh")%string.
Proof.
  assert (H1 : format PARENT_NAME (group_params filename struse_nodes)
               = Done (filename ++ "")%string) by format_fields.
  assert (H2 : format MATERIAL_NAME
                      (pixel_params filename strcolor x y struse_nodes)
               = Done ("pixel_art_" ++ (strcolor ++ ""))%string)
    by format_fields.
  assert (H3 : format CUBE_NAME
                      (pixel_params filename strcolor x y struse_nodes)
               = Done (filename ++ "_" ++ str_of_int (Z.of_nat x) ++ "_" ++
                       (str_of_int (Z.of_nat y) ++ ""))%string)
    by format_fields.
  assert (H4 : format MESH_NAME
                      (pixel_params filename strcolor x y struse_nodes)
               = Done (filename ++ "_" ++ str_of_int (Z.of_nat x) ++ "_" ++
                       str_of_int (Z.of_nat y) ++ "_mesh")%string)
    by format_fields.
  rewrite append_empty_r in H1, H2, H3. auto.
Qed.

End DefaultNames.

(** X13.  With the four default templates the operator finishes on every
    well-formed image the host can decode, whatever the two switches: the
    validation passes, the parent is asked for under the name of the file
    (the path without its directories), the cube of pixel [(x, y)] under
    [<file>_<x>_<y>] and its mesh under [<file>_<x>_<y>_mesh], [x] and
    [y] in decimal. *)
Theorem default_templates_always_finish {P : ObjectProtocol} {N : Naming}
        (filepath : string) (use_nodes reuse_materials : bool)
        (img : image) (h : host) :
  let filename := path_tail filepath in
  let parent := List.length (bpy_data_objects h) in
  find_file filepath (files h) = Some img ->
  well_formed img ->
  exists h',
    execute {| filepath := filepath; use_nodes := use_nodes;
               reuse_materials := reuse_materials;
               parent_name := "{filename}";
               cube_name := "{filename}_{x}_{y}";
               mesh_name := "{filename}_{x}_{y}_mesh";
               material_name := "pixel_art_{color}" |} h
    = (Return FINISHED, h') /\
    (exists ob,
        nth_error (bpy_data_objects h') parent = Some ob /\
        ob_name ob = unique_name (map ob_name (bpy_data_objects h)) filename) /\
    forall k x y,
      nth_error (visible img (coords (width img) (height img))) k = Some (x, y) ->
      exists ob me,
        nth_error (bpy_data_objects h') (S parent + k) = Some ob /\
        ob_name ob
        = unique_name (map ob_name (firstn (S parent + k) (bpy_data_objects h')))
                      (filename ++ "_" ++ str_of_int (Z.of_nat x) ++ "_" ++
                       str_of_int (Z.of_nat y))%string /\
        nth_error (bpy_data_meshes h') (List.length (bpy_data_meshes h) + k)
        = Some me /\
        me_name me
        = unique_name
            (map me_name (firstn (List.length (bpy_data_meshes h) + k)
                                 (bpy_data_meshes h')))
            (filename ++ "_" ++ str_of_int (Z.of_nat x) ++ "_" ++
             str_of_int (Z.of_nat y) ++ "_mesh")%string.
Proof.
  intros filename parent Hfile Hwf.
  destruct (read_pixel_art_scene filepath use_nodes reuse_materials
              MATERIAL_NAME CUBE_NAME MESH_NAME PARENT_NAME img Hwf
              (default_parent_name_renders _ _)
              (default_material_name_renders _ _)
              (default_mesh_name_renders _ _)
              (default_cube_name_renders _ _) h Hfile)
    as (pname & st & hmid & Fp & E & I & S).
  exists (released (List.length (bpy_data_images h)) hmid).
  split.
  { set (self := {| filepath := filepath; use_nodes := use_nodes;
                    reuse_materials := reuse_materials;
                    parent_name := "{filename}";
                    cube_name := "{filename}_{x}_{y}";
                    mesh_name := "{filename}_{x}_{y}_mesh";
                    material_name := "pixel_art_{color}" |}).
    assert (Hv : Forall passes (checks_of self)).
    { unfold checks_of, self.
      cbn [parent_name material_name mesh_name cube_name].
      constructor; [apply (default_parent_name_renders "" "")|].
      constructor;
        [apply (default_material_name_renders "" "" "AABBCCDD" 0 0)|].
      constructor; [apply (default_mesh_name_renders "" "" "AABBCCDD" 0 0)|].
      constructor; [apply (default_cube_name_renders "" "" "AABBCCDD" 0 0)|].
      constructor. }
    unfold execute. fold (checks_of self).
    rewrite (bind_return _ _ _ _ _ (validate_all_pass (checks_of self) h Hv)).
    exact E. }
  destruct I as [(cubes & Eo & _) _ _ _].
  destruct S as [_ _ _ _ _ Scu _ _ _ _].
  cbn [released bpy_data_objects bpy_data_meshes].
  cbn [with_parent loaded bpy_data_objects] in Eo.
  split.
  { eexists. split.
    - rewrite Eo, <- app_assoc. cbn [app].
      rewrite nth_error_app2 by apply Nat.le_refl.
      unfold parent. rewrite Nat.sub_diag. reflexivity.
    - cbn [group_object loaded ob_name bpy_data_objects].
      destruct (default_names (path_tail filepath) "" 0 0
                  (if use_nodes then "nodes" else "")%string) as (D & _).
      rewrite D in Fp. injection Fp as <-. reflexivity. }
  intros k x y Hk.
  destruct (Scu k (x, y) Hk) as (cname & mname & m & Fc & Fm & _ & O & M).
  cbv zeta in O, M.
  cbn [with_parent loaded bpy_data_objects bpy_data_meshes fst snd] in O, M.
  rewrite length_app in O. cbn [List.length] in O.
  replace (List.length (bpy_data_objects h) + 1 + k) with (S parent + k) in O
    by (unfold parent; lia).
  unfold params_at in Fc, Fm. cbn [fst snd] in Fc, Fm.
  destruct (default_names (path_tail filepath)
              (strcolor_of (color_at img x y)) x y
              (if use_nodes then "nodes" else "")%string) as (_ & _ & D3 & D4).
  rewrite D3 in Fc. rewrite D4 in Fm.
  injection Fc as <-. injection Fm as <-.
  eexists. eexists. split; [exact O|]. split; [reflexivity|].
  split; [exact M | reflexivity].
Qed.

Lemma default_templates_always_finish_witness :
  let h := empty_host [("/tmp/img.png", rgba_2x2)] in
  find_file "/tmp/img.png" (files h) = Some rgba_2x2 /\
  well_formed rgba_2x2 /\
  exists h',
    execute (P := plain_objects) (N := numbered_names)
            {| filepath := "/tmp/img.png"; use_nodes := true;
               reuse_materials := true;
               parent_name := "{filename}";
               cube_name := "{filename}_{x}_{y}";
               mesh_name := "{filename}_{x}_{y}_mesh";
               material_name := "pixel_art_{color}" |} h
    = (Return FINISHED, h') /\
    (exists ob,
        nth_error (bpy_data_objects h') 0 = Some ob /\
        ob_name ob = @unique_name numbered_names [] "img.png") /\
    forall k x y,
      nth_error [(0, 0); (0, 1); (1, 1)] k = Some (x, y) ->
      exists ob me,
        nth_error (bpy_data_objects h') (1 + k) = Some ob /\
        ob_name ob
        = @unique_name numbered_names
            (map ob_name (firstn (1 + k) (bpy_data_objects h')))
            ("img.png" ++ "_" ++ str_of_int (Z.of_nat x) ++ "_" ++
             str_of_int (Z.of_nat y))%string /\
        nth_error (bpy_data_meshes h') (0 + k) = Some me /\
        me_name me
        = @unique_name numbered_names
            (map me_name (firstn (0 + k) (bpy_data_meshes h')))
            ("img.png" ++ "_" ++ str_of_int (Z.of_nat x) ++ "_" ++
             str_of_int (Z.of_nat y) ++ "_mesh")%string.
Proof.
  intros h. split; [reflexivity|]. split; [exact rgba_2x2_well_formed|].
  exact (default_templates_always_finish (P := plain_objects)
           (N := numbered_names) "/tmp/img.png" true true rgba_2x2 h
           eq_refl rgba_2x2_well_formed).
Defined.

(** ** The file name *)

Lemma append_snoc (s : string) (c : ascii) (r : string) :
  (snoc s c ++ r)%string = (s ++ String c r)%string.
Proof. unfold snoc. induction s as [|d s IH]; simpl; [reflexivity|]. now rewrite IH. Qed.

Lemma split_tail_clean (p tail : string) :
  all_chars no_slash tail = true -> all_chars no_slash (split_tail p tail) = true.
Proof.
  revert tail. induction p as [|c r IH]; intros tail Ht; simpl; [exact Ht|].
  destruct (c =? "/")%char eqn:E.
  - now apply IH.
  - apply IH. unfold snoc. rewrite all_chars_app, Ht. simpl.
    unfold no_slash. now rewrite E.
Qed.

Lemma split_tail_name (name tail : string) :
  all_chars no_slash name = true ->
  split_tail name tail = (tail ++ name)%string.
Proof.
  revert tail. induction name as [|c r IH]; intros tail Hn; simpl.
  - now rewrite append_empty_r.
  - simpl in Hn. apply andb_true_iff in Hn. destruct Hn as [Hc Hr].
    unfold no_slash in Hc. apply negb_true_iff in Hc. rewrite Hc.
    rewrite (IH _ Hr). apply append_snoc.
Qed.

Lemma split_tail_dir (dir name tail : string) :
  all_chars no_slash name = true ->
  split_tail (dir ++ String "/" name) tail = name.
Proof.
  intros Hn. revert tail. induction dir as [|c d IH]; intros tail; simpl.
  - now rewrite (split_tail_name _ _ Hn).
  - destruct (c =? "/")%char; apply IH.
Qed.

(** X14.  The [filename] the templates see is the part of [filepath] after
    its last slash: it never contains a slash; a path that ends in
    [/<name>], where [name] has no slash, gives [name] whatever the
    directories before; and a path without slash is its own file name. *)
Theorem filename_is_the_last_component (filepath : string) :
  all_chars no_slash (path_tail filepath) = true /\
  (forall dir name,
      all_chars no_slash name = true ->
      path_tail (dir ++ "/" ++ name) = name) /\
  (all_chars no_slash filepath = true -> path_tail filepath = filepath).
Proof.
  unfold path_tail. split; [now apply split_tail_clean|]. split.
  - intros dir name Hn. now apply split_tail_dir.
  - intros Hn. now rewrite (split_tail_name _ _ Hn).
Qed.

(** ** The width of the colour digits *)

Lemma length_append (s t : string) :
  String.length (s ++ t) = String.length s + String.length t.
Proof. induction s as [|c s IH]; simpl; [reflexivity|]. now rewrite IH. Qed.

Lemma length_zeros (k : nat) : String.length (zeros k) = k.
Proof. induction k as [|k IH]; simpl; [reflexivity|]. now rewrite IH. Qed.

Lemma length_zfill (w : nat) (s : string) :
  String.length (zfill w s) = Nat.max w (String.length s).
Proof. unfold zfill. rewrite length_append, length_zeros. lia. Qed.

Lemma hex_digits_length_ge (b : nat) (n : Z) (acc : string) :
  String.length acc <= String.length (hex_digits b n acc).
Proof.
  revert n acc. induction b as [|b IH]; intros n acc; simpl; [lia|].
  destruct (n / 16 =? 0)%Z; simpl; [lia|].
  specialize (IH (n / 16)%Z (String (hex_digit (n mod 16)) acc)).
  simpl in IH. lia.
Qed.

Lemma hex_digits_length_S (b : nat) (n : Z) (acc : string) :
  S (String.length acc) <= String.length (hex_digits (S b) n acc).
Proof.
  simpl. destruct (n / 16 =? 0)%Z; simpl; [lia|].
  pose proof (hex_digits_length_ge b (n / 16)
                (String (hex_digit (n mod 16)) acc)) as H.
  simpl in H. lia.
Qed.

Lemma hex_digits_step (b : nat) (n : Z) (acc : string) :
  (16 <= n)%Z ->
  hex_digits (S b) n acc
  = hex_digits b (n / 16) (String (hex_digit (n mod 16)) acc).
Proof.
  intros Hn. simpl.
  assert (1 <= n / 16)%Z by (apply Z.div_le_lower_bound; lia).
  destruct (n / 16 =? 0)%Z eqn:E; [apply Z.eqb_eq in E; lia | reflexivity].
Qed.

Lemma hex_digits_last (b : nat) (n : Z) (acc : string) :
  (0 <= n < 16)%Z ->
  hex_digits (S b) n acc = String (hex_digit (n mod 16)) acc.
Proof.
  intros Hn. simpl. rewrite (Z.div_small n 16) by lia. reflexivity.
Qed.

Lemma log2_bound (k n : Z) :
  (0 <= k)%Z -> (2 ^ k <= n)%Z -> (Z.to_nat k <= Z.to_nat (Z.log2 n))%nat.
Proof.
  intros Hk Hn. apply Z2Nat.inj_le; [lia | apply Z.log2_nonneg|].
  rewrite <- (Z.log2_pow2 k) by lia. apply Z.log2_le_mono. exact Hn.
Qed.

(** The number of digits [to_hex] writes: one below 16, two below 256, at
    least three from 256 on. *)
Lemma length_to_hex (n : Z) :
  (0 <= n)%Z ->
  ((n < 16)%Z -> String.length (to_hex n) = 1) /\
  ((16 <= n < 256)%Z -> String.length (to_hex n) = 2) /\
  ((16 <= n)%Z -> 2 <= String.length (to_hex n)) /\
  ((256 <= n)%Z -> 3 <= String.length (to_hex n)).
Proof.
  intros H0. unfold to_hex. repeat split.
  - intros Hn. now rewrite hex_digits_last by lia.
  - intros Hn.
    pose proof (log2_bound 4 n ltac:(lia) ltac:(simpl; lia)) as Hb.
    destruct (Z.to_nat (Z.log2 n)) as [|b]; [simpl in Hb; lia|].
    rewrite hex_digits_step by lia.
    assert (0 <= n / 16 < 16)%Z.
    { split; [apply Z.div_pos; lia | apply Z.div_lt_upper_bound; lia]. }
    now rewrite hex_digits_last by lia.
  - intros Hn.
    pose proof (log2_bound 4 n ltac:(lia) ltac:(simpl; lia)) as Hb.
    destruct (Z.to_nat (Z.log2 n)) as [|[|b]]; [simpl in Hb; lia..|].
    rewrite hex_digits_step by lia.
    pose proof (hex_digits_length_S (S b) (n / 16)
                  (String (hex_digit (n mod 16)) "")) as Hl.
    cbn [String.length] in Hl. lia.
  - intros Hn.
    pose proof (log2_bound 8 n ltac:(lia) ltac:(simpl; lia)) as Hb.
    destruct (Z.to_nat (Z.log2 n)) as [|[|[|b]]]; [simpl in Hb; lia..|].
    assert (16 <= n / 16)%Z by (apply Z.div_le_lower_bound; lia).
    rewrite hex_digits_step by lia. rewrite hex_digits_step by lia.
    pose proof (hex_digits_length_S (S b) (n / 16 / 16)
                  (String (hex_digit ((n / 16) mod 16))
                          (String (hex_digit (n mod 16)) ""))) as Hl.
    cbn [String.length] in Hl. lia.
Qed.

(** ["%02X" % n] is two characters wide exactly for [n] from -15 to 255,
    and wider for every other [n]. *)
Lemma length_percent_02X (n : Z) :
  2 <= String.length (percent_02X n) /\
  (String.length (percent_02X n) = 2 <-> (-15 <= n <= 255)%Z).
Proof.
  unfold percent_02X. destruct (n <? 0)%Z eqn:Neg.
  - apply Z.ltb_lt in Neg.
    destruct (length_to_hex (Z.abs n) ltac:(lia)) as (L1 & _ & L2 & _).
    rewrite length_append, length_zfill. cbn [String.length].
    destruct (Z_lt_le_dec (Z.abs n) 16) as [Hs|Hb].
    + rewrite (L1 Hs). simpl. split; [lia|]. split; lia.
    + specialize (L2 Hb). split; [lia|]. split; lia.
  - apply Z.ltb_ge in Neg. rewrite length_zfill.
    destruct (length_to_hex n Neg) as (_ & _ & _ & L3).
    split; [lia|]. split.
    + intros Hl. destruct (Z_lt_le_dec n 256) as [Hs|Hb]; [lia|].
      specialize (L3 Hb). lia.
    + intros Hn.
      destruct (length_to_hex n Neg) as (L1 & L2 & _ & _).
      destruct (Z_lt_le_dec n 16) as [Hs|Hb].
      * rewrite (L1 Hs). reflexivity.
      * rewrite (L2 ltac:(lia)). reflexivity.
Qed.

(** X15.  The [color] field always has at least eight characters.  It has
    exactly eight precisely when every channel, multiplied by 255 and
    truncated, lies between -15 and 255; a sample outside that range (a
    float image may hold such) makes its part of the field wider than two
    characters. *)
Theorem color_field_width (r g b al : sample) :
  8 <= String.length (strcolor_of (r, g, b, al)) /\
  (String.length (strcolor_of (r, g, b, al)) = 8 <->
   (-15 <= int_of_float (r * 255)%Q <= 255)%Z /\
   (-15 <= int_of_float (g * 255)%Q <= 255)%Z /\
   (-15 <= int_of_float (b * 255)%Q <= 255)%Z /\
   (-15 <= int_of_float (al * 255)%Q <= 255)%Z).
Proof.
  unfold strcolor_of. rewrite !length_append.
  destruct (length_percent_02X (int_of_float (r * 255)%Q)) as [R1 R2].
  destruct (length_percent_02X (int_of_float (g * 255)%Q)) as [G1 G2].
  destruct (length_percent_02X (int_of_float (b * 255)%Q)) as [B1 B2].
  destruct (length_percent_02X (int_of_float (al * 255)%Q)) as [A1 A2].
  split; [lia|]. split.
  - intros H. repeat split; first [apply R2 | apply G2 | apply B2 | apply A2]; lia.
  - intros (Hr & Hg & Hb & Ha).
    apply R2 in Hr. apply G2 in Hg. apply B2 in Hb. apply A2 in Ha. lia.
Qed.

(** ** Which colours share their digits *)

Lemma hex_digit_inj (d e : Z) :
  (0 <= d < 16)%Z -> (0 <= e < 16)%Z -> hex_digit d = hex_digit e -> d = e.
Proof.
  intros Hd He H.
  assert (E : forallb (fun i => forallb (fun j =>
                implb (Ascii.eqb (hex_digit (Z.of_nat i))
                                 (hex_digit (Z.of_nat j)))
                      (Nat.eqb i j)) (seq 0 16)) (seq 0 16) = true)
    by (vm_compute; reflexivity).
  rewrite forallb_forall in E.
  assert (Id : In (Z.to_nat d) (seq 0 16)) by (apply in_seq; lia).
  assert (Ie : In (Z.to_nat e) (seq 0 16)) by (apply in_seq; lia).
  specialize (E _ Id). rewrite forallb_forall in E. specialize (E _ Ie).
  rewrite !Z2Nat.id in E by lia. rewrite H, Ascii.eqb_refl in E.
  simpl in E. apply Nat.eqb_eq in E. lia.
Qed.

Lemma hex2_inj (n m : Z) :
  (0 <= n <= 255)%Z -> (0 <= m <= 255)%Z -> hex2 n = hex2 m -> n = m.
Proof.
  intros Hn Hm H. unfold hex2 in H. injection H as Hhi Hlo.
  apply hex_digit_inj in Hhi;
    [| split; [apply Z.div_pos | apply Z.div_lt_upper_bound]; lia ..].
  apply hex_digit_inj in Hlo; [| apply Z.mod_pos_bound; lia ..].
  rewrite (Z.div_mod n 16), (Z.div_mod m 16) by lia. congruence.
Qed.

Lemma hex2_append_inj (n m : Z) (s t : string) :
  (0 <= n <= 255)%Z -> (0 <= m <= 255)%Z ->
  (hex2 n ++ s = hex2 m ++ t)%string -> n = m /\ s = t.
Proof.
  intros Hn Hm H. unfold hex2 in H. cbn [append] in H.
  injection H as Hhi Hlo Hrest. split; [|exact Hrest].
  apply hex2_inj; [assumption ..|]. unfold hex2. now rewrite Hhi, Hlo.
Qed.

Lemma strcolor_of_eight_bit (c1 c2 : color) :
  eight_bit c1 = eight_bit c2 -> strcolor_of c1 = strcolor_of c2.
Proof.
  destruct c1 as [[[r1 g1] b1] a1], c2 as [[[r2 g2] b2] a2].
  unfold eight_bit, strcolor_of. intros H. injection H as -> -> -> ->.
  reflexivity.
Qed.

Lemma eight_bit_of_strcolor (c1 c2 : color) :
  in_unit_range c1 -> in_unit_range c2 ->
  strcolor_of c1 = strcolor_of c2 -> eight_bit c1 = eight_bit c2.
Proof.
  destruct c1 as [[[r1 g1] b1] a1], c2 as [[[r2 g2] b2] a2].
  unfold in_unit_range, eight_bit, strcolor_of.
  intros ([Hr1 Hr1'] & [Hg1 Hg1'] & [Hb1 Hb1'] & [Ha1 Ha1'])
         ([Hr2 Hr2'] & [Hg2 Hg2'] & [Hb2 Hb2'] & [Ha2 Ha2']) H.
  rewrite !channel_digits in H by assumption.
  rewrite !int_of_float_floor by now apply scaled_nonneg.
  pose proof (scaled_floor_bounds r1 Hr1 Hr1').
  pose proof (scaled_floor_bounds g1 Hg1 Hg1').
  pose proof (scaled_floor_bounds b1 Hb1 Hb1').
  pose proof (scaled_floor_bounds a1 Ha1 Ha1').
  pose proof (scaled_floor_bounds r2 Hr2 Hr2').
  pose proof (scaled_floor_bounds g2 Hg2 Hg2').
  pose proof (scaled_floor_bounds b2 Hb2 Hb2').
  pose proof (scaled_floor_bounds a2 Ha2 Ha2').
  apply hex2_append_inj in H as [Er H]; [| assumption ..].
  apply hex2_append_inj in H as [Eg H]; [| assumption ..].
  apply hex2_append_inj in H as [Eb H]; [| assumption ..].
  apply hex2_inj in H; [| assumption ..].
  congruence.
Qed.

(** Outside the range the digits of a channel can be more than two, and the
    four groups are no longer told apart: here red [0x111] and green [0x11]
    give the same digits as red [0x11] and green [0x111]. *)
Lemma wide_channels_run_together :
  let c1 : color := (273 # 255, 17 # 255, 0, 1)%Q in
  let c2 : color := (17 # 255, 273 # 255, 0, 1)%Q in
  eight_bit c1 <> eight_bit c2 /\ strcolor_of c1 = strcolor_of c2.
Proof. split; [discriminate | reflexivity]. Qed.

(** X19.  Under the default material template, and for colours whose
    channels lie between 0 and 1, two pixels ask for the same material name
    exactly when their colours agree in all four channels after
    [int(v * 255)], wherever the pixels are: colours that differ only below
    that resolution share a name, all others are told apart. *)
Theorem default_material_names_tell_colors_apart {P : ObjectProtocol}
        (c1 c2 : color) (filename struse_nodes : string) (x1 y1 x2 y2 : nat) :
  in_unit_range c1 -> in_unit_range c2 ->
  (format MATERIAL_NAME
          (pixel_params filename (strcolor_of c1) x1 y1 struse_nodes)
   = format MATERIAL_NAME
            (pixel_params filename (strcolor_of c2) x2 y2 struse_nodes)
   <-> eight_bit c1 = eight_bit c2).
Proof.
  intros H1 H2.
  destruct (default_names filename (strcolor_of c1) x1 y1 struse_nodes)
    as (_ & -> & _).
  destruct (default_names filename (strcolor_of c2) x2 y2 struse_nodes)
    as (_ & -> & _).
  split.
  - intros H. apply eight_bit_of_strcolor; [assumption ..|].
    cbn [append] in H. now injection H.
  - intros H. now rewrite (strcolor_of_eight_bit c1 c2 H).
Qed.

Lemma default_material_names_tell_colors_apart_witness :
  let c1 : color := (1, 0, 1 # 2, 1)%Q in
  let c2 : color := (1, 0, 127 # 255, 1)%Q in
  (in_unit_range c1 /\ in_unit_range c2) /\
  (format MATERIAL_NAME (pixel_params "img.png" (strcolor_of c1) 0 0 "nodes")
   = format MATERIAL_NAME (pixel_params "img.png" (strcolor_of c2) 1 0 "nodes")
   <-> eight_bit c1 = eight_bit c2).
Proof.
  intros c1 c2.
  pose (U1 := unit_interval_checked 0 1 1 eq_refl eq_refl).
  pose (U0 := unit_interval_checked 0 0 1 eq_refl eq_refl).
  pose (Uh := unit_interval_checked 0 (1 # 2) 1 eq_refl eq_refl).
  pose (Uk := unit_interval_checked 0 (127 # 255) 1 eq_refl eq_refl).
  assert (R1 : in_unit_range c1) by exact (conj U1 (conj U0 (conj Uh U1))).
  assert (R2 : in_unit_range c2) by exact (conj U1 (conj U0 (conj Uk U1))).
  split; [exact (conj R1 R2)|].
  exact (default_material_names_tell_colors_apart
           c1 c2 "img.png" "nodes" 0 0 1 0 R1 R2).
Defined.

(** ** Registering and unregistering *)

Lemma existsb_absent (x : nat) (l : list nat) :
  ~ In x l -> existsb (Nat.eqb x) l = false.
Proof.
  intros H. destruct (existsb (Nat.eqb x) l) eqn:E; [|reflexivity].
  apply existsb_exists in E. destruct E as (y & Hy & Heq).
  apply Nat.eqb_eq in Heq. subst y. contradiction.
Qed.

Lemma existsb_last (x : nat) (l : list nat) :
  existsb (Nat.eqb x) (l ++ [x]) = true.
Proof.
  apply existsb_exists. exists x. split; [|apply Nat.eqb_refl].
  apply in_or_app. right. left. reflexivity.
Qed.

Lemma remove_first_last (x : nat) (l : list nat) :
  ~ In x l -> remove_first x (l ++ [x]) = l.
Proof.
  induction l as [|y l IH]; intros H; simpl.
  - now rewrite Nat.eqb_refl.
  - destruct (Nat.eqb x y) eqn:E.
    + apply Nat.eqb_eq in E. subst y. exfalso. apply H. left. reflexivity.
    + rewrite IH; [reflexivity|]. intros Hin. apply H. right. exact Hin.
Qed.

(** X16.  For a class and a menu function the host does not know yet, as
    after a fresh load of the file: [register] succeeds and leaves the class
    registered and the function in the menu File > Import; [unregister]
    afterwards succeeds and gives back the classes and the menu exactly as
    they were before [register]; and the block run when the file is executed
    as a script comes to the same as [register] alone, the exception of its
    [unregister] being passed over with nothing removed. *)
Theorem unregister_undoes_register (cls fn : nat) (r : ui) :
  ~ In cls (classes r) ->
  ~ In fn (file_import r) ->
  exists r1,
    register cls fn r = (Return tt, r1) /\
    classes r1 = classes r ++ [cls] /\
    file_import r1 = file_import r ++ [fn] /\
    unregister cls fn r1 = (Return tt, r) /\
    main cls fn r = (Return tt, r1).
Proof.
  intros Hc Hf. destruct r as [cs fs]. cbn [classes file_import] in *.
  set (r0 := {| classes := cs; file_import := fs |}).
  set (r1 := {| classes := cs ++ [cls]; file_import := fs ++ [fn] |}).
  assert (R : register cls fn r0 = (Return tt, r1)).
  { unfold register, and_then, register_class, menu_append, r0.
    cbn [classes file_import]. now rewrite (existsb_absent cls cs Hc). }
  assert (U : unregister cls fn r1 = (Return tt, r0)).
  { unfold unregister, and_then, unregister_class, menu_remove, r1.
    cbn [classes file_import]. rewrite existsb_last.
    cbn [classes file_import].
    now rewrite (remove_first_last cls cs Hc), (remove_first_last fn fs Hf). }
  assert (U0 : fst (unregister cls fn r0) <> Return tt /\
               snd (unregister cls fn r0) = r0).
  { unfold unregister, and_then, unregister_class, r0.
    cbn [classes file_import]. rewrite (existsb_absent cls cs Hc).
    split; [discriminate | reflexivity]. }
  exists r1. split; [exact R|]. split; [reflexivity|]. split; [reflexivity|].
  split; [exact U|].
  unfold main. destruct (unregister cls fn r0) as [u r']. cbn [snd] in U0.
  destruct U0 as [_ ->]. exact R.
Qed.

Lemma unregister_undoes_register_witness :
  let r := {| classes := [3; 5]; file_import := [2; 4] |} in
  exists r1,
    register 7 8 r = (Return tt, r1) /\
    classes r1 = [3; 5; 7] /\
    file_import r1 = [2; 4; 8] /\
    unregister 7 8 r1 = (Return tt, r) /\
    main 7 8 r = (Return tt, r1).
Proof.
  intros r.
  refine (unregister_undoes_register 7 8 r _ _);
    simpl; intros H; repeat (destruct H as [H|H]; [discriminate H|]);
    exact H.
Defined.

(** ** What validation rules out *)

Section Sound.
Context {P : ObjectProtocol}.

Lemma lift_in_values {A : Type} (r : result A) : fails_only_in_values (lift r).
Proof. destruct r; intros e0 [= <-]. eexists. reflexivity. Qed.

Lemma done_in_values {A : Type} (x : A) : fails_only_in_values (Done x).
Proof. intros e [=]. Qed.

Lemma failed_in_values {A B : Type} (e : format_error) :
  fails_only_in_values (@Failed A e) -> fails_only_in_values (@Failed B e).
Proof. intros H e0 [= <-]. exact (H e eq_refl). Qed.

Lemma resolve_in_values (path : list accessor) (o1 o1' o2 : obj) :
  resolve o1 path = Done o1' -> fails_only_in_values (resolve o2 path).
Proof.
  revert o1 o2. induction path as [|[name|sub|msg] path IH]; intros o1 o2; simpl.
  - intros _. apply done_in_values.
  - destruct (py_getattr o1 name) as [p1|]; simpl; [|discriminate].
    intros H. destruct (py_getattr o2 name) as [p2|e2]; simpl.
    + exact (IH _ _ H).
    + intros e0 [= <-]. eexists. reflexivity.
  - destruct (py_getitem o1 sub) as [p1|]; simpl; [|discriminate].
    intros H. destruct (py_getitem o2 sub) as [p2|e2]; simpl.
    + exact (IH _ _ H).
    + intros e0 [= <-]. eexists. reflexivity.
  - discriminate.
Qed.

Lemma get_field_object_in_values (kw1 kw2 : kwargs) (name : string) (o : obj) :
  keys kw1 = keys kw2 ->
  get_field_object kw1 name = Done o ->
  fails_only_in_values (get_field_object kw2 name).
Proof.
  intros Hk. unfold get_field_object. destruct (split_first name) as [first rest].
  destruct (get_integer first); try discriminate.
  destruct first as [|c first]; [discriminate|].
  destruct (lookup (String c first) kw1) as [v|] eqn:L; [|discriminate].
  destruct (lookup_same_keys _ _ _ _ Hk L) as [v' L']. rewrite L'.
  apply resolve_in_values.
Qed.

Lemma do_conversion_in_values (o1 o1' o2 : obj) (c : option ascii) :
  do_conversion o1 c = Done o1' -> fails_only_in_values (do_conversion o2 c).
Proof.
  unfold do_conversion. destruct c as [c|]; [|intros _; apply done_in_values].
  destruct (c =? "000")%char; [intros _; apply done_in_values|].
  destruct (c =? "r")%char; [intros _; apply lift_in_values|].
  destruct (c =? "s")%char; [intros _; apply lift_in_values|].
  destruct (c =? "a")%char; [intros _; apply lift_in_values|].
  discriminate.
Qed.

Lemma output_markup_in_values (expand1 expand2 : string -> fresult string)
      (kw1 kw2 : kwargs) name cv spec ne (s : string) :
  keys kw1 = keys kw2 ->
  (forall sp t, expand1 sp = Done t -> fails_only_in_values (expand2 sp)) ->
  output_markup expand1 kw1 name cv spec ne = Done s ->
  fails_only_in_values (output_markup expand2 kw2 name cv spec ne).
Proof.
  intros Hk He. unfold output_markup.
  destruct (get_field_object kw1 name) as [o1|] eqn:G1; [|discriminate].
  pose proof (get_field_object_in_values _ _ _ _ Hk G1) as G2.
  destruct (get_field_object kw2 name) as [o2|e2]; [|intros _; exact (failed_in_values _ G2)].
  destruct (do_conversion o1 cv) as [c1|] eqn:C1; [|discriminate].
  pose proof (do_conversion_in_values _ _ o2 _ C1) as C2.
  destruct (do_conversion o2 cv) as [c2|e2]; [|intros _; exact (failed_in_values _ C2)].
  destruct ne.
  - destruct (expand1 spec) as [t1|] eqn:E1; [|discriminate].
    pose proof (He _ _ E1) as E2.
    destruct (expand2 spec) as [t2|e2]; [|intros _; exact (failed_in_values _ E2)].
    intros _. apply lift_in_values.
  - intros _. apply lift_in_values.
Qed.

Lemma render_in_values (expand1 expand2 : string -> fresult string)
      (kw1 kw2 : kwargs) (items : list item) (s : string) :
  keys kw1 = keys kw2 ->
  (forall sp t, expand1 sp = Done t -> fails_only_in_values (expand2 sp)) ->
  render expand1 kw1 items = Done s ->
  fails_only_in_values (render expand2 kw2 items).
Proof.
  intros Hk He. revert s.
  induction items as [|[text|name cv spec ne|msg] items IH]; intros s; simpl;
    try discriminate.
  - destruct (render expand1 kw1 items) as [s1|]; [|discriminate].
    intros _. specialize (IH _ eq_refl).
    destruct (render expand2 kw2 items) as [s2|e2];
      [apply done_in_values | exact IH].
  - destruct (output_markup expand1 kw1 name cv spec ne) as [s1|] eqn:O1;
      [|discriminate].
    pose proof (output_markup_in_values _ _ _ _ _ _ _ _ _ Hk He O1) as O2.
    destruct (output_markup expand2 kw2 name cv spec ne) as [t1|e1];
      [|intros _; exact (failed_in_values _ O2)].
    destruct (render expand1 kw1 items) as [s2|]; [|discriminate].
    intros _. specialize (IH _ eq_refl).
    destruct (render expand2 kw2 items) as [t2|e2];
      [apply done_in_values | exact IH].
Qed.

Lemma build_string_in_values (depth : nat) (kw1 kw2 : kwargs)
      (input s : string) :
  keys kw1 = keys kw2 ->
  build_string depth kw1 input = Done s ->
  fails_only_in_values (build_string depth kw2 input).
Proof.
  intros Hk. revert input s. induction depth as [|depth IH]; intros input s;
    simpl; [discriminate|].
  apply render_in_values; [exact Hk|]. intros sp t. apply IH.
Qed.

(** A template that formats with one set of keyword arguments can fail
    with another set of the same keys only inside a value. *)
Lemma format_in_values (template : string) (kw1 kw2 : kwargs) (s : string) :
  keys kw1 = keys kw2 ->
  format template kw1 = Done s ->
  fails_only_in_values (format template kw2).
Proof. apply build_string_in_values. Qed.

End Sound.

(** X17.  When the four templates pass the validation of [execute], a call
    of [format] in the run, whatever the file name, the pixel and its
    colour, either gives a name or fails inside one of the values (its
    subscription, attribute, conversion or [__format__]): never with an
    error of the template's syntax, never for a missing key, never for a
    positional field. *)
Theorem validated_templates_fail_only_in_values {P : ObjectProtocol}
        (self : ImportPixelArt) :
  (forall n v ps, In (n, v, ps) (checks_of self) ->
                  exists s, format v ps = Done s) ->
  forall (filename strcolor : string) (x y : nat) (struse_nodes : string)
         (e : format_error),
    (format (parent_name self) (group_params filename struse_nodes) = Failed e ->
     exists e', e = FromObject e') /\
    (format (material_name self)
            (pixel_params filename strcolor x y struse_nodes) = Failed e ->
     exists e', e = FromObject e') /\
    (format (mesh_name self)
            (pixel_params filename strcolor x y struse_nodes) = Failed e ->
     exists e', e = FromObject e') /\
    (format (cube_name self)
            (pixel_params filename strcolor x y struse_nodes) = Failed e ->
     exists e', e = FromObject e').
Proof.
  intros Hall filename strcolor x y struse_nodes e.
  destruct (Hall _ _ _ (or_introl eq_refl)) as [s1 H1].
  destruct (Hall _ _ _ (or_intror (or_introl eq_refl))) as [s2 H2].
  destruct (Hall _ _ _ (or_intror (or_intror (or_introl eq_refl)))) as [s3 H3].
  destruct (Hall _ _ _ (or_intror (or_intror (or_intror (or_introl eq_refl)))))
    as [s4 H4].
  repeat split; intros F;
    [ exact (format_in_values _ (group_params "" "")
                              (group_params filename struse_nodes) _
                              eq_refl H1 e F)
    | exact (format_in_values _ pix_params
                              (pixel_params filename strcolor x y struse_nodes)
                              _ eq_refl H2 e F)
    | exact (format_in_values _ pix_params
                              (pixel_params filename strcolor x y struse_nodes)
                              _ eq_refl H3 e F)
    | exact (format_in_values _ pix_params
                              (pixel_params filename strcolor x y struse_nodes)
                              _ eq_refl H4 e F) ].
Qed.

Lemma validated_templates_fail_only_in_values_witness :
  let e := Syntax "Single '}' encountered in format string" in
  (format (P := plain_objects) PARENT_NAME (group_params "img.png" "nodes")
   = Failed e -> exists e', e = FromObject e') /\
  (format (P := plain_objects) "{color[7]}"
          (pixel_params "img.png" "FF0000FF" 1 2 "nodes") = Failed e ->
   exists e', e = FromObject e') /\
  (format (P := plain_objects) MESH_NAME
          (pixel_params "img.png" "FF0000FF" 1 2 "nodes") = Failed e ->
   exists e', e = FromObject e') /\
  (format (P := plain_objects) CUBE_NAME
          (pixel_params "img.png" "FF0000FF" 1 2 "nodes") = Failed e ->
   exists e', e = FromObject e').
Proof.
  intros e.
  refine (validated_templates_fail_only_in_values (P := plain_objects)
            {| filepath := "/tmp/img.png"; use_nodes := true;
               reuse_materials := false; parent_name := PARENT_NAME;
               cube_name := CUBE_NAME; mesh_name := MESH_NAME;
               material_name := "{color[7]}" |} _
            "img.png" "FF0000FF" 1 2 "nodes" e).
  intros n v ps [[= <- <- <-]|[[= <- <- <-]|[[= <- <- <-]|[[= <- <- <-]|[]]]]];
    eexists; reflexivity.
Defined.

(** ** A file the host cannot read *)

(** X18.  When the templates pass the validation and the host cannot load
    the file, the exception of [images.load] leaves [execute]: the operator
    neither reports nor cancels, and the host is exactly as before; the
    [try] statement is not entered, so nothing is created and no release is
    attempted. *)
Theorem unreadable_file_is_not_reported {P : ObjectProtocol} {N : Naming}
        (self : ImportPixelArt) (h : host) :
  (forall n v ps, In (n, v, ps) (checks_of self) ->
                  exists s, format v ps = Done s) ->
  find_file (filepath self) (files h) = None ->
  exists e, execute self h = (Raise e, h).
Proof.
  intros Hall Hfile. unfold execute. fold (checks_of self).
  rewrite (bind_return _ _ _ _ _ (validate_all_pass (checks_of self) h
             ltac:(apply Forall_forall; intros [[n v] ps] Hin;
                   exact (Hall n v ps Hin)))).
  unfold read_pixel_art, bind, images_load. rewrite Hfile.
  eexists. reflexivity.
Qed.

Lemma unreadable_file_is_not_reported_witness :
  let self := {| filepath := "/tmp/missing.png"; use_nodes := true;
                 reuse_materials := false; parent_name := PARENT_NAME;
                 cube_name := CUBE_NAME; mesh_name := MESH_NAME;
                 material_name := MATERIAL_NAME |} in
  let h := empty_host [("/tmp/img.png", rgb_2x1)] in
  find_file "/tmp/missing.png" (files h) = None /\
  exists e,
    execute (P := plain_objects) (N := numbered_names) self h = (Raise e, h).
Proof.
  intros self h. split; [reflexivity|].
  refine (unreadable_file_is_not_reported (P := plain_objects)
            (N := numbered_names) self h _ eq_refl).
  intros n v ps [[= <- <- <-]|[[= <- <- <-]|[[= <- <- <-]|[[= <- <- <-]|[]]]]];
    eexists; reflexivity.
Defined.
